(** * BikePool: the seat-booking controller of [app/routes/rides.py]

    A shallow embedding of the booking, cancellation, deletion and posting
    handlers of the BikePool Flask application, of the scheduling helper
    [get_ride_datetime] of [app/utils.py], and of the two tables of
    [app/models.py] they write ([BikeRide] and [Booking]).

    Conventions.
    - Python integers are unbounded: they are [Z].
    - A [datetime.date] is its proleptic Gregorian ordinal, a
      [datetime.time] (naive, as the [Time] columns are) is its number of
      microseconds since midnight, a naive [datetime.datetime] is the number
      of microseconds since the midnight that starts ordinal day 0.
    - A table is a finite map from primary key to row ([BikeRide]) or the
      list of its rows in insertion order ([Booking]).
    - A view returns a [Response]; what it sends to collaborators (sleeps,
      notifications, e-mails) is recorded in an effect log. *)

From Stdlib Require Import ZArith Lia.
From stdpp Require Import base option list gmap strings.
From stdpp Require Import pretty sorting.

#[local] Open Scope string_scope.
#[local] Open Scope list_scope.
#[local] Open Scope Z_scope.

(** ** Python's [datetime] module, as far as the handlers use it *)

Module Py.

Definition date := Z.
Definition time := Z.
Definition datetime := Z.

Definition us_per_day : Z := 86400000000.

(** [date.max.toordinal()], the ordinal of 9999-12-31. *)
Definition MAXORDINAL : Z := 3652059.

Definition valid_date (d : date) : Prop := 1 <= d <= MAXORDINAL.
Definition valid_time (t : time) : Prop := 0 <= t < us_per_day.

(** [time(hour, minute)] *)
Definition hm (hour minute : Z) : time := (hour * 60 + minute) * 60000000.

(** [datetime.combine(d, t)] *)
Definition combine (d : date) (t : time) : datetime := d * us_per_day + t.

(** [dt.toordinal()] *)
Definition toordinal (dt : datetime) : Z := dt / us_per_day.

(** [dt + timedelta(days=n)]: [None] stands for the [OverflowError]
    ("date value out of range") raised when the resulting day leaves
    [1 .. MAXORDINAL]. *)
Definition add_days (dt : datetime) (n : Z) : option datetime :=
  let r := dt + n * us_per_day in
  if (0 <? toordinal r) && (toordinal r <=? MAXORDINAL) then Some r else None.

(** [a < b] and [a <= b] on naive datetimes. *)
Definition lt (a b : datetime) : bool := a <? b.
Definition le (a b : datetime) : bool := a <=? b.

End Py.

(** ** [app/utils.py]: the scheduling policy *)

(** [get_ride_datetime(ride_date, ride_time, ride_end_time=None)].
    [ride_time] is a [time] object (the column is not nullable) and
    [ride_end_time] is a [time] object or [None]; since Python 3.5 every
    [time] object is truthy, midnight included, so the two truth tests of
    the source are tests against [None].  The result is [None] when the
    [+= timedelta(days=1)] raises. *)
Definition get_ride_datetime (ride_date : Py.date) (ride_time : Py.time)
    (ride_end_time : option Py.time) : option (Py.datetime * Py.datetime) :=
  let ride_dt_start := Py.combine ride_date ride_time in
  let end_time := match ride_end_time with Some e => e | None => ride_time end in
  let ride_dt_end := Py.combine ride_date end_time in
  if bool_decide (is_Some ride_end_time) && Py.le ride_dt_end ride_dt_start
  then ride_dt_end' ← Py.add_days ride_dt_end 1; Some (ride_dt_start, ride_dt_end')
  else Some (ride_dt_start, ride_dt_end).

(** The test every handler applies to the end of the window:
    [ride_dt_end < datetime.now()]. *)
Definition completed_at (ride_dt_end now : Py.datetime) : bool := Py.lt ride_dt_end now.

(** ** [app/models.py]: the rows *)

Record User := mkUser {
  username : string;
  email : string;
  gender : string
}.

Record BikeRide := mkBikeRide {
  rider_id : Z;
  source : string;
  destination : string;
  seats_available : Z;
  ride_date : Py.date;
  ride_time : Py.time;
  ride_end_time : option Py.time;
  rider_gender_preference : string;
  version : Z
}.

(** A [Booking] row without its surrogate key: the table is the list of its
    rows in insertion order. *)
Record Booking := mkBooking {
  ride_id : Z;
  passenger_id : Z
}.

#[global] Instance Booking_eq_dec : EqDecision Booking.
Proof. solve_decision. Defined.

Record DB := mkDB {
  users : gmap Z User;
  bike_rides : gmap Z BikeRide;
  bookings : list Booking
}.

(** [Booking.query.filter_by(ride_id=r, passenger_id=u).first()], as the
    truth value the handlers test. *)
Definition has_booking (db : DB) (r u : Z) : bool :=
  bool_decide (mkBooking r u ∈ bookings db).

(** [db.session.delete(booking)] for the first matching row. *)
Fixpoint delete_row (b : Booking) (rows : list Booking) : list Booking :=
  match rows with
  | [] => []
  | x :: rows' => if decide (x = b) then rows' else x :: delete_row b rows'
  end.

(** The rows that survive the cascade of deleting ride [r]. *)
Definition cascade (r : Z) (rows : list Booking) : list Booking :=
  filter (λ b, ride_id b ≠ r) rows.

(** ** What a view hands back *)

(** The Flask session of an authenticated request. *)
Record Session := mkSession {
  sess_user_id : Z;
  sess_is_rider : bool;
  sess_username : string
}.

Inductive Response :=
| redirect (endpoint : string)
| render_template (template : string) (status : Z)
| abort (status : Z)
| raised (exception : string).

(** The response together with the message given to [flash], if any:
    [(message, category)]. *)
Record Reply := mkReply {
  flashed : option (string * string);
  response : Response
}.

Definition dashboard (message category : string) : Reply :=
  mkReply (Some (message, category)) (redirect "main.dashboard").

Inductive Effect :=
| Sleep (milliseconds : Z)
| Notify (user : Z) (message : string)
| Email (recipient subject : string).

(** ** [app/routes/rides.py]: [book_ride]

    One request is a thread of control over the shared store.  Its atomic
    steps are the statements that reach the store: the reads each see the
    last committed state, and the conditional [UPDATE] followed by the
    [INSERT] and the [commit] is one transaction.  Between two steps of a
    request any other request may run. *)

Definition max_retries : Z := 4.

(** [0.08 * attempt] seconds, in milliseconds. *)
Definition backoff (attempt : Z) : Z := 80 * attempt.

(** Where a [book_ride] request stands. *)
Inductive Pc :=
| Entry
    (* line 22 *)
| LoopHead (passenger : User) (attempt : Z)
    (* line 35, [while attempt < max_retries] *)
| Fetched (passenger : User) (attempt : Z) (ride : BikeRide)
    (* line 54, the ride object loaded and the gender and time checks passed *)
| Update (passenger : User) (attempt : Z) (ride : BikeRide)
    (* line 63, the ride object as it was loaded in this attempt *)
| Recheck (passenger : User) (attempt : Z)
    (* line 90, after the rollback of an [IntegrityError] *)
| Return (reply : Reply).

Record Thread := mkThread {
  session : Session;
  target : Z;
  pc : Pc;
  effects : list Effect
}.

Definition goto (t : Thread) (p : Pc) : Thread :=
  mkThread (session t) (target t) p (effects t).

Definition perform (t : Thread) (es : list Effect) (p : Pc) : Thread :=
  mkThread (session t) (target t) p (effects t ++ es).

(** The row written by
    [.values(seats_available=new_seats, version=new_version)]. *)
Definition set_seats_version (row : BikeRide) (new_seats new_version : Z) : BikeRide :=
  mkBikeRide (rider_id row) (source row) (destination row) new_seats
    (ride_date row) (ride_time row) (ride_end_time row)
    (rider_gender_preference row) new_version.

(** The [WHERE] clause of the conditional write, on the row stored under
    [ride.id]. *)
Definition guard (row : BikeRide) (old_version : Z) : bool :=
  (version row =? old_version) && (0 <? seats_available row).

Definition booked_message (t : Thread) (ride : BikeRide) : string :=
  String.append "🎉 " (String.append (sess_username (session t))
    (String.append " booked a seat on your ride to "
      (String.append (destination ride) "!"))).

Definition preference_message (ride : BikeRide) : string :=
  String.append "This ride has a gender preference of '"
    (String.append (rider_gender_preference ride) "'.").

(** One step of a request.  [now] is what [datetime.now()] returns in this
    step; [store_ok = false] means that the store raises a
    [SQLAlchemyError] in this step. *)
Definition book_ride_step (now : Py.datetime) (store_ok : bool) (db : DB)
    (t : Thread) : DB * Thread :=
  let user_id := sess_user_id (session t) in
  let ride_id := target t in
  let failed := goto t (Return (dashboard "An error occurred during booking." "error")) in
  match pc t with
  | Entry =>
      if sess_is_rider (session t)
      then (db, goto t (Return (dashboard "Riders cannot book rides." "error")))
      else if negb store_ok
      then (db, goto t (Return (mkReply None (raised "SQLAlchemyError"))))
      else match users db !! user_id with
           | None =>
               (db, goto t (Return (mkReply (Some ("Invalid session user.", "error"))
                                      (redirect "auth.login"))))
           | Some passenger => (db, goto t (LoopHead passenger 0))
           end
  | LoopHead passenger attempt =>
      if attempt <? max_retries then
        let attempt := attempt + 1 in
        if negb store_ok then (db, failed)
        else match bike_rides db !! ride_id with
        | None => (db, goto t (Return (dashboard "Ride not found." "error")))
        | Some ride =>
            if negb (String.eqb (rider_gender_preference ride) "Any")
               && negb (String.eqb (gender passenger) (rider_gender_preference ride))
            then (db, goto t (Return (dashboard (preference_message ride) "error")))
            else match get_ride_datetime (ride_date ride) (ride_time ride) (ride_end_time ride) with
            | None => (db, goto t (Return (mkReply None (raised "OverflowError"))))
            | Some (_, ride_dt_end) =>
                if completed_at ride_dt_end now
                then (db, goto t (Return (dashboard "Ride has already completed." "error")))
                else (db, goto t (Fetched passenger attempt ride))
            end
        end
      else
        (db, goto t (Return (dashboard
           "Unable to book ride at this time due to high contention. Please try again."
           "error")))
  | Fetched passenger attempt ride =>
      if negb store_ok then (db, failed)
      else if has_booking db ride_id user_id
      then (db, goto t (Return (dashboard "You have already booked this ride." "info")))
      else if seats_available ride <=? 0
      then (db, goto t (Return (dashboard "Ride is full." "error")))
      else (db, goto t (Update passenger attempt ride))
  | Update passenger attempt ride =>
      let old_version := version ride in
      let new_seats := seats_available ride - 1 in
      let new_version := old_version + 1 in
      if negb store_ok then (db, failed)
      else
        let retry := (db, perform t [Sleep (backoff attempt)] (LoopHead passenger attempt)) in
        match bike_rides db !! ride_id with
        | None => retry
        | Some row =>
            if guard row old_version then
              if has_booking db ride_id user_id
              then (db, goto t (Recheck passenger attempt))
              else
                (mkDB (users db)
                      (<[ride_id := set_seats_version row new_seats new_version]> (bike_rides db))
                      (bookings db ++ [mkBooking ride_id user_id]),
                 perform t [Notify (rider_id ride) (booked_message t ride);
                            Email (email passenger) "Booking Confirmed - BikePool"]
                   (Return (dashboard "Ride booked successfully!" "success")))
            else retry
        end
  | Recheck passenger attempt =>
      if negb store_ok then (db, failed)
      else if has_booking db ride_id user_id
      then (db, goto t (Return (dashboard "You have already booked this ride." "info")))
      else if max_retries <=? attempt
      then (db, goto t (Return (dashboard
              "Could not complete booking due to concurrent updates. Please try again."
              "error")))
      else (db, perform t [Sleep (backoff attempt)] (LoopHead passenger attempt))
  | Return _ => (db, t)
  end.

(** A request as it arrives. *)
Definition request (s : Session) (ride_id : Z) : Thread := mkThread s ride_id Entry [].

(** [n] consecutive steps of one request with no other request in
    between, the clock standing at [now] and the store healthy. *)
Fixpoint run (n : nat) (now : Py.datetime) (db : DB) (t : Thread) : DB * Thread :=
  match n with
  | O => (db, t)
  | S n' => let '(db', t') := book_ride_step now true db t in run n' now db' t'
  end.

(** The whole handler, served alone: a request needs one step to enter,
    at most four steps for each of its [max_retries] attempts and one to
    leave the loop. *)
Definition book_ride (s : Session) (ride_id : Z) (now : Py.datetime) (db : DB) : DB * Thread :=
  run 18 now db (request s ride_id).

(** ** [cancel_booking]

    The handler loads the ride object (line 134), then looks for the
    booking and reads the clock (lines 135-139), and only in its [commit]
    (line 149) writes the seat count and the version it computed from the
    ride object it loaded: the [UPDATE] the session flushes sets both
    columns of the row under the ride's key to those values, with no
    condition on the version.  Between two of these phases any other
    request may run; [cancel_booking] below is the handler served alone. *)

Definition cancelled_message (s : Session) : string :=
  String.append "😔 " (String.append (sess_username s) " cancelled their booking.").

(** Lines 130-134: the answer, or the ride object the request goes on
    with. *)
Definition cancel_fetch (s : Session) (ride_id : Z) (db : DB) : Reply + BikeRide :=
  if sess_is_rider s then inl (mkReply None (redirect "main.dashboard"))
  else match bike_rides db !! ride_id with
       | None => inl (mkReply None (abort 404))
       | Some ride => inr ride
       end.

(** Lines 135-143 and the [else] of line 156, for the ride object loaded
    before: the answer, or [None] when a booking was found on a ride that is
    not completed and the handler goes on to its [try]. *)
Definition cancel_check (s : Session) (ride_id : Z) (ride : BikeRide)
    (now : Py.datetime) (db : DB) : option Reply :=
  let booking := has_booking db ride_id (sess_user_id s) in
  match get_ride_datetime (ride_date ride) (ride_time ride) (ride_end_time ride) with
  | None => Some (mkReply None (raised "OverflowError"))
  | Some (_, ride_dt_end) =>
      if completed_at ride_dt_end now
      then Some (dashboard "Cannot cancel a completed ride." "error")
      else if booking then None
      else Some (dashboard "Booking not found." "error")
  end.

(** Lines 144-155: the transaction, on the store as it is committed to.
    [ride] is the object loaded at line 134; the row written keeps the other
    columns of the stored row.  [store_ok = false] means that the [commit]
    raises a [SQLAlchemyError]; when the row is gone the [UPDATE] matches
    nothing, which the session raises as a [StaleDataError], a
    [SQLAlchemyError] too. *)
Definition cancel_commit (s : Session) (ride_id : Z) (ride : BikeRide)
    (store_ok : bool) (db : DB) : DB * Reply * list Effect :=
  let failed := (db, dashboard "An error occurred during cancellation." "error", []) in
  if store_ok then
    match bike_rides db !! ride_id with
    | None => failed
    | Some row =>
        (mkDB (users db)
              (<[ride_id := set_seats_version row (seats_available ride + 1)
                              (version ride + 1)]> (bike_rides db))
              (delete_row (mkBooking ride_id (sess_user_id s)) (bookings db)),
         dashboard "Booking cancelled." "info",
         [Notify (rider_id ride) (cancelled_message s)])
    end
  else failed.

(** The whole handler, served alone: its three phases on one store. *)
Definition cancel_booking (s : Session) (ride_id : Z) (now : Py.datetime)
    (store_ok : bool) (db : DB) : DB * Reply * list Effect :=
  match cancel_fetch s ride_id db with
  | inl reply => (db, reply, [])
  | inr ride =>
      match cancel_check s ride_id ride now db with
      | Some reply => (db, reply, [])
      | None => cancel_commit s ride_id ride store_ok db
      end
  end.

(** ** [delete_ride] and [post_bike_ride]

    These handlers read, write and commit without a retry loop and without
    a version check; each is taken as one critical section on the store, a
    function of the store it finds.  [store_ok = false] means that the
    [commit] that ends the handler's [try] raises a [SQLAlchemyError]. *)

Definition ride_cancelled_message (ride : BikeRide) : string :=
  String.append "⚠️ Your ride from " (String.append (source ride)
    (String.append " to " (String.append (destination ride) " was cancelled."))).

(** The notifications of [delete_ride]: one for each booking of the ride
    whose passenger row exists.  The source walks [ride.bookings], a
    relationship without [order_by], so the order of the notices is the
    one in which the store returns the rows; they are listed here in
    insertion order, and only which notices are sent, and how many, is
    used below. *)
Definition cancellation_notices (db : DB) (r : Z) (ride : BikeRide) : list Effect :=
  omap (λ b, if decide (ride_id b = r) then
               _ ← users db !! passenger_id b;
               Some (Notify (passenger_id b) (ride_cancelled_message ride))
             else None)
       (bookings db).

(** [form_valid] is the result of [form.validate_on_submit()]. *)
Definition delete_ride (s : Session) (ride_id : Z) (form_valid : bool)
    (now : Py.datetime) (store_ok : bool) (db : DB) : DB * Reply * list Effect :=
  if negb (sess_is_rider s)
  then (db, dashboard "Only riders can delete rides." "error", [])
  else if form_valid then
    match bike_rides db !! ride_id with
    | None => (db, mkReply None (abort 404), [])
    | Some ride =>
        if negb (rider_id ride =? sess_user_id s)
        then (db, dashboard "You are not authorized to delete this ride." "error", [])
        else match get_ride_datetime (ride_date ride) (ride_time ride) (ride_end_time ride) with
        | None => (db, mkReply None (raised "OverflowError"), [])
        | Some (_, ride_dt_end) =>
            if completed_at ride_dt_end now
            then (db, dashboard "Cannot delete a completed ride." "error", [])
            else if store_ok then
              (mkDB (users db) (delete ride_id (bike_rides db)) (cascade ride_id (bookings db)),
               dashboard "Ride deleted successfully." "success",
               cancellation_notices db ride_id ride)
            else (db, dashboard "An error occurred while deleting the ride." "error",
                  cancellation_notices db ride_id ride)
        end
    end
  else (db, mkReply None (redirect "main.dashboard"), []).

(** The data of a [PostRideForm] that passed validation. *)
Record PostRideForm := mkPostRideForm {
  form_source : string;
  form_destination : string;
  form_seats : Z;
  form_ride_date : Py.date;
  form_ride_time : Py.time;
  form_ride_end_time : option Py.time;
  form_rider_gender_preference : string
}.

(** [form] is [None] when [form.validate_on_submit()] is false; [new_id] is
    the primary key the store assigns, rejected if it is taken.  A new row
    gets the column default [version = 1]. *)
Definition post_bike_ride (s : Session) (form : option PostRideForm) (new_id : Z)
    (now : Py.datetime) (store_ok : bool) (db : DB) : DB * Reply * list Effect :=
  let page := render_template "optimized/post_bike_ride.html" in
  if negb (sess_is_rider s)
  then (db, dashboard "Only riders can post rides." "error", [])
  else match form with
  | None => (db, mkReply None (page 200), [])
  | Some f =>
      match get_ride_datetime (form_ride_date f) (form_ride_time f) (form_ride_end_time f) with
      | None => (db, mkReply None (raised "OverflowError"), [])
      | Some (ride_dt_start, _) =>
          if Py.lt ride_dt_start now
          then (db, mkReply (Some ("Cannot post a ride in the past.", "error")) (page 400), [])
          else if store_ok && bool_decide (bike_rides db !! new_id = None) then
            (mkDB (users db)
                  (<[new_id := mkBikeRide (sess_user_id s) (form_source f) (form_destination f)
                                 (form_seats f) (form_ride_date f) (form_ride_time f)
                                 (form_ride_end_time f) (form_rider_gender_preference f) 1]>
                     (bike_rides db))
                  (bookings db),
             dashboard "Ride posted successfully!" "success", [])
          else (db, mkReply (Some ("Failed to post ride.", "error")) (page 200), [])
      end
  end.

(** ** Concurrent requests

    The application serves any number of [book_ride] requests over one
    store.  A state of the system is the committed store and the requests
    in flight or answered; a step is the arrival of a request or one step
    of one request, at any clock value and with the store healthy or not. *)

Record System := mkSystem {
  store : DB;
  threads : list Thread
}.

Inductive sys_step : System → System → Prop :=
| arrive db ts s ride_id :
    sys_step (mkSystem db ts) (mkSystem db (ts ++ [request s ride_id]))
| advance db ts1 t ts2 now store_ok :
    sys_step (mkSystem db (ts1 ++ t :: ts2))
             (mkSystem (book_ride_step now store_ok db t).1
                       (ts1 ++ (book_ride_step now store_ok db t).2 :: ts2)).

Definition reachable (db0 : DB) (sys : System) : Prop :=
  rtc sys_step (mkSystem db0 []) sys.

#[global] Instance Response_eq_dec : EqDecision Response.
Proof. solve_decision. Defined.

#[global] Instance Reply_eq_dec : EqDecision Reply.
Proof. solve_decision. Defined.

#[global] Instance User_eq_dec : EqDecision User.
Proof. solve_decision. Defined.

#[global] Instance BikeRide_eq_dec : EqDecision BikeRide.
Proof. solve_decision. Defined.

#[global] Instance Pc_eq_dec : EqDecision Pc.
Proof. solve_decision. Defined.

(** ** The vocabulary of the specification, as replies of the handlers *)

Definition Booked : Reply := dashboard "Ride booked successfully!" "success".
Definition NotFound : Reply := dashboard "Ride not found." "error".
Definition PolicyRejected (ride : BikeRide) : Reply :=
  dashboard (preference_message ride) "error".
Definition RideCompleted : Reply := dashboard "Ride has already completed." "error".
Definition AlreadyBooked : Reply := dashboard "You have already booked this ride." "info".
Definition RideFull : Reply := dashboard "Ride is full." "error".
Definition HighContention : Reply :=
  dashboard "Unable to book ride at this time due to high contention. Please try again."
    "error".
Definition CancelCompleted : Reply := dashboard "Cannot cancel a completed ride." "error".
Definition Cancelled : Reply := dashboard "Booking cancelled." "info".
Definition BookingNotFound : Reply := dashboard "Booking not found." "error".

(** A reply is an error to the caller when it is flashed in the [error]
    category or is no redirect to a page. *)
Definition is_error (r : Reply) : bool :=
  match flashed r, response r with
  | Some (_, category), redirect _ => String.eqb category "error"
  | None, redirect _ => false
  | _, _ => true
  end.

(** The reservations of ride [r] that succeeded, [AlreadyBooked] answers
    not counted. *)
Definition has_booked (r : Z) (t : Thread) : bool :=
  bool_decide (target t = r) && bool_decide (pc t = Return Booked).

(** ** One request among others *)

(** The states a request can be in, whatever the other requests do to the
    store between its steps. *)
Inductive thread_reach (s : Session) (ride_id : Z) : Thread → Prop :=
| reach_request : thread_reach s ride_id (request s ride_id)
| reach_step t now store_ok db :
    thread_reach s ride_id t →
    thread_reach s ride_id (book_ride_step now store_ok db t).2.

(** The steps of a request that finds, at each step, the clock, the store's
    health and the committed store listed in [env]. *)
Fixpoint run_env (env : list (Py.datetime * bool * DB)) (t : Thread) : Thread :=
  match env with
  | [] => t
  | (now, store_ok, db) :: env' => run_env env' (book_ride_step now store_ok db t).2
  end.

(** The sleeps of the first [k] attempts when each of them backs off. *)
Definition backoffs (k : Z) : list Effect :=
  (λ attempt, Sleep (backoff attempt)) <$> seqZ 1 k.

(** The steps a request can still take: one to enter, four for each
    attempt left, one to leave the loop. *)
Definition steps_left (p : Pc) : Z :=
  match p with
  | Entry => 18
  | LoopHead _ attempt => 17 - 4 * attempt
  | Fetched _ attempt _ => 16 - 4 * (attempt - 1)
  | Update _ attempt _ => 15 - 4 * (attempt - 1)
  | Recheck _ attempt => 14 - 4 * (attempt - 1)
  | Return _ => 0
  end.

(** The attempt counter of a request. *)
Definition attempt_of (p : Pc) : Z :=
  match p with
  | LoopHead _ attempt | Fetched _ attempt _ | Update _ attempt _ | Recheck _ attempt =>
      attempt
  | Entry | Return _ => 0
  end.

(** What the effect log of a request holds at each point of the handler. *)
Definition log_ok (t : Thread) : Prop :=
  match pc t with
  | Entry => effects t = []
  | LoopHead _ attempt => 0 <= attempt <= max_retries ∧ effects t = backoffs attempt
  | Fetched _ attempt _ | Update _ attempt _ | Recheck _ attempt =>
      1 <= attempt <= max_retries ∧ effects t = backoffs (attempt - 1)
  | Return reply => reply = HighContention → effects t = backoffs max_retries
  end.

(** The number of reservations of ride [r] answered "Ride booked
    successfully!". *)
Definition booked_count (r : Z) (ts : list Thread) : Z :=
  Z.of_nat (length (filter (λ t, has_booked r t = true) ts)).

(** The ride object a request holds between its read and its write. *)
Definition snapshot_of (p : Pc) : option BikeRide :=
  match p with
  | Fetched _ _ ride | Update _ _ ride => Some ride
  | _ => None
  end.

(** The ride object a request of ride [r] holds is not newer than the
    stored row [cur], and has its seats when it has its version. *)
Definition snapshot_ok (r : Z) (cur : BikeRide) (t : Thread) : Prop :=
  target t = r →
  ∀ ride, snapshot_of (pc t) = Some ride →
    version ride <= version cur
    ∧ (version ride = version cur → seats_available ride = seats_available cur).

(** The invariant of the system for ride [r], which held [N] seats at
    version [v0] when the first request arrived. *)
Definition seats_inv (r N v0 : Z) (sys : System) : Prop :=
  ∃ cur,
    bike_rides (store sys) !! r = Some cur
    ∧ 0 <= seats_available cur
    ∧ booked_count r (threads sys) + seats_available cur = N
    ∧ version cur = v0 + booked_count r (threads sys)
    ∧ Forall (snapshot_ok r cur) (threads sys).

(** ** Schedules

    A schedule lists which request arrives or takes its next step, and
    with which clock value and store health; [exec] runs it. *)

Inductive Event :=
| Arrive (s : Session) (ride_id : Z)
| Advance (i : nat) (now : Py.datetime) (store_ok : bool).

Definition fire (e : Event) (sys : System) : System :=
  match e with
  | Arrive s ride_id => mkSystem (store sys) (threads sys ++ [request s ride_id])
  | Advance i now store_ok =>
      match threads sys !! i with
      | Some t =>
          mkSystem (book_ride_step now store_ok (store sys) t).1
                   (<[i := (book_ride_step now store_ok (store sys) t).2]> (threads sys))
      | None => sys
      end
  end.

Definition exec (schedule : list Event) (sys : System) : System :=
  foldl (λ sys e, fire e sys) sys schedule.

(** Calls served one after the other, each handler running alone from its
    first step to its answer. *)
Definition serve (calls : list (Session * Z * Py.datetime)) (sys : System) : System :=
  foldl (λ sys '(s, ride_id, now),
           mkSystem (book_ride s ride_id now (store sys)).1
                    (threads sys ++ [(book_ride s ride_id now (store sys)).2]))
        sys calls.

(** ** Sample data, for the examples below *)

Module Sample.

Definition asha : User := mkUser "asha" "asha@example.org" "Female".
Definition ravi : User := mkUser "ravi" "ravi@example.org" "Male".
Definition owner : User := mkUser "meera" "meera@example.org" "Female".

Definition asha_session : Session := mkSession 7 false "asha".
Definition ravi_session : Session := mkSession 8 false "ravi".

(** A ride of one seat on day 739000, from 23:00 to 01:00 on the next day. *)
Definition night_ride : BikeRide :=
  mkBikeRide 1 "Pune" "Lonavala" 1 739000 (Py.hm 23 0) (Some (Py.hm 1 0)) "Any" 1.

Definition db0 : DB :=
  mkDB {[ 1 := owner; 7 := asha; 8 := ravi ]} {[ 5 := night_ride ]} [].

(** The store after asha booked the seat. *)
Definition db1 : DB :=
  mkDB {[ 1 := owner; 7 := asha; 8 := ravi ]}
       {[ 5 := set_seats_version night_ride 0 2 ]} [mkBooking 5 7].

(** A store in which asha's booking is there while the ride row still has
    the seat and the version a request of hers has read. *)
Definition db2 : DB :=
  mkDB {[ 1 := owner; 7 := asha; 8 := ravi ]} {[ 5 := night_ride ]} [mkBooking 5 7].

(** The store as a request finds it when other passengers book and
    cancel the seat again and again: the seat is free, at version [v]. *)
Definition busy (v : Z) : DB :=
  mkDB {[ 1 := owner; 7 := asha; 8 := ravi ]}
       {[ 5 := set_seats_version night_ride 1 v ]} [].

(** 23:30 on the ride date, and 02:00 on the next date. *)
Definition during : Py.datetime := Py.combine 739000 (Py.hm 23 30).
Definition after : Py.datetime := Py.combine 739001 (Py.hm 2 0).

(** What a request finds at each of its steps when, in each of its four
    attempts, the row changes between its read and its write. *)
Definition contended : list (Py.datetime * bool * DB) :=
  (during, true, busy 1)
  :: flat_map (λ v, [(during, true, busy v); (during, true, busy v);
                     (during, true, busy (v + 2))]) [1; 3; 5; 7]
  ++ [(during, true, busy 9)].

(** Asha and Ravi ask for the one seat at the same time: both read the
    ride before either writes. *)
Definition race : list Event :=
  [Arrive asha_session 5; Arrive ravi_session 5;
   Advance 0 during true; Advance 1 during true;
   Advance 0 during true; Advance 1 during true;
   Advance 0 during true; Advance 1 during true;
   Advance 0 during true; Advance 1 during true;
   Advance 1 during true; Advance 1 during true].

(** Asha, Ravi and Asha again, each call served before the next. *)
Definition queue : list (Session * Z * Py.datetime) :=
  [(asha_session, 5, during); (ravi_session, 5, during); (asha_session, 5, during)].

End Sample.

(** ** Calls served one after the other

    Any of the four handlers that write rides or bookings, served alone on
    the store the previous call left. *)

Inductive Call :=
| CallBook (s : Session) (ride_id : Z) (now : Py.datetime)
| CallCancel (s : Session) (ride_id : Z) (now : Py.datetime) (store_ok : bool)
| CallDelete (s : Session) (ride_id : Z) (form_valid : bool) (now : Py.datetime)
    (store_ok : bool)
| CallPost (s : Session) (form : option PostRideForm) (new_id : Z) (now : Py.datetime)
    (store_ok : bool).

Definition call (c : Call) (db : DB) : DB :=
  match c with
  | CallBook s ride_id now => (book_ride s ride_id now db).1
  | CallCancel s ride_id now store_ok => (cancel_booking s ride_id now store_ok db).1.1
  | CallDelete s ride_id form_valid now store_ok =>
      (delete_ride s ride_id form_valid now store_ok db).1.1
  | CallPost s form new_id now store_ok =>
      (post_bike_ride s form new_id now store_ok db).1.1
  end.

Definition calls (cs : list Call) (db : DB) : DB := foldl (λ db c, call c db) db cs.

(** The booking rows of ride [r]. *)
Definition bookings_of (r : Z) (db : DB) : list Booking :=
  filter (λ b, ride_id b = r) (bookings db).

(** The seats of ride [r] that are free or booked. *)
Definition capacity (db : DB) (r : Z) : option Z :=
  ride ← bike_rides db !! r;
  Some (seats_available ride + Z.of_nat (length (bookings_of r db))).

(** What the tables promise each other: one booking row for a pair
    ([_ride_passenger_uc]), no booking without its ride, no negative seat
    count. *)
Definition consistent (db : DB) : Prop :=
  NoDup (bookings db)
  ∧ (∀ b, b ∈ bookings db → is_Some (bike_rides db !! ride_id b))
  ∧ (∀ r ride, bike_rides db !! r = Some ride → 0 <= seats_available ride).

(** What [NumberRange(min=1)] of [PostRideForm] lets through. *)
Definition posts_a_seat (c : Call) : Prop :=
  match c with
  | CallPost _ (Some f) _ _ _ => 1 <= form_seats f
  | _ => True
  end.

(** A call that is no [delete_ride] of ride [r]. *)
Definition spares (r : Z) (c : Call) : Prop :=
  match c with
  | CallDelete _ ride_id _ _ _ => ride_id ≠ r
  | _ => True
  end.




(** The ride object a request holds at its conditional write has a seat. *)
Definition holds_a_seat (t : Thread) : Prop :=
  match pc t with
  | Update _ _ ride => 0 < seats_available ride
  | _ => True
  end.

(** ** [app/routes/rides.py]: [rate_ride] and [ride_chat]

    The [Rating] rows without surrogate key and timestamp, in insertion
    order, and the [Message] rows. *)

Record Rating := mkRating {
  rating_ride_id : Z;
  rating_passenger_id : Z;
  rating_value : Z;
  comments : string
}.

(** [Rating.query.filter_by(ride_id=r, passenger_id=u).first()], as the
    truth value the handler tests. *)
Definition has_rating (ratings : list Rating) (r u : Z) : bool :=
  existsb (λ x, (rating_ride_id x =? r) && (rating_passenger_id x =? u)) ratings.

Inductive Method := GET | POST.

(** [int(request.form['rating'])]: the field is missing (werkzeug answers
    400), is no integer literal ([ValueError]), or is the integer [v]. *)
Inductive RatingField :=
| Missing
| NotAnInteger
| Parsed (v : Z).

Definition star_message (rating_value : Z) : string :=
  String.append "⭐ You received a "
    (String.append (pretty rating_value) "-star rating!").

Definition rate_page (message : option (string * string)) : Reply :=
  mkReply message (render_template "optimized/rate_ride.html" 200).

(** [store_ok = false] means that the [commit] of the new rating raises a
    [SQLAlchemyError]. *)
Definition rate_ride (s : Session) (ride_id : Z) (method : Method)
    (rating : RatingField) (form_comments : string) (now : Py.datetime)
    (store_ok : bool) (db : DB) (ratings : list Rating)
    : list Rating * Reply * list Effect :=
  if sess_is_rider s
  then (ratings, dashboard "Riders cannot rate rides." "error", [])
  else
    let user_id := sess_user_id s in
    match bike_rides db !! ride_id with
    | None => (ratings, mkReply None (abort 404), [])
    | Some ride =>
        let booking := has_booking db ride_id user_id in
        match get_ride_datetime (ride_date ride) (ride_time ride) (ride_end_time ride) with
        | None => (ratings, mkReply None (raised "OverflowError"), [])
        | Some (_, ride_dt_end) =>
            if negb booking || Py.le now ride_dt_end
            then (ratings, dashboard "This ride cannot be rated yet." "error", [])
            else if has_rating ratings ride_id user_id
            then (ratings, dashboard "You have already rated this ride." "info", [])
            else match method with
            | GET => (ratings, rate_page None, [])
            | POST =>
                match rating with
                | Missing => (ratings, mkReply None (abort 400), [])
                | NotAnInteger =>
                    (ratings,
                     rate_page (Some ("Invalid rating or error saving.", "error")), [])
                | Parsed rating_value =>
                    if (1 <=? rating_value) && (rating_value <=? 5) then
                      if store_ok then
                        (ratings ++ [mkRating ride_id user_id rating_value form_comments],
                         dashboard "Thank you for your rating!" "success",
                         [Notify (rider_id ride) (star_message rating_value)])
                      else
                        (ratings,
                         rate_page (Some ("Invalid rating or error saving.", "error")), [])
                    else
                      (ratings,
                       rate_page (Some ("Rating must be between 1 and 5.", "error")), [])
                end
            end
        end
    end.

Definition Rated : Reply := dashboard "Thank you for your rating!" "success".
Definition NotYetRateable : Reply := dashboard "This ride cannot be rated yet." "error".
Definition AlreadyRated : Reply := dashboard "You have already rated this ride." "info".

(** One rating for a ride and a passenger ([_ride_passenger_rating_uc]). *)
Definition unique_ratings (ratings : list Rating) : Prop :=
  NoDup ((λ x, (rating_ride_id x, rating_passenger_id x)) <$> ratings).

Record Message := mkMessage {
  message_ride_id : Z;
  sender_id : Z;
  message_text : string;
  timestamp : Py.datetime
}.

(** [ride_chat]: the page is rendered from the messages of the ride with
    their senders; [msg.sender.username] raises [AttributeError] for a
    message whose sender row is gone. *)
Definition ride_chat (s : Session) (ride_id : Z) (db : DB) (messages : list Message)
    : Reply :=
  let user_id := sess_user_id s in
  match bike_rides db !! ride_id with
  | None => mkReply None (abort 404)
  | Some ride =>
      let is_rider := rider_id ride =? user_id in
      let is_booked := has_booking db ride_id user_id in
      if negb is_rider && negb is_booked
      then dashboard "Access denied." "error"
      else if forallb (λ msg, bool_decide (is_Some (users db !! sender_id msg)))
                (filter (λ msg, message_ride_id msg = ride_id) messages)
      then mkReply None (render_template "optimized/ride_chat.html" 200)
      else mkReply None (raised "AttributeError")
  end.

Definition AccessDenied : Reply := dashboard "Access denied." "error".
Definition ChatPage : Reply :=
  mkReply None (render_template "optimized/ride_chat.html" 200).

(** ** [app/routes/main.py]: the passenger view of [dashboard]

    Lines 58 to 91.  [all_rides] is the result of the ride query (the rides
    of other users, ordered, at most 50), with the key of each row. *)

Record RideData := mkRideData {
  rd_id : Z;
  rd_ride : BikeRide;
  rider_username : string;
  is_future_ride : bool;
  is_completed : bool;
  is_rated : bool
}.

(** [{b.ride_id for b in Booking.query.filter_by(passenger_id=user_id).all()}] *)
Definition booked_ride_ids (db : DB) (user_id : Z) : list Z :=
  ride_id <$> filter (λ b, passenger_id b = user_id) (bookings db).

(** The loop over [all_rides], with the two lists built so far.  The error
    is the exception that leaves the view: [get_ride_datetime] may raise
    [OverflowError], and [ride.rider.username] raises [AttributeError] for
    a ride whose owner row is gone. *)
Fixpoint passenger_lists (s : Session) (now : Py.datetime) (db : DB)
    (ratings : list Rating) (all_rides : list (Z * BikeRide))
    (available_rides booked_rides_data : list RideData)
    : string + (list RideData * list RideData) :=
  match all_rides with
  | [] => inr (available_rides, booked_rides_data)
  | (id, ride) :: rest =>
      match get_ride_datetime (ride_date ride) (ride_time ride) (ride_end_time ride) with
      | None => inl "OverflowError"
      | Some (_, ride_dt_end) =>
          let is_future_ride := Py.le now ride_dt_end in
          let is_completed := Py.lt ride_dt_end now in
          let is_booked_by_user :=
            bool_decide (id ∈ booked_ride_ids db (sess_user_id s)) in
          let is_rated := has_rating ratings id (sess_user_id s) in
          match users db !! rider_id ride with
          | None => inl "AttributeError"
          | Some rider =>
              let ride_data :=
                mkRideData id ride (username rider) is_future_ride is_completed is_rated in
              if is_booked_by_user
              then passenger_lists s now db ratings rest available_rides
                     (booked_rides_data ++ [ride_data])
              else if is_future_ride && (0 <? seats_available ride)
              then passenger_lists s now db ratings rest (available_rides ++ [ride_data])
                     booked_rides_data
              else passenger_lists s now db ratings rest available_rides booked_rides_data
          end
      end
  end.

(** The sort key [datetime.combine(ride.ride_date, ride.ride_time)]. *)
Definition start_of (d : RideData) : Py.datetime :=
  Py.combine (ride_date (rd_ride d)) (ride_time (rd_ride d)).

(** [list.sort(key=...)] is stable: entries with equal keys keep their
    order. *)
Fixpoint insert_by_start (x : RideData) (l : list RideData) : list RideData :=
  match l with
  | [] => [x]
  | y :: l' =>
      if start_of x <=? start_of y then x :: y :: l' else y :: insert_by_start x l'
  end.

Fixpoint sort_by_start (l : list RideData) : list RideData :=
  match l with
  | [] => []
  | x :: l' => insert_by_start x (sort_by_start l')
  end.

(** The order of [order_by(BikeRide.ride_date, BikeRide.ride_time)] on the
    rows of the query. *)
Definition by_date_time (a b : Z * BikeRide) : Prop :=
  ride_date a.2 < ride_date b.2
  ∨ (ride_date a.2 = ride_date b.2 ∧ ride_time a.2 <= ride_time b.2).

Definition dashboard_passenger (s : Session) (now : Py.datetime) (db : DB)
    (ratings : list Rating) (all_rides : list (Z * BikeRide))
    : string + (list RideData * list RideData) :=
  match passenger_lists s now db ratings all_rides [] [] with
  | inl exception => inl exception
  | inr (available_rides, booked_rides_data) =>
      inr (available_rides, sort_by_start booked_rides_data)
  end.

(** The dictionary the loop builds for one ride, when nothing raises. *)
Definition ride_data_of (s : Session) (now : Py.datetime) (db : DB)
    (ratings : list Rating) (id : Z) (ride : BikeRide) : option RideData :=
  '(_, ride_dt_end) ← get_ride_datetime (ride_date ride) (ride_time ride)
                         (ride_end_time ride);
  rider ← users db !! rider_id ride;
  Some (mkRideData id ride (username rider) (Py.le now ride_dt_end)
          (Py.lt ride_dt_end now) (has_rating ratings id (sess_user_id s))).

(** ** Notifications: [create_notification] of [app/utils.py] and the
       notification views of [app/routes/main.py] *)

Record Notification := mkNotification {
  n_user_id : Z;
  n_message : string;
  n_timestamp : Py.datetime;
  is_read : bool
}.

(** What [socketio.emit('new_notification', ..., room=...)] sends. *)
Record Emit := mkEmit {
  room : string;
  emitted_message : string;
  emitted_timestamp : string;
  notification_id : Z
}.

(** Two decimal digits, as [%H] and [%M] print them. *)
Definition two_digits (n : Z) : string :=
  if n <? 10 then String.append "0" (pretty n) else pretty n.

(** [dt.strftime('%H:%M')] *)
Definition strftime_HM (dt : Py.datetime) : string :=
  let time_of_day := dt `mod` Py.us_per_day in
  String.append (two_digits (time_of_day / 3600000000))
    (String.append ":" (two_digits (time_of_day `mod` 3600000000 / 60000000))).

(** [f'user_{user_id}'] *)
Definition user_room (user_id : Z) : string := String.append "user_" (pretty user_id).

(** [create_notification(user_id, message)]: [utcnow] is what
    [datetime.utcnow()] returns, [new_id] the key the store assigns
    (rejected if it is taken), [store_ok = false] a [SQLAlchemyError] of the
    commit.  The result is the table, the value returned and what was
    emitted. *)
Definition create_notification (user_id : Z) (message : string) (utcnow : Py.datetime)
    (new_id : Z) (store_ok : bool) (table : gmap Z Notification)
    : gmap Z Notification * bool * list Emit :=
  if store_ok && bool_decide (table !! new_id = None)
  then (<[new_id := mkNotification user_id message utcnow false]> table, true,
        [mkEmit (user_room user_id) message (strftime_HM utcnow) new_id])
  else (table, false, []).

(** [Notification.query.filter_by(user_id=u, is_read=False).count()] *)
Definition unread_count (table : gmap Z Notification) (user_id : Z) : nat :=
  size (filter (λ row, n_user_id row.2 = user_id ∧ is_read row.2 = false) table).

(** [....filter_by(user_id=u, is_read=False).update({is_read: True})] *)
Definition mark_read (user_id : Z) (n : Notification) : Notification :=
  if decide (n_user_id n = user_id ∧ is_read n = false)
  then mkNotification (n_user_id n) (n_message n) (n_timestamp n) true
  else n.

(** [notifications]: the table after the view and the unread count it
    hands to the template, counted before the rows are marked.  The commit
    is not guarded: with [store_ok = false] its error leaves the view, which
    is the answer [None]. *)
Definition notifications (s : Session) (store_ok : bool) (table : gmap Z Notification)
    : gmap Z Notification * option nat :=
  let user_id := sess_user_id s in
  let unread_count := unread_count table user_id in
  if store_ok then (mark_read user_id <$> table, Some unread_count)
  else (table, None).

(** A JSON answer: [success], the optional [message], the status. *)
Record Json := mkJson {
  success : bool;
  json_message : option string;
  status : Z
}.

Definition delete_notification (s : Session) (id : Z) (store_ok : bool)
    (table : gmap Z Notification) : gmap Z Notification * Json :=
  match table !! id with
  | Some n =>
      if decide (n_user_id n = sess_user_id s) then
        if store_ok then (delete id table, mkJson true None 200)
        else (table, mkJson false (Some "Database error") 500)
      else (table, mkJson false (Some "Notification not found") 404)
  | None => (table, mkJson false (Some "Notification not found") 404)
  end.

Definition mark_all_notifications_read (s : Session) (store_ok : bool)
    (table : gmap Z Notification) : gmap Z Notification * Json :=
  if store_ok then (mark_read (sess_user_id s) <$> table, mkJson true None 200)
  else (table, mkJson false (Some "Database error") 500).

Definition Deleted : Reply := dashboard "Ride deleted successfully." "success".
Definition Posted : Reply := dashboard "Ride posted successfully!" "success".

(** ** More sample data *)

Module Sample2.

Definition meera_session : Session := mkSession 1 true "meera".

Definition form : PostRideForm :=
  mkPostRideForm "Pune" "Mumbai" 2 739010 (Py.hm 6 30) None "Female".

(** Asha books, Ravi finds the ride full, Asha cancels, Ravi books; Meera
    posts a second ride and deletes it again. *)
Definition evening : list Call :=
  [CallBook Sample.asha_session 5 Sample.during;
   CallBook Sample.ravi_session 5 Sample.during;
   CallCancel Sample.asha_session 5 Sample.during true;
   CallBook Sample.ravi_session 5 Sample.during;
   CallPost meera_session (Some form) 6 Sample.during true;
   CallDelete meera_session 6 true Sample.during true].

(** Two rides of Meera on the same morning and the sample night ride, which
    asha has booked; asha's dashboard query returns them in this order. *)
Definition early_ride : BikeRide :=
  mkBikeRide 1 "Pune" "Satara" 2 739010 (Py.hm 6 30) None "Any" 1.
Definition male_ride : BikeRide :=
  mkBikeRide 1 "Pune" "Nashik" 1 739010 (Py.hm 5 0) None "Male" 1.

Definition db3 : DB :=
  mkDB {[ 1 := Sample.owner; 7 := Sample.asha; 8 := Sample.ravi ]}
       {[ 5 := set_seats_version Sample.night_ride 0 2; 6 := early_ride; 9 := male_ride ]}
       [mkBooking 5 7].

Definition all_rides : list (Z * BikeRide) :=
  [(5, set_seats_version Sample.night_ride 0 2); (9, male_ride); (6, early_ride)].

(** What asha's dashboard shows for them at 23:30 of the night ride. *)
Definition night_data : RideData :=
  mkRideData 5 (set_seats_version Sample.night_ride 0 2) "meera" true false false.
Definition male_data : RideData := mkRideData 9 male_ride "meera" true false false.
Definition early_data : RideData := mkRideData 6 early_ride "meera" true false false.

(** Three rides asha has booked, two of them with the same start, and the
    rows of a query that lists them with the latest first. *)
Definition lake_ride : BikeRide :=
  mkBikeRide 1 "Pune" "Pawna" 2 739010 (Py.hm 6 30) None "Any" 2.

Definition db4 : DB :=
  mkDB {[ 1 := Sample.owner; 7 := Sample.asha; 8 := Sample.ravi ]}
       {[ 5 := set_seats_version Sample.night_ride 0 2;
          6 := set_seats_version early_ride 1 2; 10 := lake_ride ]}
       [mkBooking 5 7; mkBooking 6 7; mkBooking 10 7].

Definition trips : list (Z * BikeRide) :=
  [(6, set_seats_version early_ride 1 2); (10, lake_ride);
   (5, set_seats_version Sample.night_ride 0 2)].

Definition early_trip : RideData :=
  mkRideData 6 (set_seats_version early_ride 1 2) "meera" true false false.
Definition lake_trip : RideData := mkRideData 10 lake_ride "meera" true false false.

(** A ride of two seats of which asha holds one: one seat is free, at
    version 2. *)
Definition shared : DB :=
  mkDB {[ 1 := Sample.owner; 7 := Sample.asha; 8 := Sample.ravi ]}
       {[ 5 := set_seats_version Sample.night_ride 1 2 ]} [mkBooking 5 7].

(** What a request of asha finds at its steps when the row changes between
    the read and the write of its first attempt, and not in the second. *)
Definition retried : list (Py.datetime * bool * DB) :=
  [(Sample.during, true, Sample.busy 1);
   (Sample.during, true, Sample.busy 1); (Sample.during, true, Sample.busy 1);
   (Sample.during, true, Sample.busy 3);
   (Sample.during, true, Sample.busy 3); (Sample.during, true, Sample.busy 3);
   (Sample.during, true, Sample.busy 3)].

End Sample2.

(** * Theorems *)

(** ** The scheduling policy *)

Section Window.

Context (d : Py.date) (t : Py.time) (Ht : Py.valid_time t).

Lemma toordinal_combine : Py.toordinal (Py.combine d t) = d.
Proof.
  unfold Py.valid_time, Py.toordinal, Py.combine, Py.us_per_day in *.
  symmetry. apply (Z.div_unique_pos _ _ d t); lia.
Qed.

Lemma combine_next_day : Py.combine d t + Py.us_per_day = Py.combine (d + 1) t.
Proof. unfold Py.combine. lia. Qed.

(** The overnight shift succeeds on every date but the last. *)
Lemma add_one_day :
  Py.valid_date d →
  Py.add_days (Py.combine d t) 1 =
    if decide (d < Py.MAXORDINAL) then Some (Py.combine (d + 1) t) else None.
Proof.
  intros Hd. unfold Py.add_days. cbv zeta.
  replace (Py.combine d t + 1 * Py.us_per_day) with (Py.combine (d + 1) t)
    by (unfold Py.combine; lia).
  unfold Py.toordinal, Py.combine. unfold Py.valid_time, Py.us_per_day in *.
  rewrite <- (Z.div_unique_pos ((d + 1) * 86400000000 + t) 86400000000 (d + 1) t)
    by lia.
  unfold Py.valid_date in Hd.
  case_decide.
  - replace (0 <? d + 1) with true by (symmetry; apply Z.ltb_lt; lia).
    replace (d + 1 <=? Py.MAXORDINAL) with true by (symmetry; apply Z.leb_le; lia).
    done.
  - replace (d + 1 <=? Py.MAXORDINAL) with false by (symmetry; apply Z.leb_gt; lia).
    by rewrite andb_false_r.
Qed.

End Window.

(** C3, as the code has it.  For a ride date, a start time and an optional
    end time: without an end time the window ends at its start instant; with
    an end time whose instant on the ride date is not after the start
    instant, and a ride date before the last day [datetime] can represent
    (9999-12-31), the window ends exactly one day after that instant, that
    is at the end time on the next date.  A ride from 23:00 to 01:00 on such
    a date is not completed at 23:30 and is completed at 02:00 on the next
    date. *)
Theorem get_ride_datetime_window (d : Py.date) (s : Py.time) :
  Py.valid_date d → Py.valid_time s →
  get_ride_datetime d s None = Some (Py.combine d s, Py.combine d s)
  ∧ (∀ e, Py.valid_time e → Py.combine d e <= Py.combine d s → d < Py.MAXORDINAL →
       get_ride_datetime d s (Some e)
         = Some (Py.combine d s, Py.combine d e + Py.us_per_day)
       ∧ Py.combine d e + Py.us_per_day = Py.combine (d + 1) e)
  ∧ (d < Py.MAXORDINAL →
       ∃ ride_dt_start ride_dt_end,
         get_ride_datetime d (Py.hm 23 0) (Some (Py.hm 1 0))
           = Some (ride_dt_start, ride_dt_end)
         ∧ completed_at ride_dt_end (Py.combine d (Py.hm 23 30)) = false
         ∧ completed_at ride_dt_end (Py.combine (d + 1) (Py.hm 2 0)) = true).
Proof.
  intros Hd Hs. split; [done|]. split.
  - intros e He Hle Hmax. split; [|apply combine_next_day].
    unfold get_ride_datetime. cbv zeta.
    rewrite bool_decide_eq_true_2 by eauto. unfold Py.le.
    replace (Py.combine d e <=? Py.combine d s) with true
      by (symmetry; by apply Z.leb_le).
    rewrite add_one_day by done. rewrite decide_True by done.
    simpl. by rewrite combine_next_day.
  - intros Hmax. exists (Py.combine d (Py.hm 23 0)), (Py.combine (d + 1) (Py.hm 1 0)).
    assert (H1 : Py.valid_time (Py.hm 1 0)) by (unfold Py.valid_time; vm_compute; done).
    split; [|split].
    + unfold get_ride_datetime. cbv zeta.
      rewrite bool_decide_eq_true_2 by eauto. unfold Py.le.
      replace (Py.combine d (Py.hm 1 0) <=? Py.combine d (Py.hm 23 0)) with true
        by (symmetry; apply Z.leb_le; unfold Py.combine, Py.hm; lia).
      rewrite add_one_day by done. by rewrite decide_True by done.
    + unfold completed_at, Py.lt. apply Z.ltb_ge.
      unfold Py.combine, Py.hm, Py.us_per_day. lia.
    + unfold completed_at, Py.lt. apply Z.ltb_lt.
      unfold Py.combine, Py.hm, Py.us_per_day. lia.
Qed.

Lemma get_ride_datetime_window_witness :
  get_ride_datetime 739000 (Py.hm 22 15) None
    = Some (Py.combine 739000 (Py.hm 22 15), Py.combine 739000 (Py.hm 22 15))
  ∧ get_ride_datetime 739000 (Py.hm 22 15) (Some (Py.hm 0 0))
    = Some (Py.combine 739000 (Py.hm 22 15), Py.combine 739001 (Py.hm 0 0)).
Proof.
  assert (Hd : Py.valid_date 739000) by (unfold Py.valid_date, Py.MAXORDINAL; lia).
  assert (Hs : Py.valid_time (Py.hm 22 15)) by (vm_compute; split; [discriminate|done]).
  destruct (get_ride_datetime_window 739000 (Py.hm 22 15) Hd Hs) as (H0 & H1 & _).
  split; [exact H0|].
  destruct (H1 (Py.hm 0 0)) as [H2 _].
  - vm_compute; split; [discriminate|done].
  - vm_compute; discriminate.
  - vm_compute; done.
  - exact H2.
Defined.

(** On the last representable date the overnight shift raises
    [OverflowError]: no window is returned for a ride from 23:00 to 01:00
    on 9999-12-31. *)
Lemma get_ride_datetime_last_day :
  Py.valid_date Py.MAXORDINAL ∧ Py.valid_time (Py.hm 23 0) ∧ Py.valid_time (Py.hm 1 0)
  ∧ Py.combine Py.MAXORDINAL (Py.hm 1 0) <= Py.combine Py.MAXORDINAL (Py.hm 23 0)
  ∧ get_ride_datetime Py.MAXORDINAL (Py.hm 23 0) (Some (Py.hm 1 0)) = None.
Proof. vm_compute. repeat split; discriminate. Qed.

(** ** Cancellation *)

Lemma delete_row_NoDup (b : Booking) (rows : list Booking) :
  NoDup rows → b ∉ delete_row b rows.
Proof.
  induction 1 as [|x rows Hx Hnd IH]; simpl; [apply not_elem_of_nil|].
  case_decide as Hxb; [by subst|].
  rewrite elem_of_cons. intros [->|Hin]; [done|by apply IH].
Qed.

Lemma delete_row_length (b : Booking) (rows : list Booking) :
  b ∈ rows → S (length (delete_row b rows)) = length rows.
Proof.
  induction rows as [|x rows IH]; simpl; [by intros ?%elem_of_nil|].
  case_decide as Hxb; [done|].
  rewrite elem_of_cons. intros [->|Hin]; [done|]. simpl. by rewrite IH.
Qed.

(** Served alone, the commit finds the row the request loaded. *)
Lemma cancel_booking_alone (s : Session) (ride_id : Z) (now : Py.datetime)
    (store_ok : bool) (db : DB) :
  cancel_booking s ride_id now store_ok db =
  if sess_is_rider s then (db, mkReply None (redirect "main.dashboard"), [])
  else
    match bike_rides db !! ride_id with
    | None => (db, mkReply None (abort 404), [])
    | Some ride =>
        match get_ride_datetime (ride_date ride) (ride_time ride) (ride_end_time ride) with
        | None => (db, mkReply None (raised "OverflowError"), [])
        | Some (_, ride_dt_end) =>
            if completed_at ride_dt_end now
            then (db, dashboard "Cannot cancel a completed ride." "error", [])
            else if has_booking db ride_id (sess_user_id s) then
              if store_ok then
                (mkDB (users db)
                      (<[ride_id := set_seats_version ride (seats_available ride + 1)
                                      (version ride + 1)]> (bike_rides db))
                      (delete_row (mkBooking ride_id (sess_user_id s)) (bookings db)),
                 dashboard "Booking cancelled." "info",
                 [Notify (rider_id ride) (cancelled_message s)])
              else (db, dashboard "An error occurred during cancellation." "error", [])
            else (db, dashboard "Booking not found." "error", [])
        end
    end.
Proof.
  unfold cancel_booking, cancel_fetch, cancel_check, cancel_commit. cbv zeta.
  destruct (sess_is_rider s); [done|].
  destruct (bike_rides db !! ride_id) as [ride|] eqn:Hride; [|done].
  destruct (get_ride_datetime _ _ _) as [[st e]|]; [|done].
  destruct (completed_at e now); [done|].
  destruct (has_booking db ride_id (sess_user_id s)); [|done].
  by destruct store_ok.
Qed.

(** What a "Booking cancelled." answer tells about the store the request
    found, and the store it left. *)
Lemma cancel_booking_Cancelled_inv (s : Session) (ride_id : Z) (now : Py.datetime)
    (store_ok : bool) (db db' : DB) (es : list Effect) :
  cancel_booking s ride_id now store_ok db = (db', Cancelled, es) →
  ∃ ride ride_dt_start ride_dt_end,
    bike_rides db !! ride_id = Some ride
    ∧ get_ride_datetime (ride_date ride) (ride_time ride) (ride_end_time ride)
        = Some (ride_dt_start, ride_dt_end)
    ∧ completed_at ride_dt_end now = false
    ∧ has_booking db ride_id (sess_user_id s) = true
    ∧ users db' = users db
    ∧ bookings db' = delete_row (mkBooking ride_id (sess_user_id s)) (bookings db)
    ∧ bike_rides db'
        = <[ride_id := set_seats_version ride (seats_available ride + 1)
                         (version ride + 1)]> (bike_rides db).
Proof.
  rewrite !cancel_booking_alone.
  destruct (sess_is_rider s); [intros [=]|].
  destruct (bike_rides db !! ride_id) as [ride|] eqn:Hride; [|intros [=]].
  destruct (get_ride_datetime _ _ _) as [[st e]|] eqn:Hwin; [|intros [=]].
  destruct (completed_at e now) eqn:Hdone; [intros [=]|].
  destruct (has_booking db ride_id (sess_user_id s)) eqn:Hb; [|intros [=]].
  destruct store_ok; [|intros [=]].
  intros [= <- <-]. exists ride, st, e. by repeat split.
Qed.

(** C8.  A passenger's cancellation on a ride whose window has ended is
    answered "Cannot cancel a completed ride." in the error category and
    leaves the store as it was: seats, version and bookings.  Whenever a
    cancellation is answered "Booking cancelled.", the ride exists and is
    not completed, the caller held a booking on it, and the new store has
    one booking row of the pair less (none, when the rows are unique), one
    seat more and the version one higher, and nothing else changed. *)
Theorem cancel_booking_completed_or_released (s : Session) (ride_id : Z)
    (now : Py.datetime) (store_ok : bool) (db : DB) :
  (∀ ride ride_dt_start ride_dt_end,
     sess_is_rider s = false →
     bike_rides db !! ride_id = Some ride →
     get_ride_datetime (ride_date ride) (ride_time ride) (ride_end_time ride)
       = Some (ride_dt_start, ride_dt_end) →
     completed_at ride_dt_end now = true →
     cancel_booking s ride_id now store_ok db = (db, CancelCompleted, [])
     ∧ is_error CancelCompleted = true)
  ∧ (∀ db' es,
       cancel_booking s ride_id now store_ok db = (db', Cancelled, es) →
       ∃ ride ride_dt_start ride_dt_end,
         bike_rides db !! ride_id = Some ride
         ∧ get_ride_datetime (ride_date ride) (ride_time ride) (ride_end_time ride)
             = Some (ride_dt_start, ride_dt_end)
         ∧ completed_at ride_dt_end now = false
         ∧ has_booking db ride_id (sess_user_id s) = true
         ∧ users db' = users db
         ∧ bookings db' = delete_row (mkBooking ride_id (sess_user_id s)) (bookings db)
         ∧ S (length (bookings db')) = length (bookings db)
         ∧ (NoDup (bookings db) → has_booking db' ride_id (sess_user_id s) = false)
         ∧ ∃ ride',
             bike_rides db' = <[ride_id := ride']> (bike_rides db)
             ∧ ride' = set_seats_version ride (seats_available ride + 1) (version ride + 1)
             ∧ seats_available ride' = seats_available ride + 1
             ∧ version ride' = version ride + 1)
  ∧ (∀ ride ride_dt_start ride_dt_end,
       sess_is_rider s = false →
       bike_rides db !! ride_id = Some ride →
       get_ride_datetime (ride_date ride) (ride_time ride) (ride_end_time ride)
         = Some (ride_dt_start, ride_dt_end) →
       completed_at ride_dt_end now = false →
       has_booking db ride_id (sess_user_id s) = true →
       store_ok = true →
       (cancel_booking s ride_id now store_ok db).1.2 = Cancelled).
Proof.
  split; [|split].
  - intros ride st e Hs Hride Hwin Hdone. split; [|done].
    rewrite !cancel_booking_alone. by rewrite Hs, Hride, Hwin, Hdone.
  - intros db' es Hc.
    destruct (cancel_booking_Cancelled_inv _ _ _ _ _ _ _ Hc)
      as (ride & st & e & Hride & Hwin & Hdone & Hb & Hu & Hbook & Hrides).
    exists ride, st, e. apply bool_decide_eq_true in Hb.
    split; [done|]. split; [done|]. split; [done|]. split; [by apply bool_decide_eq_true|].
    split; [done|]. split; [done|]. split; [|split].
    + rewrite Hbook. by apply delete_row_length.
    + intros Hnd. unfold has_booking. rewrite Hbook. apply bool_decide_eq_false.
      by apply delete_row_NoDup.
    + by eexists.
  - intros ride st e Hs Hride Hwin Hdone Hb ->.
    rewrite !cancel_booking_alone. by rewrite Hs, Hride, Hwin, Hdone, Hb.
Qed.

Lemma cancel_booking_completed_or_released_witness :
  cancel_booking Sample.asha_session 5 Sample.after true Sample.db1
    = (Sample.db1, CancelCompleted, [])
  ∧ ∃ ride', bike_rides (cancel_booking Sample.asha_session 5 Sample.during true
                           Sample.db1).1.1 !! 5 = Some ride'
             ∧ seats_available ride' = 1 ∧ version ride' = 3.
Proof.
  split.
  - destruct (cancel_booking_completed_or_released Sample.asha_session 5 Sample.after true
                Sample.db1) as (H & _ & _).
    refine (proj1 (H (set_seats_version Sample.night_ride 0 2)
                     (Py.combine 739000 (Py.hm 23 0))
                     (Py.combine 739001 (Py.hm 1 0)) _ _ _ _)).
    + reflexivity.
    + reflexivity.
    + vm_compute. reflexivity.
    + vm_compute. reflexivity.
  - destruct (cancel_booking_completed_or_released Sample.asha_session 5 Sample.during true
                Sample.db1) as (_ & H & _).
    destruct (H (cancel_booking Sample.asha_session 5 Sample.during true Sample.db1).1.1
                [Notify 1 (cancelled_message Sample.asha_session)])
      as (ride & st & e & Hride & _ & _ & _ & _ & _ & _ & _ & ride' & Hrides & -> & _ & _).
    + vm_compute. reflexivity.
    + exists (set_seats_version ride (seats_available ride + 1) (version ride + 1)).
      rewrite Hrides, lookup_insert_eq.
      vm_compute in Hride. injection Hride as <-.
      vm_compute. done.
Defined.

(** C10.  A passenger's cancellation on an existing ride that is not
    completed, when the passenger holds no booking on it, is answered
    "Booking not found." in the error category and leaves the store as it
    was: the ride's seats and version and every booking row. *)
Theorem cancel_booking_without_booking (s : Session) (ride_id : Z)
    (now : Py.datetime) (store_ok : bool) (db : DB)
    (ride : BikeRide) (ride_dt_start ride_dt_end : Py.datetime) :
  sess_is_rider s = false →
  bike_rides db !! ride_id = Some ride →
  get_ride_datetime (ride_date ride) (ride_time ride) (ride_end_time ride)
    = Some (ride_dt_start, ride_dt_end) →
  completed_at ride_dt_end now = false →
  has_booking db ride_id (sess_user_id s) = false →
  cancel_booking s ride_id now store_ok db = (db, BookingNotFound, [])
  ∧ is_error BookingNotFound = true.
Proof.
  intros Hs Hride Hwin Hdone Hb. split; [|done].
  rewrite !cancel_booking_alone. by rewrite Hs, Hride, Hwin, Hdone, Hb.
Qed.

Lemma cancel_booking_without_booking_witness :
  cancel_booking Sample.asha_session 5 Sample.during true Sample.db0
    = (Sample.db0, BookingNotFound, []).
Proof.
  refine (proj1 (cancel_booking_without_booking Sample.asha_session 5 Sample.during true
                   Sample.db0 Sample.night_ride (Py.combine 739000 (Py.hm 23 0))
                   (Py.combine 739001 (Py.hm 1 0)) _ _ _ _ _)).
  - reflexivity.
  - reflexivity.
  - vm_compute. reflexivity.
  - vm_compute. reflexivity.
  - vm_compute. reflexivity.
Defined.

(** ** A request served alone *)

Lemma run_unfold (n : nat) (now : Py.datetime) (db : DB) (t : Thread) :
  run (S n) now db t
  = run n now (book_ride_step now true db t).1 (book_ride_step now true db t).2.
Proof. simpl. by destruct (book_ride_step now true db t). Qed.

Lemma run_Return (n : nat) (now : Py.datetime) (db : DB) (t : Thread) (r : Reply) :
  pc t = Return r → run n now db t = (db, t).
Proof.
  intros Hpc. induction n as [|n IH]; [done|].
  rewrite run_unfold. unfold book_ride_step. rewrite Hpc. simpl. exact IH.
Qed.

Ltac returned := erewrite run_Return by reflexivity; reflexivity.

(** Served alone, the handler is the straight-line code of its first
    attempt: the conditional write finds the row it has just read. *)
Lemma book_ride_alone (s : Session) (ride_id : Z) (now : Py.datetime) (db : DB) :
  book_ride s ride_id now db =
  let t := request s ride_id in
  if sess_is_rider s
  then (db, goto t (Return (dashboard "Riders cannot book rides." "error")))
  else match users db !! sess_user_id s with
  | None => (db, goto t (Return (mkReply (Some ("Invalid session user.", "error"))
                                   (redirect "auth.login"))))
  | Some passenger =>
      match bike_rides db !! ride_id with
      | None => (db, goto t (Return NotFound))
      | Some ride =>
          if negb (String.eqb (rider_gender_preference ride) "Any")
             && negb (String.eqb (gender passenger) (rider_gender_preference ride))
          then (db, goto t (Return (PolicyRejected ride)))
          else match get_ride_datetime (ride_date ride) (ride_time ride) (ride_end_time ride) with
          | None => (db, goto t (Return (mkReply None (raised "OverflowError"))))
          | Some (_, ride_dt_end) =>
              if completed_at ride_dt_end now then (db, goto t (Return RideCompleted))
              else if has_booking db ride_id (sess_user_id s)
              then (db, goto t (Return AlreadyBooked))
              else if seats_available ride <=? 0 then (db, goto t (Return RideFull))
              else
                (mkDB (users db)
                      (<[ride_id := set_seats_version ride (seats_available ride - 1)
                                      (version ride + 1)]> (bike_rides db))
                      (bookings db ++ [mkBooking ride_id (sess_user_id s)]),
                 perform t [Notify (rider_id ride) (booked_message t ride);
                            Email (email passenger) "Booking Confirmed - BikePool"]
                   (Return Booked))
          end
      end
  end.
Proof.
  unfold book_ride. cbv zeta. set (t := request s ride_id).
  unfold NotFound, PolicyRejected, RideCompleted, AlreadyBooked, RideFull.
  rewrite run_unfold. unfold book_ride_step at 1 2. simpl pc. simpl session. simpl negb.
  destruct (sess_is_rider s) eqn:Hr; [returned|]. cbv iota.
  destruct (users db !! sess_user_id s) as [passenger|] eqn:Hu; [|returned].
  simpl fst; simpl snd.
  rewrite run_unfold. unfold book_ride_step at 1 2. simpl pc. simpl target. simpl negb.
  change (0 <? max_retries) with true. cbv iota.
  destruct (bike_rides db !! ride_id) as [ride|] eqn:Hride; [|returned].
  destruct (negb (String.eqb (rider_gender_preference ride) "Any")
            && negb (String.eqb (gender passenger) (rider_gender_preference ride)));
    [returned|].
  destruct (get_ride_datetime _ _ _) as [[st e]|]; [|returned].
  destruct (completed_at e now); [returned|].
  simpl fst; simpl snd.
  rewrite run_unfold. unfold book_ride_step at 1 2. simpl pc. simpl target. simpl session.
  simpl negb. cbv iota.
  destruct (has_booking db ride_id (sess_user_id s)) eqn:Hb; [returned|].
  destruct (seats_available ride <=? 0) eqn:Hseats; [returned|].
  simpl fst; simpl snd.
  rewrite run_unfold. unfold book_ride_step at 1 2. simpl pc. simpl target. simpl session.
  simpl negb. cbv iota. rewrite Hride, Hb.
  unfold guard. rewrite Z.eqb_refl.
  replace (0 <? seats_available ride) with true
    by (symmetry; apply Z.ltb_lt; apply Z.leb_gt in Hseats; lia).
  simpl andb. cbv iota. simpl fst; simpl snd.
  returned.
Qed.

(** What a "Ride booked successfully!" answer tells about the store the
    request found, and the store it left. *)
Lemma book_ride_Booked_inv (s : Session) (ride_id : Z) (now : Py.datetime) (db : DB) :
  pc (book_ride s ride_id now db).2 = Return Booked →
  ∃ passenger ride ride_dt_start ride_dt_end,
    sess_is_rider s = false
    ∧ users db !! sess_user_id s = Some passenger
    ∧ bike_rides db !! ride_id = Some ride
    ∧ negb (String.eqb (rider_gender_preference ride) "Any")
      && negb (String.eqb (gender passenger) (rider_gender_preference ride)) = false
    ∧ get_ride_datetime (ride_date ride) (ride_time ride) (ride_end_time ride)
        = Some (ride_dt_start, ride_dt_end)
    ∧ completed_at ride_dt_end now = false
    ∧ has_booking db ride_id (sess_user_id s) = false
    ∧ 0 < seats_available ride
    ∧ (book_ride s ride_id now db).1
        = mkDB (users db)
               (<[ride_id := set_seats_version ride (seats_available ride - 1)
                               (version ride + 1)]> (bike_rides db))
               (bookings db ++ [mkBooking ride_id (sess_user_id s)]).
Proof.
  rewrite book_ride_alone. cbv zeta.
  destruct (sess_is_rider s) eqn:Hr; [intros [=]|].
  destruct (users db !! sess_user_id s) as [passenger|] eqn:Hu; [|intros [=]].
  destruct (bike_rides db !! ride_id) as [ride|] eqn:Hride; [|intros [=]].
  destruct (negb _ && negb _) eqn:Hg; [intros [=]|].
  destruct (get_ride_datetime _ _ _) as [[st e]|] eqn:Hwin; [|intros [=]].
  destruct (completed_at e now) eqn:Hdone; [intros [=]|].
  destruct (has_booking db ride_id (sess_user_id s)) eqn:Hb; [intros [=]|].
  destruct (seats_available ride <=? 0) eqn:Hseats; [intros [=]|].
  intros _. exists passenger, ride, st, e.
  apply Z.leb_gt in Hseats. by repeat split.
Qed.

Lemma delete_row_app_last (b : Booking) (rows : list Booking) :
  b ∉ rows → delete_row b (rows ++ [b]) = rows.
Proof.
  induction rows as [|x rows IH]; simpl; intros Hb.
  - by rewrite decide_True.
  - apply not_elem_of_cons in Hb as [Hne Hb].
    rewrite decide_False by done. by rewrite IH.
Qed.

Lemma filter_absent (b : Booking) (rows : list Booking) :
  b ∉ rows → filter (λ x, x = b) rows = [].
Proof.
  induction rows as [|x rows IH]; [done|]. intros Hb.
  apply not_elem_of_cons in Hb as [Hne Hb].
  rewrite filter_cons_False by done. by apply IH.
Qed.

(** ** Reserving twice, reserving then releasing *)

(** C4.  When a reservation is answered "Ride booked successfully!", the
    store it leaves holds exactly one booking row for the pair.  A second
    reservation of the same ride by the same passenger leaves that store
    exactly as it is: the same single booking row, the same seats and the
    same version.  Made while the ride is still not completed, it is
    answered "You have already booked this ride.", flashed as information
    and no error, and sends nothing. *)
Theorem book_ride_idempotent (s : Session) (ride_id : Z) (now1 : Py.datetime)
    (db : DB) (ride : BikeRide) (ride_dt_start ride_dt_end : Py.datetime) :
  pc (book_ride s ride_id now1 db).2 = Return Booked →
  bike_rides db !! ride_id = Some ride →
  get_ride_datetime (ride_date ride) (ride_time ride) (ride_end_time ride)
    = Some (ride_dt_start, ride_dt_end) →
  let db1 := (book_ride s ride_id now1 db).1 in
  length (filter (λ b, b = mkBooking ride_id (sess_user_id s)) (bookings db1)) = 1%nat
  ∧ bike_rides db1 !! ride_id
      = Some (set_seats_version ride (seats_available ride - 1) (version ride + 1))
  ∧ (∀ now2, (book_ride s ride_id now2 db1).1 = db1)
  ∧ (∀ now2, completed_at ride_dt_end now2 = false →
       book_ride s ride_id now2 db1
         = (db1, goto (request s ride_id) (Return AlreadyBooked)))
  ∧ is_error AlreadyBooked = false.
Proof.
  intros Hfirst Hride' Hwin'. cbv zeta.
  destruct (book_ride_Booked_inv _ _ _ _ Hfirst)
    as (passenger & ride0 & st & e & Hr & Hu & Hride & Hg & Hwin & Hdone & Hb & Hseats & ->).
  assert (ride0 = ride) as -> by congruence.
  assert (e = ride_dt_end) as -> by congruence.
  apply bool_decide_eq_false in Hb. simpl bookings.
  assert (Hsecond : ∀ now2,
    book_ride s ride_id now2
      (mkDB (users db)
         (<[ride_id := set_seats_version ride (seats_available ride - 1)
                         (version ride + 1)]> (bike_rides db))
         (bookings db ++ [mkBooking ride_id (sess_user_id s)]))
    = (mkDB (users db)
         (<[ride_id := set_seats_version ride (seats_available ride - 1)
                         (version ride + 1)]> (bike_rides db))
         (bookings db ++ [mkBooking ride_id (sess_user_id s)]),
       goto (request s ride_id)
         (Return (if completed_at ride_dt_end now2 then RideCompleted else AlreadyBooked)))).
  { intros now2. rewrite book_ride_alone. cbv zeta. rewrite Hr. simpl users. rewrite Hu.
    simpl bike_rides. rewrite lookup_insert_eq.
    simpl rider_gender_preference. rewrite Hg.
    simpl ride_date; simpl ride_time; simpl ride_end_time. rewrite Hwin.
    destruct (completed_at ride_dt_end now2); [done|].
    unfold has_booking at 1. simpl bookings.
    rewrite bool_decide_eq_true_2; [done|].
    apply elem_of_app. right. apply list_elem_of_singleton. done. }
  split; [|split; [|split; [|split; [|done]]]].
  - rewrite filter_app, filter_absent by done.
    by rewrite filter_cons_True.
  - simpl. by rewrite lookup_insert_eq.
  - intros now2. by rewrite Hsecond.
  - intros now2 Hactive. by rewrite Hsecond, Hactive.
Qed.

Lemma book_ride_idempotent_witness :
  book_ride Sample.asha_session 5 Sample.during
    (book_ride Sample.asha_session 5 Sample.during Sample.db0).1
  = ((book_ride Sample.asha_session 5 Sample.during Sample.db0).1,
     goto (request Sample.asha_session 5) (Return AlreadyBooked)).
Proof.
  destruct (book_ride_idempotent Sample.asha_session 5 Sample.during
              Sample.db0 Sample.night_ride
              (Py.combine 739000 (Py.hm 23 0))
              (Py.combine 739001 (Py.hm 1 0))) as (_ & _ & _ & H & _).
  - vm_compute. reflexivity.
  - reflexivity.
  - vm_compute. reflexivity.
  - apply H. vm_compute. reflexivity.
Defined.

(** C7.  When a reservation is answered "Ride booked successfully!" and the
    cancellation that follows it is answered "Booking cancelled.", the ride
    has the seats it had before the reservation, its version is higher by
    exactly two, and nothing else in the store differs from the store
    before the reservation. *)
Theorem book_then_cancel (s : Session) (ride_id : Z) (now1 now2 : Py.datetime)
    (store_ok : bool) (db db2 : DB) (es : list Effect) :
  pc (book_ride s ride_id now1 db).2 = Return Booked →
  cancel_booking s ride_id now2 store_ok (book_ride s ride_id now1 db).1
    = (db2, Cancelled, es) →
  ∃ ride ride2,
    bike_rides db !! ride_id = Some ride
    ∧ bike_rides db2 !! ride_id = Some ride2
    ∧ seats_available ride2 = seats_available ride
    ∧ version ride2 = version ride + 2
    ∧ version ride2 ≠ version ride
    ∧ ride2 = set_seats_version ride (seats_available ride) (version ride + 2)
    ∧ bike_rides db2 = <[ride_id := ride2]> (bike_rides db)
    ∧ bookings db2 = bookings db
    ∧ users db2 = users db.
Proof.
  intros Hfirst Hcancel.
  destruct (book_ride_Booked_inv _ _ _ _ Hfirst)
    as (passenger & ride & st & e & Hr & Hu & Hride & Hg & Hwin & Hdone & Hb & Hseats & Hdb1).
  rewrite Hdb1 in Hcancel. clear Hdb1.
  apply bool_decide_eq_false in Hb.
  destruct (cancel_booking_Cancelled_inv _ _ _ _ _ _ _ Hcancel)
    as (ride1 & st1 & e1 & Hride1 & _ & _ & _ & Husers & Hbook & Hrides).
  simpl in Hride1, Husers, Hbook, Hrides.
  rewrite lookup_insert_eq in Hride1. injection Hride1 as <-.
  rewrite insert_insert_eq in Hrides.
  exists ride, (set_seats_version ride (seats_available ride) (version ride + 2)).
  unfold set_seats_version in Hrides. simpl in Hrides.
  replace (seats_available ride - 1 + 1) with (seats_available ride) in Hrides by lia.
  replace (version ride + 1 + 1) with (version ride + 2) in Hrides by lia.
  rewrite Hrides, Hbook, Husers, lookup_insert_eq.
  rewrite delete_row_app_last by done.
  repeat split; try done. simpl. lia.
Qed.

Lemma book_then_cancel_witness :
  ∃ ride2,
    bike_rides (cancel_booking Sample.asha_session 5 Sample.during true
                  (book_ride Sample.asha_session 5 Sample.during Sample.db0).1).1.1 !! 5
      = Some ride2
    ∧ seats_available ride2 = 1 ∧ version ride2 = 3.
Proof.
  destruct (book_then_cancel Sample.asha_session 5 Sample.during Sample.during true
              Sample.db0
              (cancel_booking Sample.asha_session 5 Sample.during true
                 (book_ride Sample.asha_session 5 Sample.during Sample.db0).1).1.1
              [Notify 1 (cancelled_message Sample.asha_session)])
    as (ride & ride2 & Hride & Hride2 & Hseats & Hversion & _).
  - vm_compute. reflexivity.
  - vm_compute. reflexivity.
  - exists ride2. vm_compute in Hride. injection Hride as <-.
    split; [exact Hride2|]. split; [exact Hseats|exact Hversion].
Defined.

(** ** One attempt of a reservation *)

Lemma backoffs_snoc (k : Z) :
  0 <= k → backoffs (k + 1) = backoffs k ++ [Sleep (backoff (k + 1))].
Proof.
  intros Hk. unfold backoffs.
  rewrite seqZ_app, fmap_app by lia. f_equal.
  rewrite seqZ_cons, seqZ_nil by lia. simpl. do 3 f_equal. lia.
Qed.

(** C5.  At every attempt (whatever the number [attempt] of attempts
    already made, and on the store as it is at that attempt) the handler
    loads the ride afresh and checks in this order: the ride exists, else
    "Ride not found."; the gender filter is satisfied, else the preference
    message; the ride is not completed, else "Ride has already completed.";
    the passenger holds no booking, else "You have already booked this
    ride."; the row it loaded has a seat, else "Ride is full."; only then
    does it go on to the conditional write with that row.  So on a ride
    with no seat left a reservation that passes the first four checks is
    answered "Ride is full.", an error, at every attempt, and leaves the
    store as it was. *)
Theorem book_ride_preconditions (s : Session) (ride_id : Z) (passenger : User)
    (attempt : Z) (es : list Effect) (now : Py.datetime) (db : DB) :
  0 <= attempt < max_retries →
  let t := mkThread s ride_id (LoopHead passenger attempt) es in
  let mismatch ride :=
    negb (String.eqb (rider_gender_preference ride) "Any")
    && negb (String.eqb (gender passenger) (rider_gender_preference ride)) in
  (bike_rides db !! ride_id = None → run 2 now db t = (db, goto t (Return NotFound)))
  ∧ (∀ ride, bike_rides db !! ride_id = Some ride → mismatch ride = true →
       run 2 now db t = (db, goto t (Return (PolicyRejected ride))))
  ∧ (∀ ride ride_dt_start ride_dt_end,
       bike_rides db !! ride_id = Some ride → mismatch ride = false →
       get_ride_datetime (ride_date ride) (ride_time ride) (ride_end_time ride)
         = Some (ride_dt_start, ride_dt_end) →
       run 2 now db t =
         if completed_at ride_dt_end now then (db, goto t (Return RideCompleted))
         else if has_booking db ride_id (sess_user_id s)
         then (db, goto t (Return AlreadyBooked))
         else if seats_available ride <=? 0 then (db, goto t (Return RideFull))
         else (db, goto t (Update passenger (attempt + 1) ride)))
  ∧ (∀ ride ride_dt_start ride_dt_end,
       bike_rides db !! ride_id = Some ride → mismatch ride = false →
       get_ride_datetime (ride_date ride) (ride_time ride) (ride_end_time ride)
         = Some (ride_dt_start, ride_dt_end) →
       completed_at ride_dt_end now = false →
       has_booking db ride_id (sess_user_id s) = false →
       seats_available ride = 0 →
       run 2 now db t = (db, goto t (Return RideFull)) ∧ is_error RideFull = true).
Proof.
  intros Ha t mismatch.
  assert (Hlt : (attempt <? max_retries) = true) by (apply Z.ltb_lt; lia).
  assert (Hfull : ∀ ride st e,
    bike_rides db !! ride_id = Some ride → mismatch ride = false →
    get_ride_datetime (ride_date ride) (ride_time ride) (ride_end_time ride)
      = Some (st, e) →
    run 2 now db t =
      if completed_at e now then (db, goto t (Return RideCompleted))
      else if has_booking db ride_id (sess_user_id s)
      then (db, goto t (Return AlreadyBooked))
      else if seats_available ride <=? 0 then (db, goto t (Return RideFull))
      else (db, goto t (Update passenger (attempt + 1) ride))).
  { intros ride st e Hride Hm Hwin. subst mismatch t. simpl in Hm.
    rewrite run_unfold. unfold book_ride_step at 1 2. cbn [pc session target effects goto fst snd negb].
    rewrite Hlt. cbn [negb]. rewrite Hride, Hm, Hwin.
    destruct (completed_at e now); [returned|].
    cbn [fst snd].
    rewrite run_unfold. unfold book_ride_step at 1 2. cbn [pc session target effects goto fst snd negb].
    destruct (has_booking db ride_id (sess_user_id s)); [returned|].
    destruct (seats_available ride <=? 0); [returned|reflexivity]. }
  split; [|split; [|split]].
  - intros Hride. subst t. rewrite run_unfold. unfold book_ride_step at 1 2. cbn [pc session target effects goto fst snd negb].
    rewrite Hlt. cbn [negb]. rewrite Hride. returned.
  - intros ride Hride Hm. subst mismatch t. simpl in Hm.
    rewrite run_unfold. unfold book_ride_step at 1 2. cbn [pc session target effects goto fst snd negb].
    rewrite Hlt. cbn [negb]. rewrite Hride, Hm. returned.
  - exact Hfull.
  - intros ride st e Hride Hm Hwin Hdone Hb Hseats. split; [|done].
    rewrite (Hfull ride st e Hride Hm Hwin), Hdone, Hb, Hseats. done.
Qed.

Lemma book_ride_preconditions_witness :
  run 2 Sample.during Sample.db1
    (mkThread Sample.ravi_session 5 (LoopHead Sample.ravi 2) [Sleep 80; Sleep 160])
  = (Sample.db1,
     mkThread Sample.ravi_session 5 (Return RideFull) [Sleep 80; Sleep 160]).
Proof.
  destruct (book_ride_preconditions Sample.ravi_session 5 Sample.ravi 2
              [Sleep 80; Sleep 160] Sample.during Sample.db1) as (_ & _ & _ & H).
  - unfold max_retries. lia.
  - refine (proj1 (H (set_seats_version Sample.night_ride 0 2)
                     (Py.combine 739000 (Py.hm 23 0))
                     (Py.combine 739001 (Py.hm 1 0)) _ _ _ _ _ _)).
    + reflexivity.
    + reflexivity.
    + vm_compute. reflexivity.
    + vm_compute. reflexivity.
    + vm_compute. reflexivity.
    + reflexivity.
Defined.

(** C9.  When the conditional write of an attempt is applied (the row has
    the version the request read and a seat) and the insert of the booking
    is rejected because a row for the pair is already there, the
    transaction is rolled back, so the store keeps its seats and version;
    the request then finds the booking and answers "You have already booked
    this ride.", flashed as information and no error, and takes no further
    step: it writes nothing more. *)
Theorem book_ride_duplicate_insert (s : Session) (ride_id : Z) (passenger : User)
    (attempt : Z) (ride row : BikeRide) (es : list Effect)
    (now now' : Py.datetime) (db db' : DB) :
  let t := mkThread s ride_id (Update passenger attempt ride) es in
  bike_rides db !! ride_id = Some row →
  guard row (version ride) = true →
  has_booking db ride_id (sess_user_id s) = true →
  has_booking db' ride_id (sess_user_id s) = true →
  book_ride_step now true db t = (db, goto t (Recheck passenger attempt))
  ∧ book_ride_step now' true db' (goto t (Recheck passenger attempt))
      = (db', goto t (Return AlreadyBooked))
  ∧ is_error AlreadyBooked = false
  ∧ (∀ now'' store_ok db'',
       book_ride_step now'' store_ok db'' (goto t (Return AlreadyBooked))
         = (db'', goto t (Return AlreadyBooked))).
Proof.
  intros t Hrow Hguard Hb Hb'. subst t. repeat split.
  - unfold book_ride_step. simpl. by rewrite Hrow, Hguard, Hb.
  - unfold book_ride_step. simpl. by rewrite Hb'.
Qed.

Lemma book_ride_duplicate_insert_witness :
  book_ride_step Sample.during true Sample.db2
    (mkThread Sample.asha_session 5 (Update Sample.asha 1 Sample.night_ride) [])
  = (Sample.db2,
     mkThread Sample.asha_session 5 (Recheck Sample.asha 1) []).
Proof.
  refine (proj1 (book_ride_duplicate_insert Sample.asha_session 5 Sample.asha 1
                   Sample.night_ride Sample.night_ride []
                   Sample.during Sample.during Sample.db2 Sample.db2 _ _ _ _)).
  - reflexivity.
  - reflexivity.
  - reflexivity.
  - reflexivity.
Defined.

(** ** The retry loop *)

Lemma max_retries_ltb (a : Z) : (a <? max_retries) = true → a < max_retries.
Proof. apply Z.ltb_lt. Qed.

Lemma max_retries_geb (a : Z) : (a <? max_retries) = false → max_retries <= a.
Proof. apply Z.ltb_ge. Qed.

(** The effect log follows the handler: [k] sleeps of [80 * 1], ..,
    [80 * k] milliseconds after [k] attempts that were retried. *)
Ltac step_cases Hpc :=
  unfold book_ride_step; rewrite Hpc; repeat case_match;
  cbn [fst snd goto perform pc effects target session].

Lemma log_ok_step (now : Py.datetime) (store_ok : bool) (db : DB) (t : Thread) :
  log_ok t → log_ok (book_ride_step now store_ok db t).2.
Proof.
  intros Hlog. unfold log_ok in Hlog.
  destruct (pc t) as [|p a|p a ride|p a ride|p a|reply] eqn:Hpc.
  - step_cases Hpc; unfold log_ok; cbn [pc effects goto]; try discriminate.
    split; [unfold max_retries; lia|]. by rewrite Hlog.
  - destruct Hlog as [Ha Hlog].
    step_cases Hpc; unfold log_ok; cbn [pc effects goto]; try discriminate;
      match goal with
      | H : (_ <? max_retries) = true |- _ => apply max_retries_ltb in H
      | H : (_ <? max_retries) = false |- _ => apply max_retries_geb in H
      end.
    + split; [lia|]. by replace (a + 1 - 1) with a by lia.
    + intros _. rewrite Hlog. f_equal. lia.
  - destruct Hlog as [Ha Hlog].
    step_cases Hpc; unfold log_ok; cbn [pc effects goto]; try discriminate; done.
  - destruct Hlog as [Ha Hlog].
    assert (Hretry : 0 <= a <= max_retries
                     ∧ effects t ++ [Sleep (backoff a)] = backoffs a).
    { split; [lia|]. rewrite Hlog.
      replace a with (a - 1 + 1) at 2 3 by lia. rewrite backoffs_snoc by lia. done. }
    step_cases Hpc; unfold log_ok; cbn [pc effects goto perform]; try discriminate; done.
  - destruct Hlog as [Ha Hlog].
    assert (Hretry : 0 <= a <= max_retries
                     ∧ effects t ++ [Sleep (backoff a)] = backoffs a).
    { split; [lia|]. rewrite Hlog.
      replace a with (a - 1 + 1) at 2 3 by lia. rewrite backoffs_snoc by lia. done. }
    step_cases Hpc; unfold log_ok; cbn [pc effects goto perform]; try discriminate; done.
  - unfold book_ride_step. rewrite Hpc. cbn [snd]. unfold log_ok. by rewrite Hpc.
Qed.

Lemma log_ok_reach (s : Session) (ride_id : Z) (t : Thread) :
  thread_reach s ride_id t → log_ok t.
Proof. induction 1; [done|by apply log_ok_step]. Qed.

Lemma log_ok_attempt (t : Thread) :
  log_ok t → 0 <= attempt_of (pc t) <= max_retries.
Proof.
  unfold log_ok. destruct (pc t); simpl; unfold max_retries; intros; lia.
Qed.

Lemma steps_left_step (now : Py.datetime) (store_ok : bool) (db : DB) (t : Thread) :
  log_ok t →
  0 <= steps_left (pc (book_ride_step now store_ok db t).2)
  ∧ (steps_left (pc (book_ride_step now store_ok db t).2) < steps_left (pc t)
     ∨ ∃ reply, pc t = Return reply).
Proof.
  intros Hlog. unfold log_ok in Hlog.
  destruct (pc t) as [|p a|p a ride|p a ride|p a|reply] eqn:Hpc.
  - step_cases Hpc; cbn [steps_left]; lia.
  - destruct Hlog as [Ha _]. unfold max_retries in Ha.
    step_cases Hpc; cbn [steps_left];
      match goal with
      | H : (_ <? max_retries) = true |- _ => apply max_retries_ltb in H
      | H : (_ <? max_retries) = false |- _ => apply max_retries_geb in H
      end; unfold max_retries in *; lia.
  - destruct Hlog as [Ha _]. unfold max_retries in Ha.
    step_cases Hpc; cbn [steps_left]; lia.
  - destruct Hlog as [Ha _]. unfold max_retries in Ha.
    step_cases Hpc; cbn [steps_left]; lia.
  - destruct Hlog as [Ha _]. unfold max_retries in Ha.
    step_cases Hpc; cbn [steps_left]; lia.
  - unfold book_ride_step. rewrite Hpc. cbn [snd]. rewrite Hpc. simpl.
    split; [lia|]. right. by eexists.
Qed.

Lemma run_env_Return (env : list (Py.datetime * bool * DB)) (t : Thread) (reply : Reply) :
  pc t = Return reply → run_env env t = t.
Proof.
  revert t. induction env as [|[[now ok] db] env IH]; intros t Hpc; [done|].
  simpl. unfold book_ride_step. rewrite Hpc. cbn [snd]. by apply IH.
Qed.

Lemma run_env_terminates (env : list (Py.datetime * bool * DB)) (t : Thread) :
  log_ok t → 0 <= steps_left (pc t) <= Z.of_nat (length env) →
  ∃ reply, pc (run_env env t) = Return reply.
Proof.
  revert t. induction env as [|[[now ok] db] env IH]; intros t Hlog Hsteps.
  - simpl in *. destruct (pc t) eqn:Hpc; simpl in Hsteps; try (unfold log_ok in Hlog;
      rewrite Hpc in Hlog; unfold max_retries in Hlog; lia).
    by eexists.
  - simpl run_env.
    destruct (steps_left_step now ok db t Hlog) as [Hpos [Hdec|[reply Hret]]].
    + apply IH; [by apply log_ok_step|]. simpl length in Hsteps. lia.
    + assert (Hsame : (book_ride_step now ok db t).2 = t).
      { unfold book_ride_step. by rewrite Hret. }
      rewrite Hsame. rewrite (run_env_Return env t reply Hret). by eexists.
Qed.

Lemma run_env_snoc (env : list (Py.datetime * bool * DB)) (now : Py.datetime)
    (store_ok : bool) (db : DB) (t : Thread) :
  run_env (env ++ [(now, store_ok, db)]) t
  = (book_ride_step now store_ok db (run_env env t)).2.
Proof.
  revert t. induction env as [|[[now' ok'] db'] env IH]; intros t; [done|].
  simpl. apply IH.
Qed.

Lemma run_env_reach (s : Session) (ride_id : Z) (env : list (Py.datetime * bool * DB)) :
  thread_reach s ride_id (run_env env (request s ride_id)).
Proof.
  induction env as [|[[now ok] db] env IH] using rev_ind; [apply reach_request|].
  rewrite run_env_snoc. by apply reach_step.
Qed.

(** C6.  The loop makes at most [max_retries = 4] attempts, whatever the
    other requests do: the attempt counter of a request never exceeds 4 and
    every request has answered after 18 of its steps.  An attempt whose
    conditional write matches no row sleeps [80 * attempt] milliseconds and
    goes back to the head of the loop; after [k] retried attempts the
    request has slept 80, 160, .., [80 * k] milliseconds and nothing else.
    A request at the head of the loop with its four attempts used up answers
    "Unable to book ride at this time due to high contention. Please try
    again.", which is none of the rejections "Ride not found.", the
    preference message, "Ride has already completed." and "Ride is full.";
    a request that gave this answer has slept exactly 80, 160, 240 and 320
    milliseconds. *)
Theorem book_ride_retry_bound (s : Session) (ride_id : Z) :
  max_retries = 4
  ∧ (∀ t, thread_reach s ride_id t →
       0 <= attempt_of (pc t) <= max_retries ∧ log_ok t)
  ∧ (∀ env, (18 <= length env)%nat →
       ∃ reply, pc (run_env env (request s ride_id)) = Return reply)
  ∧ (∀ t passenger attempt ride now db,
       pc t = Update passenger attempt ride →
       match bike_rides db !! target t with
       | Some row => guard row (version ride) = false
       | None => True
       end →
       book_ride_step now true db t
         = (db, perform t [Sleep (80 * attempt)] (LoopHead passenger attempt)))
  ∧ (∀ t passenger now store_ok db,
       pc t = LoopHead passenger max_retries →
       book_ride_step now store_ok db t = (db, goto t (Return HighContention)))
  ∧ (∀ t, thread_reach s ride_id t → pc t = Return HighContention →
       effects t = [Sleep 80; Sleep 160; Sleep 240; Sleep 320])
  ∧ (is_error HighContention = true
     ∧ HighContention ≠ NotFound ∧ HighContention ≠ RideCompleted
     ∧ HighContention ≠ RideFull ∧ ∀ ride, HighContention ≠ PolicyRejected ride).
Proof.
  split; [done|]. split; [|split; [|split; [|split; [|split]]]].
  - intros t Ht. pose proof (log_ok_reach _ _ _ Ht) as Hlog.
    split; [by apply log_ok_attempt|done].
  - intros env Hlen. apply run_env_terminates; [done|]. simpl. lia.
  - intros t p a ride now db Hpc Hguard.
    unfold book_ride_step. rewrite Hpc. cbn [negb]. cbv iota.
    destruct (bike_rides db !! target t) as [row|]; [|done].
    by rewrite Hguard.
  - intros t p now ok db Hpc. unfold book_ride_step. rewrite Hpc.
    by rewrite Z.ltb_irrefl.
  - intros t Ht Hpc. pose proof (log_ok_reach _ _ _ Ht) as Hlog.
    unfold log_ok in Hlog. rewrite Hpc in Hlog. by rewrite Hlog.
  - repeat split; done.
Qed.

Lemma book_ride_retry_bound_witness :
  (∃ reply,
     pc (run_env (replicate 18 (Sample.during, true, Sample.db0))
           (request Sample.asha_session 5)) = Return reply)
  ∧ effects (run_env Sample.contended (request Sample.asha_session 5))
    = [Sleep 80; Sleep 160; Sleep 240; Sleep 320].
Proof.
  destruct (book_ride_retry_bound Sample.asha_session 5)
    as (_ & _ & Hrun & _ & _ & Hslept & _).
  split.
  - apply Hrun. simpl. lia.
  - apply Hslept; [apply run_env_reach|]. vm_compute. reflexivity.
Defined.

(** ** Every step of a request, and of the other handlers *)

(** A step of a request either leaves the store alone, answers "Ride
    booked successfully!" only if that was already its answer, and holds no
    ride object other than the one it held or the row it has just loaded; or
    it is the applied conditional write, committed with the booking. *)
Lemma book_ride_step_cases (now : Py.datetime) (store_ok : bool) (db : DB) (t : Thread) :
  let r := book_ride_step now store_ok db t in
  (r.1 = db
   ∧ target r.2 = target t
   ∧ (pc r.2 = Return Booked ↔ pc t = Return Booked)
   ∧ (snapshot_of (pc r.2) = None
      ∨ snapshot_of (pc r.2) = snapshot_of (pc t)
      ∨ snapshot_of (pc r.2) = bike_rides db !! target t))
  ∨ (∃ passenger attempt ride row,
       pc t = Update passenger attempt ride
       ∧ store_ok = true
       ∧ bike_rides db !! target t = Some row
       ∧ guard row (version ride) = true
       ∧ has_booking db (target t) (sess_user_id (session t)) = false
       ∧ r.1 = mkDB (users db)
                 (<[target t := set_seats_version row (seats_available ride - 1)
                                  (version ride + 1)]> (bike_rides db))
                 (bookings db ++ [mkBooking (target t) (sess_user_id (session t))])
       ∧ target r.2 = target t
       ∧ pc r.2 = Return Booked).
Proof.
  cbv zeta.
  destruct (pc t) as [|p a|p a ride|p a ride|p a|reply] eqn:Hpc.
  - left. step_cases Hpc; (split; [done|split; [done|split; [|by left]]]);
      rewrite ?Hpc; split; intros [=].
  - left. step_cases Hpc; (split; [done|split; [done|split]]);
      rewrite ?Hpc; try (split; intros [=]); cbn [snapshot_of]; auto.
  - left. step_cases Hpc; (split; [done|split; [done|split]]);
      rewrite ?Hpc; try (split; intros [=]); cbn [snapshot_of]; auto.
  - unfold book_ride_step. rewrite Hpc.
    destruct store_ok; cbn [negb].
    2:{ left. cbn [fst snd goto pc target]. repeat split; try (intros [=]). by left. }
    destruct (bike_rides db !! target t) as [row|] eqn:Hrow.
    2:{ left. cbn [fst snd perform pc target]. rewrite ?Hpc.
        repeat split; try (intros [=]). by left. }
    destruct (guard row (version ride)) eqn:Hguard.
    2:{ left. cbn [fst snd perform pc target]. rewrite ?Hpc.
        repeat split; try (intros [=]). by left. }
    destruct (has_booking db (target t) (sess_user_id (session t))) eqn:Hb.
    { left. cbn [fst snd goto pc target]. rewrite ?Hpc.
      repeat split; try (intros [=]). by left. }
    right. exists p, a, ride, row. by repeat split.
  - left. step_cases Hpc; (split; [done|split; [done|split]]);
      rewrite ?Hpc; try (split; intros [=]); cbn [snapshot_of]; auto.
  - left. unfold book_ride_step. rewrite Hpc. cbn [fst snd]. rewrite Hpc. auto.
Qed.

Lemma guard_true (row : BikeRide) (old_version : Z) :
  guard row old_version = true ↔ version row = old_version ∧ 0 < seats_available row.
Proof. unfold guard. rewrite andb_true_iff, Z.eqb_eq, Z.ltb_lt. done. Qed.

(** ** Concurrent reservations *)

Lemma booked_count_app (r : Z) (ts1 ts2 : list Thread) :
  booked_count r (ts1 ++ ts2) = booked_count r ts1 + booked_count r ts2.
Proof. unfold booked_count. rewrite filter_app, length_app. lia. Qed.

Lemma booked_count_cons (r : Z) (t : Thread) (ts : list Thread) :
  booked_count r (t :: ts) = (if has_booked r t then 1 else 0) + booked_count r ts.
Proof.
  unfold booked_count. destruct (has_booked r t) eqn:Hb.
  - rewrite filter_cons_True by done. simpl length. lia.
  - rewrite filter_cons_False by (by rewrite Hb). lia.
Qed.

Lemma booked_count_nonneg (r : Z) (ts : list Thread) : 0 <= booked_count r ts.
Proof. unfold booked_count. lia. Qed.

Lemma has_booked_pc (r : Z) (t t' : Thread) :
  target t' = target t → (pc t' = Return Booked ↔ pc t = Return Booked) →
  has_booked r t' = has_booked r t.
Proof.
  intros Ht Hpc. unfold has_booked. rewrite Ht. f_equal. by apply bool_decide_ext.
Qed.

Lemma snapshot_ok_newer (r : Z) (cur cur' : BikeRide) (t : Thread) :
  version cur < version cur' → snapshot_ok r cur t → snapshot_ok r cur' t.
Proof.
  intros Hlt Hok Ht ride Hsnap. destruct (Hok Ht ride Hsnap) as [Hle _]. lia.
Qed.

Lemma seats_inv_step (r N v0 : Z) (sys sys' : System) :
  seats_inv r N v0 sys → sys_step sys sys' → seats_inv r N v0 sys'.
Proof.
  intros (cur & Hcur & Hseats & Hcount & Hversion & Hsnap) Hstep.
  destruct Hstep as [db ts s ride_id|db ts1 t ts2 now ok];
    unfold seats_inv; cbn [store threads] in *.
  - exists cur. rewrite booked_count_app, booked_count_cons.
    replace (has_booked r (request s ride_id)) with false
      by (unfold has_booked; by rewrite andb_false_r).
    unfold booked_count at 2 4. simpl. rewrite !Z.add_0_r.
    repeat split; try done.
    apply Forall_app. split; [done|]. apply Forall_singleton. by intros _ ride [=].
  - rewrite booked_count_app, booked_count_cons in Hcount, Hversion.
    apply Forall_app in Hsnap as [Hsnap1 Hsnap2].
    apply Forall_cons in Hsnap2 as [Hsnapt Hsnap2].
    destruct (book_ride_step_cases now ok db t)
      as [(Hdb & Ht & Hpc & Hs)
         |(p & a & ride & row & Hpc & _ & Hrow & Hguard & _ & Hdb & Ht & Hret)].
    + rewrite Hdb. exists cur.
      rewrite booked_count_app, booked_count_cons.
      rewrite (has_booked_pc r t _ Ht Hpc).
      repeat split; try done.
      apply Forall_app. split; [done|]. apply Forall_cons. split; [|done].
      intros Ht' ride Hride. rewrite Ht in Ht'.
      destruct Hs as [Hs|[Hs|Hs]].
      * congruence.
      * apply Hsnapt; [done|congruence].
      * rewrite Hs, Ht', Hcur in Hride. injection Hride as <-. split; [lia|done].
    + rewrite Hdb. cbn [bike_rides].
      rewrite booked_count_app, booked_count_cons.
      assert (Hbt : has_booked r t = false).
      { unfold has_booked. rewrite Hpc. by rewrite andb_false_r. }
      rewrite Hbt in Hcount, Hversion.
      destruct (decide (target t = r)) as [Heq|Hne].
      * assert (Hbt' : has_booked r (book_ride_step now ok db t).2 = true).
        { unfold has_booked. rewrite Ht, Hret, Heq.
          by rewrite !bool_decide_eq_true_2. }
        rewrite Hbt'. rewrite Heq in *. rewrite lookup_insert_eq.
        assert (row = cur) as -> by congruence.
        apply guard_true in Hguard as [Hv Hpos].
        assert (Hsame : seats_available ride = seats_available cur).
        { apply (Hsnapt Heq ride); [by rewrite Hpc|done]. }
        eexists. split; [done|]. cbn [seats_available version set_seats_version].
        split; [lia|]. split; [lia|]. split; [lia|].
        assert (Hnewer : version cur < version (set_seats_version cur
                           (seats_available ride - 1) (version ride + 1)))
          by (simpl; lia).
        apply Forall_app. split.
        { eapply Forall_impl; [exact Hsnap1|]. intros t0. by apply snapshot_ok_newer. }
        apply Forall_cons. split.
        { intros _ ride0. by rewrite Hret. }
        eapply Forall_impl; [exact Hsnap2|]. intros t0. by apply snapshot_ok_newer.
      * assert (Hbt' : has_booked r (book_ride_step now ok db t).2 = false).
        { unfold has_booked. rewrite Ht. by rewrite bool_decide_eq_false_2. }
        rewrite Hbt'. rewrite lookup_insert_ne by done.
        exists cur. repeat split; try done.
        apply Forall_app. split; [done|]. apply Forall_cons. split; [|done].
        intros _ ride0. by rewrite Hret.
Qed.

Lemma seats_inv_reachable (db0 : DB) (r : Z) (ride0 : BikeRide) (sys : System) :
  bike_rides db0 !! r = Some ride0 → 0 <= seats_available ride0 →
  reachable db0 sys →
  seats_inv r (seats_available ride0) (version ride0) sys.
Proof.
  intros Hride Hseats Hreach. unfold reachable in Hreach.
  apply (rtc_ind_r (R := sys_step)
           (seats_inv r (seats_available ride0) (version ride0))
           (mkSystem db0 [])); [| |exact Hreach].
  - exists ride0. cbn [store threads]. unfold booked_count. simpl.
    repeat split; try done; try lia.
  - intros sys1 sys2 _ Hstep IH. by eapply seats_inv_step.
Qed.

Lemma fire_step (e : Event) (sys : System) :
  fire e sys = sys ∨ sys_step sys (fire e sys).
Proof.
  destruct sys as [db ts]. destruct e as [s ride_id|i now ok]; cbn [fire store threads].
  - right. apply arrive.
  - destruct (ts !! i) as [t|] eqn:Hi; [|by left]. right.
    rewrite <- (take_drop_middle ts i t Hi) at 1.
    rewrite insert_take_drop by (by eapply lookup_lt_Some).
    apply advance.
Qed.

Lemma exec_rtc (schedule : list Event) (sys : System) :
  rtc sys_step sys (exec schedule sys).
Proof.
  revert sys. induction schedule as [|e schedule IH]; intros sys; [done|].
  unfold exec. simpl. destruct (fire_step e sys) as [->|Hstep]; [apply IH|].
  eapply rtc_l; [exact Hstep|apply IH].
Qed.

Lemma exec_reachable (schedule : list Event) (db0 : DB) :
  reachable db0 (exec schedule (mkSystem db0 [])).
Proof. apply exec_rtc. Qed.

Lemma exec_cons (e : Event) (schedule : list Event) (sys : System) :
  exec (e :: schedule) sys = exec schedule (fire e sys).
Proof. done. Qed.

Lemma exec_run (n : nat) (now : Py.datetime) (db : DB) (ts : list Thread) (t : Thread) :
  exec (replicate n (Advance (length ts) now true)) (mkSystem db (ts ++ [t]))
  = mkSystem (run n now db t).1 (ts ++ [(run n now db t).2]).
Proof.
  revert db t. induction n as [|n IH]; intros db t; [done|].
  cbn [replicate]. rewrite exec_cons, run_unfold. cbn [fire store threads].
  rewrite list_lookup_middle by done.
  rewrite insert_app_r_alt by done. rewrite Nat.sub_diag. cbn [insert list_insert].
  apply IH.
Qed.

(** A call served alone is a run of the system: the request arrives and
    takes all its steps before any other request moves. *)
Lemma serve_call (s : Session) (ride_id : Z) (now : Py.datetime) (sys : System) :
  exec (Arrive s ride_id :: replicate 18 (Advance (length (threads sys)) now true)) sys
  = mkSystem (book_ride s ride_id now (store sys)).1
             (threads sys ++ [(book_ride s ride_id now (store sys)).2]).
Proof. rewrite exec_cons. destruct sys as [db ts]. apply exec_run. Qed.

Lemma serve_rtc (calls : list (Session * Z * Py.datetime)) (sys : System) :
  rtc sys_step sys (serve calls sys).
Proof.
  revert sys. induction calls as [|[[s ride_id] now] calls IH]; intros sys; [done|].
  unfold serve. cbn [foldl]. rewrite <- serve_call.
  eapply rtc_trans; [apply exec_rtc|apply IH].
Qed.

Lemma serve_reachable (calls : list (Session * Z * Py.datetime)) (db0 : DB) :
  reachable db0 (serve calls (mkSystem db0 [])).
Proof. apply serve_rtc. Qed.

(** C1.  Let ride [r] hold [N >= 0] seats when the first request arrives,
    and let any number of [book_ride] requests, for any rides and
    passengers, arrive and take their steps in any order, one call after
    the other ([serve_reachable]) or interleaved.  In every state
    the system reaches, the ride still exists, its seats are not negative,
    and the reservations of [r] answered "Ride booked successfully!" are as
    many as the seats gone, hence at most [N], and as many as the version
    has advanced.  Every step that changes the
    row of [r] is the write of a request of [r] that stands at its
    conditional write while the row has the version the request observed
    and a seat left: the step takes exactly one seat and adds one to the
    version. *)
Theorem concurrent_reservations (db0 : DB) (r : Z) (ride0 : BikeRide) (sys : System) :
  bike_rides db0 !! r = Some ride0 →
  0 <= seats_available ride0 →
  reachable db0 sys →
  ∃ cur,
    bike_rides (store sys) !! r = Some cur
    ∧ 0 <= seats_available cur
    ∧ booked_count r (threads sys) + seats_available cur = seats_available ride0
    ∧ booked_count r (threads sys) <= seats_available ride0
    ∧ version cur = version ride0 + booked_count r (threads sys)
    ∧ ∀ sys' cur',
        sys_step sys sys' →
        bike_rides (store sys') !! r = Some cur' →
        cur' ≠ cur →
        (∃ t passenger attempt ride,
           t ∈ threads sys ∧ target t = r
           ∧ pc t = Update passenger attempt ride
           ∧ guard cur (version ride) = true
           ∧ version cur = version ride ∧ 0 < seats_available cur)
        ∧ seats_available cur' = seats_available cur - 1
        ∧ version cur' = version cur + 1.
Proof.
  intros Hride Hseats Hreach.
  destruct (seats_inv_reachable db0 r ride0 sys Hride Hseats Hreach)
    as (cur & Hcur & Hpos & Hcount & Hversion & Hsnap).
  exists cur. split; [done|]. split; [done|]. split; [done|]. split; [lia|].
  split; [done|].
  intros sys' cur' Hstep Hcur' Hne.
  destruct Hstep as [db ts s ride_id|db ts1 t ts2 now ok]; cbn [store threads] in *.
  { congruence. }
  apply Forall_app in Hsnap as [_ Hsnap]. apply Forall_cons in Hsnap as [Hsnapt _].
  destruct (book_ride_step_cases now ok db t)
    as [(Hdb & _)
       |(p & a & ride & row & Hpc & _ & Hrow & Hguard & _ & Hdb & Ht & Hret)].
  { rewrite Hdb in Hcur'. congruence. }
  rewrite Hdb in Hcur'. cbn [bike_rides] in Hcur'.
  destruct (decide (target t = r)) as [Heq|Hneq].
  2:{ rewrite lookup_insert_ne in Hcur' by done. congruence. }
  rewrite Heq in *. rewrite lookup_insert_eq in Hcur'. injection Hcur' as <-.
  assert (row = cur) as -> by congruence.
  apply guard_true in Hguard as Hg. destruct Hg as [Hv Hseat].
  assert (Hsame : seats_available ride = seats_available cur).
  { apply (Hsnapt Heq ride); [by rewrite Hpc|done]. }
  split.
  - exists t, p, a, ride. split; [|done].
    apply elem_of_app. right. apply elem_of_cons. by left.
  - cbn [seats_available version set_seats_version]. lia.
Qed.

Lemma concurrent_reservations_witness :
  (∃ cur,
     bike_rides (store (exec Sample.race (mkSystem Sample.db0 []))) !! 5 = Some cur
     ∧ 0 <= seats_available cur
     ∧ booked_count 5 (threads (exec Sample.race (mkSystem Sample.db0 []))) <= 1)
  ∧ (∃ cur,
       bike_rides (store (serve Sample.queue (mkSystem Sample.db0 []))) !! 5 = Some cur
       ∧ 0 <= seats_available cur
       ∧ booked_count 5 (threads (serve Sample.queue (mkSystem Sample.db0 []))) <= 1)
  ∧ (∃ t passenger attempt ride,
       t ∈ threads (exec (take 8 Sample.race) (mkSystem Sample.db0 []))
       ∧ pc t = Update passenger attempt ride
       ∧ guard Sample.night_ride (version ride) = true).
Proof.
  split; [|split].
  - destruct (concurrent_reservations Sample.db0 5 Sample.night_ride
                (exec Sample.race (mkSystem Sample.db0 [])))
      as (cur & Hcur & Hpos & _ & Hle & _ & _).
    + reflexivity.
    + vm_compute. discriminate.
    + apply exec_reachable.
    + exists cur. split; [exact Hcur|]. split; [exact Hpos|exact Hle].
  - destruct (concurrent_reservations Sample.db0 5 Sample.night_ride
                (serve Sample.queue (mkSystem Sample.db0 [])))
      as (cur & Hcur & Hpos & _ & Hle & _ & _).
    + reflexivity.
    + vm_compute. discriminate.
    + apply serve_reachable.
    + exists cur. split; [exact Hcur|]. split; [exact Hpos|exact Hle].
  - destruct (concurrent_reservations Sample.db0 5 Sample.night_ride
                (exec (take 8 Sample.race) (mkSystem Sample.db0 [])))
      as (cur & Hcur & _ & _ & _ & _ & Hwrite).
    + reflexivity.
    + vm_compute. discriminate.
    + apply exec_reachable.
    + vm_compute in Hcur. injection Hcur as <-.
      destruct (Hwrite (fire (Advance 0 Sample.during true)
                          (exec (take 8 Sample.race) (mkSystem Sample.db0 [])))
                       (set_seats_version Sample.night_ride 0 2))
        as ((t & p & a & ride & Hin & _ & Hpc & Hguard & _) & _).
      * destruct (fire_step (Advance 0 Sample.during true)
                    (exec (take 8 Sample.race) (mkSystem Sample.db0 [])))
          as [Hsame|Hstep]; [|exact Hstep].
        apply (f_equal (λ sys, pc <$> threads sys)) in Hsame.
        vm_compute in Hsame. discriminate Hsame.
      * vm_compute. reflexivity.
      * vm_compute. discriminate.
      * exists t, p, a, ride. split; [exact Hin|]. split; [exact Hpc|exact Hguard].
Defined.

(** Scenario A of the specification, on the sample data: of two passengers
    racing for the one seat, the first writer is booked; the other's
    conditional write matches no row, it sleeps 80 ms, reads again and is
    told that the ride is full. *)
Example race_outcome :
  pc <$> threads (exec Sample.race (mkSystem Sample.db0 []))
    = [Return Booked; Return RideFull]
  ∧ effects <$> threads (exec Sample.race (mkSystem Sample.db0 []))
    = [ [Notify 1 (booked_message (request Sample.asha_session 5) Sample.night_ride);
         Email "asha@example.org" "Booking Confirmed - BikePool"];
        [Sleep 80] ]
  ∧ bookings (store (exec Sample.race (mkSystem Sample.db0 []))) = [mkBooking 5 7].
Proof. vm_compute. done. Qed.

(** The same two passengers and asha again, one call after the other. *)
Example queue_outcome :
  pc <$> threads (serve Sample.queue (mkSystem Sample.db0 []))
    = [Return Booked; Return RideFull; Return AlreadyBooked]
  ∧ bike_rides (store (serve Sample.queue (mkSystem Sample.db0 []))) !! 5
    = Some (set_seats_version Sample.night_ride 0 2).
Proof. vm_compute. done. Qed.

(** Four attempts that each lose the race, on the sample data. *)
Example contended_outcome :
  pc (run_env Sample.contended (request Sample.asha_session 5)) = Return HighContention
  ∧ effects (run_env Sample.contended (request Sample.asha_session 5))
    = [Sleep 80; Sleep 160; Sleep 240; Sleep 320].
Proof. vm_compute. done. Qed.

(** * Further properties of the handlers *)

(** ** The window of a ride *)

(** X1.  For valid times, a window that is returned starts at the ride's
    start instant and ends no earlier and at most one day later; it ends
    at its start exactly when there is no end time; an end time equal to
    the start time gives a window of a full day. *)
Theorem get_ride_datetime_bounds (d : Py.date) (s : Py.time) (oe : option Py.time)
    (ride_dt_start ride_dt_end : Py.datetime) :
  Py.valid_time s →
  (∀ e, oe = Some e → Py.valid_time e) →
  get_ride_datetime d s oe = Some (ride_dt_start, ride_dt_end) →
  ride_dt_start = Py.combine d s
  ∧ ride_dt_start <= ride_dt_end <= ride_dt_start + Py.us_per_day
  ∧ (ride_dt_end = ride_dt_start ↔ oe = None)
  ∧ (oe = Some s → ride_dt_end = ride_dt_start + Py.us_per_day).
Proof.
  intros Hs He. unfold get_ride_datetime. cbv zeta.
  destruct oe as [e|].
  - specialize (He e eq_refl).
    rewrite bool_decide_eq_true_2 by eauto. cbn [andb]. unfold Py.le.
    unfold Py.valid_time, Py.us_per_day in *.
    destruct (Py.combine d e <=? Py.combine d s) eqn:Hle.
    + apply Z.leb_le in Hle. unfold Py.add_days. cbv zeta.
      case_match; [|intros [=]]. cbn. intros [= <- <-].
      unfold Py.combine, Py.us_per_day in *.
      split; [done|]. split; [lia|]. split; [split; [lia|done]|].
      intros [= ->]. lia.
    + apply Z.leb_gt in Hle. intros [= <- <-].
      unfold Py.combine, Py.us_per_day in *.
      split; [done|]. split; [lia|]. split; [split; [lia|done]|].
      intros [= ->]. lia.
  - rewrite bool_decide_eq_false_2 by (by intros [? ?]). cbn [andb].
    intros [= <- <-]. unfold Py.us_per_day. split; [done|]. split; [lia|].
    split; [done|]. intros [=].
Qed.

Lemma get_ride_datetime_bounds_witness :
  Py.combine 739000 (Py.hm 23 0) <= Py.combine 739001 (Py.hm 1 0)
    <= Py.combine 739000 (Py.hm 23 0) + Py.us_per_day.
Proof.
  refine (proj1 (proj2 (get_ride_datetime_bounds 739000 (Py.hm 23 0) (Some (Py.hm 1 0))
                          (Py.combine 739000 (Py.hm 23 0))
                          (Py.combine 739001 (Py.hm 1 0)) _ _ _))).
  - vm_compute. split; [discriminate|reflexivity].
  - intros e [= <-]. vm_compute. split; [discriminate|reflexivity].
  - vm_compute. reflexivity.
Defined.

(** ** A reservation served alone *)

(** X2.  Served alone, [book_ride] answers "Ride booked successfully!"
    exactly when the caller is a passenger whose user row exists, the ride
    exists, its gender preference is "Any" or the passenger's gender, its
    window is defined and has not ended, the passenger holds no booking on
    it and it has a seat. *)
Theorem book_ride_Booked_iff (s : Session) (ride_id : Z) (now : Py.datetime) (db : DB) :
  pc (book_ride s ride_id now db).2 = Return Booked
  ↔ ∃ passenger ride ride_dt_start ride_dt_end,
      sess_is_rider s = false
      ∧ users db !! sess_user_id s = Some passenger
      ∧ bike_rides db !! ride_id = Some ride
      ∧ (rider_gender_preference ride = "Any"
         ∨ gender passenger = rider_gender_preference ride)
      ∧ get_ride_datetime (ride_date ride) (ride_time ride) (ride_end_time ride)
          = Some (ride_dt_start, ride_dt_end)
      ∧ now <= ride_dt_end
      ∧ (mkBooking ride_id (sess_user_id s) ∉ bookings db)
      ∧ 0 < seats_available ride.
Proof.
  assert (Hpref : ∀ passenger ride,
    negb (String.eqb (rider_gender_preference ride) "Any")
    && negb (String.eqb (gender passenger) (rider_gender_preference ride)) = false
    ↔ rider_gender_preference ride = "Any"
      ∨ gender passenger = rider_gender_preference ride).
  { intros p ride. rewrite andb_false_iff, !negb_false_iff, !String.eqb_eq. done. }
  split.
  - intros Hb. destruct (book_ride_Booked_inv _ _ _ _ Hb)
      as (p & ride & st & e & Hr & Hu & Hride & Hg & Hwin & Hdone & Hnb & Hseats & _).
    exists p, ride, st, e. apply Hpref in Hg.
    apply Z.ltb_ge in Hdone. apply bool_decide_eq_false in Hnb. done.
  - intros (p & ride & st & e & Hr & Hu & Hride & Hg & Hwin & Hdone & Hnb & Hseats).
    rewrite book_ride_alone. cbv zeta. rewrite Hr, Hu, Hride.
    apply Hpref in Hg. rewrite Hg, Hwin.
    unfold completed_at, Py.lt. replace (e <? now) with false
      by (symmetry; by apply Z.ltb_ge).
    unfold has_booking. rewrite bool_decide_eq_false_2 by done.
    replace (seats_available ride <=? 0) with false by (symmetry; apply Z.leb_gt; lia).
    done.
Qed.

(** X3.  Served alone, [book_ride] never retries: it never sleeps, never
    answers the high-contention or the concurrent-updates message, and it
    leaves the store exactly as it found it unless it answers "Ride booked
    successfully!"; it notifies the ride's owner and mails the passenger
    exactly in that case. *)
Theorem book_ride_alone_no_retry (s : Session) (ride_id : Z) (now : Py.datetime) (db : DB) :
  let r := book_ride s ride_id now db in
  (∀ ms, Sleep ms ∉ effects r.2)
  ∧ pc r.2 ≠ Return HighContention
  ∧ pc r.2 ≠ Return (dashboard
       "Could not complete booking due to concurrent updates. Please try again."
       "error")
  ∧ (pc r.2 ≠ Return Booked → r.1 = db ∧ effects r.2 = [])
  ∧ (pc r.2 = Return Booked →
       ∃ passenger ride,
         users db !! sess_user_id s = Some passenger
         ∧ bike_rides db !! ride_id = Some ride
         ∧ effects r.2 = [Notify (rider_id ride) (booked_message (request s ride_id) ride);
                          Email (email passenger) "Booking Confirmed - BikePool"]).
Proof.
  cbv zeta. rewrite book_ride_alone. cbv zeta.
  repeat case_match; cbn [fst snd pc effects goto perform request app].
  all: split; [intros ms Hin;
               repeat (apply elem_of_cons in Hin as [Hin|Hin]; [discriminate Hin|]);
               by apply elem_of_nil in Hin|].
  all: split; [discriminate|]; split; [discriminate|].
  all: split; [try done; intros Hne; by destruct Hne|].
  all: try discriminate.
  intros _. by eexists _, _.
Qed.

Lemma book_ride_Booked_iff_witness :
  pc (book_ride Sample.asha_session 5 Sample.during Sample.db0).2 = Return Booked.
Proof.
  apply (proj2 (book_ride_Booked_iff Sample.asha_session 5 Sample.during Sample.db0)).
  exists Sample.asha, Sample.night_ride, (Py.combine 739000 (Py.hm 23 0)),
         (Py.combine 739001 (Py.hm 1 0)).
  split; [reflexivity|]. split; [reflexivity|]. split; [reflexivity|].
  split; [by left|]. split; [vm_compute; reflexivity|].
  split; [vm_compute; discriminate|]. split; [apply not_elem_of_nil|].
  vm_compute. reflexivity.
Defined.

(** ** A reservation among others *)


Lemma holds_a_seat_step (now : Py.datetime) (store_ok : bool) (db : DB) (t : Thread) :
  holds_a_seat t → holds_a_seat (book_ride_step now store_ok db t).2.
Proof.
  intros Hseat. unfold holds_a_seat in Hseat.
  destruct (pc t) as [|p a|p a ride|p a ride|p a|reply] eqn:Hpc;
    step_cases Hpc; unfold holds_a_seat; cbn [pc goto perform]; try done.
  - match goal with H : (_ <=? 0) = false |- _ => apply Z.leb_gt in H end. lia.
  - by rewrite Hpc.
Qed.




(** Every state a request can reach is reached along some list of
    stores. *)
Lemma thread_reach_run_env (s : Session) (ride_id : Z) (t : Thread) :
  thread_reach s ride_id t → ∃ env, t = run_env env (request s ride_id).
Proof.
  induction 1 as [|t now ok db _ [env ->]]; [by exists []|].
  exists (env ++ [(now, ok, db)]). by rewrite run_env_snoc.
Qed.



(** The sample request, run: one sleep of 80 ms, then the notification of
    the owner and the mail to asha. *)
Example retried_outcome :
  effects (run_env Sample2.retried (request Sample.asha_session 5))
  = [Sleep 80; Notify 1 "🎉 asha booked a seat on your ride to Lonavala!";
     Email "asha@example.org" "Booking Confirmed - BikePool"].
Proof. vm_compute. reflexivity. Qed.

(** X5.  Whatever the store holds when a [book_ride] request takes a step
    (rows changed by other requests, by cancellations or by hand), the
    request changes at most the row of its own ride and the seat count it
    writes is never negative; it never changes the user table and adds at
    most its own booking. *)
Theorem book_ride_writes_no_negative_seats (s : Session) (ride_id : Z) (t : Thread)
    (now : Py.datetime) (store_ok : bool) (db : DB) :
  thread_reach s ride_id t →
  let db' := (book_ride_step now store_ok db t).1 in
  users db' = users db
  ∧ (bookings db' = bookings db
     ∨ bookings db' = bookings db ++ [mkBooking ride_id (sess_user_id s)])
  ∧ (∀ r, r ≠ ride_id → bike_rides db' !! r = bike_rides db !! r)
  ∧ (∀ row', bike_rides db' !! ride_id = Some row' →
       bike_rides db !! ride_id = Some row' ∨ 0 <= seats_available row').
Proof.
  intros Hreach. cbv zeta.
  assert (Hinv : holds_a_seat t ∧ session t = s ∧ target t = ride_id).
  { induction Hreach as [|t now' ok' db' Hreach IH]; [done|].
    destruct IH as (Hseat & Hs & Ht). split; [by apply holds_a_seat_step|].
    unfold book_ride_step. repeat case_match; done. }
  destruct Hinv as (Hseat & <- & <-).
  destruct (book_ride_step_cases now store_ok db t)
    as [(-> & _)|(p & a & ride & row & Hpc & _ & Hrow & Hguard & _ & -> & _)].
  - repeat split; try done; by left.
  - cbn [users bookings bike_rides]. unfold holds_a_seat in Hseat. rewrite Hpc in Hseat.
    split; [done|]. split; [by right|]. split.
    + intros r Hr. by rewrite lookup_insert_ne.
    + intros row'. rewrite lookup_insert_eq. intros [= <-]. right. simpl. lia.
Qed.

Lemma book_ride_writes_no_negative_seats_witness :
  bike_rides (Sample.busy 1) !! 5 = Some (set_seats_version Sample.night_ride 0 2)
  ∨ 0 <= seats_available (set_seats_version Sample.night_ride 0 2).
Proof.
  refine (proj2 (proj2 (proj2 (book_ride_writes_no_negative_seats Sample.asha_session 5
                   (run_env (take 3 Sample.contended) (request Sample.asha_session 5))
                   Sample.during true (Sample.busy 1) _)))
            (set_seats_version Sample.night_ride 0 2) _).
  - apply run_env_reach.
  - vm_compute. reflexivity.
Defined.

(** ** What each handler does to the store *)

Lemma book_ride_store (s : Session) (ride_id : Z) (now : Py.datetime) (db : DB) :
  (book_ride s ride_id now db).1 = db
  ∨ ∃ ride,
      bike_rides db !! ride_id = Some ride
      ∧ 0 < seats_available ride
      ∧ (mkBooking ride_id (sess_user_id s) ∉ bookings db)
      ∧ (book_ride s ride_id now db).1
          = mkDB (users db)
                 (<[ride_id := set_seats_version ride (seats_available ride - 1)
                                 (version ride + 1)]> (bike_rides db))
                 (bookings db ++ [mkBooking ride_id (sess_user_id s)]).
Proof.
  rewrite book_ride_alone. cbv zeta.
  repeat case_match; cbn [fst]; try (by left).
  right. eexists. split; [done|].
  match goal with H : (_ <=? 0) = false |- _ => apply Z.leb_gt in H end.
  match goal with H : has_booking _ _ _ = false |- _ => apply bool_decide_eq_false in H end.
  split; [lia|]. done.
Qed.

Lemma cancel_booking_store (s : Session) (ride_id : Z) (now : Py.datetime)
    (store_ok : bool) (db : DB) :
  (cancel_booking s ride_id now store_ok db).1.1 = db
  ∨ ∃ ride,
      bike_rides db !! ride_id = Some ride
      ∧ (mkBooking ride_id (sess_user_id s) ∈ bookings db)
      ∧ (cancel_booking s ride_id now store_ok db).1.1
          = mkDB (users db)
                 (<[ride_id := set_seats_version ride (seats_available ride + 1)
                                 (version ride + 1)]> (bike_rides db))
                 (delete_row (mkBooking ride_id (sess_user_id s)) (bookings db)).
Proof.
  rewrite !cancel_booking_alone.
  repeat case_match; cbn [fst]; try (by left).
  right. eexists. split; [done|].
  match goal with H : has_booking _ _ _ = true |- _ => apply bool_decide_eq_true in H end.
  done.
Qed.

Lemma delete_ride_store (s : Session) (ride_id : Z) (form_valid : bool)
    (now : Py.datetime) (store_ok : bool) (db : DB) :
  (delete_ride s ride_id form_valid now store_ok db).1.1 = db
  ∨ (delete_ride s ride_id form_valid now store_ok db).1.1
      = mkDB (users db) (delete ride_id (bike_rides db)) (cascade ride_id (bookings db)).
Proof. unfold delete_ride. repeat case_match; cbn [fst]; auto. Qed.

Lemma post_bike_ride_store (s : Session) (form : option PostRideForm) (new_id : Z)
    (now : Py.datetime) (store_ok : bool) (db : DB) :
  (post_bike_ride s form new_id now store_ok db).1.1 = db
  ∨ ∃ f,
      form = Some f
      ∧ bike_rides db !! new_id = None
      ∧ (post_bike_ride s form new_id now store_ok db).1.1
          = mkDB (users db)
                 (<[new_id := mkBikeRide (sess_user_id s) (form_source f)
                                (form_destination f) (form_seats f) (form_ride_date f)
                                (form_ride_time f) (form_ride_end_time f)
                                (form_rider_gender_preference f) 1]> (bike_rides db))
                 (bookings db).
Proof.
  unfold post_bike_ride.
  repeat case_match; cbn [fst]; try (by left).
  right. eexists. split; [done|].
  match goal with H : _ && bool_decide _ = true |- _ =>
    apply andb_true_iff in H as [_ Hfree]; apply bool_decide_eq_true in Hfree end.
  done.
Qed.

Lemma delete_row_elem (b b' : Booking) (rows : list Booking) :
  b' ∈ delete_row b rows → b' ∈ rows.
Proof.
  induction rows as [|x rows IH]; simpl; [done|].
  case_decide; rewrite !elem_of_cons; [by right|]. intros [->|Hin]; auto.
Qed.

Lemma delete_row_keeps (b b' : Booking) (rows : list Booking) :
  b' ≠ b → b' ∈ rows → b' ∈ delete_row b rows.
Proof.
  intros Hne. induction rows as [|x rows IH]; simpl; [done|].
  rewrite elem_of_cons. case_decide as Hx.
  - intros [->|Hin]; [by subst|done].
  - rewrite elem_of_cons. intros [->|Hin]; auto.
Qed.

Lemma delete_row_NoDup_keep (b : Booking) (rows : list Booking) :
  NoDup rows → NoDup (delete_row b rows).
Proof.
  induction 1 as [|x rows Hx Hnd IH]; simpl; [constructor|].
  case_decide; [done|]. constructor; [|done].
  intros Hin. by apply Hx, (delete_row_elem b).
Qed.

Lemma delete_row_filter_other (r : Z) (b : Booking) (rows : list Booking) :
  ride_id b ≠ r →
  filter (λ x, ride_id x = r) (delete_row b rows) = filter (λ x, ride_id x = r) rows.
Proof.
  intros Hne. induction rows as [|x rows IH]; simpl; [done|].
  case_decide as Hx.
  - subst x. by rewrite filter_cons_False.
  - rewrite !filter_cons. by rewrite IH.
Qed.

Lemma delete_row_filter_same (r : Z) (b : Booking) (rows : list Booking) :
  ride_id b = r → b ∈ rows →
  S (length (filter (λ x, ride_id x = r) (delete_row b rows)))
  = length (filter (λ x, ride_id x = r) rows).
Proof.
  intros Hr. induction rows as [|x rows IH]; simpl; [by intros ?%elem_of_nil|].
  case_decide as Hx.
  - subst x. intros _. by rewrite filter_cons_True.
  - rewrite elem_of_cons. intros [->|Hin]; [done|].
    rewrite !filter_cons. case_decide; simpl; by rewrite IH.
Qed.

Lemma cascade_filter_other (r r' : Z) (rows : list Booking) :
  r' ≠ r →
  filter (λ x, ride_id x = r) (cascade r' rows) = filter (λ x, ride_id x = r) rows.
Proof.
  intros Hne. unfold cascade. induction rows as [|x rows IH]; [done|].
  rewrite !filter_cons. destruct (decide (ride_id x = r)) as [Hx|Hx].
  - rewrite decide_True by congruence. rewrite filter_cons_True by done. by rewrite IH.
  - case_decide; [by rewrite filter_cons_False|done].
Qed.

(** ** What the tables promise each other *)

Lemma lookup_insert_is_Some' (rows : gmap Z BikeRide) (r r' : Z) (row : BikeRide) :
  is_Some (rows !! r) → is_Some (<[r' := row]> rows !! r).
Proof.
  intros Hr. destruct (decide (r' = r)) as [->|Hne].
  - rewrite lookup_insert_eq. by eexists.
  - by rewrite lookup_insert_ne.
Qed.

Lemma consistent_call (c : Call) (db : DB) :
  posts_a_seat c → consistent db → consistent (call c db).
Proof.
  intros Hpost (Hnd & Horph & Hseats).
  destruct c as [s rid now|s rid now ok|s rid fv now ok|s form new_id now ok]; cbn [call].
  - destruct (book_ride_store s rid now db) as [->|(ride & Hride & Hpos & Hnew & ->)];
      [done|].
    split; [|split]; cbn [bookings bike_rides].
    + apply NoDup_app. split; [done|]. split; [|apply NoDup_singleton].
      intros b Hb ->%list_elem_of_singleton. done.
    + intros b [Hb| ->%list_elem_of_singleton]%elem_of_app.
      * by apply lookup_insert_is_Some', Horph.
      * cbn. rewrite lookup_insert_eq. by eexists.
    + intros r row. destruct (decide (rid = r)) as [->|Hne].
      * rewrite lookup_insert_eq. intros [= <-]. simpl. lia.
      * rewrite lookup_insert_ne by done. apply Hseats.
  - destruct (cancel_booking_store s rid now ok db) as [->|(ride & Hride & Hold & ->)];
      [done|].
    split; [|split]; cbn [bookings bike_rides].
    + by apply delete_row_NoDup_keep.
    + intros b Hb%delete_row_elem. by apply lookup_insert_is_Some', Horph.
    + intros r row. destruct (decide (rid = r)) as [->|Hne].
      * rewrite lookup_insert_eq. intros [= <-]. simpl.
        specialize (Hseats _ _ Hride). lia.
      * rewrite lookup_insert_ne by done. apply Hseats.
  - destruct (delete_ride_store s rid fv now ok db) as [->| ->]; [done|].
    split; [|split]; cbn [bookings bike_rides].
    + unfold cascade. by apply NoDup_filter.
    + intros b. unfold cascade. rewrite list_elem_of_filter. intros [Hb Hin].
      rewrite lookup_delete_ne by done. by apply Horph.
    + intros r row. destruct (decide (rid = r)) as [->|Hne].
      * by rewrite lookup_delete_eq.
      * rewrite lookup_delete_ne by done. apply Hseats.
  - destruct (post_bike_ride_store s form new_id now ok db)
      as [->|(f & -> & Hfree & ->)]; [done|].
    split; [|split]; cbn [bookings bike_rides].
    + done.
    + intros b Hb. by apply lookup_insert_is_Some', Horph.
    + intros r row. destruct (decide (new_id = r)) as [->|Hne].
      * rewrite lookup_insert_eq. intros [= <-]. simpl. simpl in Hpost. lia.
      * rewrite lookup_insert_ne by done. apply Hseats.
Qed.

(** X6.  Every sequence of reservations, cancellations, deletions and
    postings, each served alone, keeps the tables consistent when the
    posted forms offer at least one seat: no two booking rows for the same
    ride and passenger, no booking row whose ride is gone, no negative
    seat count. *)
Theorem consistent_calls (cs : list Call) (db : DB) :
  Forall posts_a_seat cs → consistent db → consistent (calls cs db).
Proof.
  revert db. induction cs as [|c cs IH]; intros db Hposts Hdb; [done|].
  apply Forall_cons in Hposts as [Hc Hcs].
  unfold calls. cbn [foldl]. apply IH; [done|]. by apply consistent_call.
Qed.

Lemma capacity_call (c : Call) (db : DB) (r : Z) :
  spares r c → is_Some (bike_rides db !! r) →
  is_Some (bike_rides (call c db) !! r) ∧ capacity (call c db) r = capacity db r.
Proof.
  intros Hspare [row Hrow].
  destruct c as [s rid now|s rid now ok|s rid fv now ok|s form new_id now ok]; cbn [call].
  - destruct (book_ride_store s rid now db) as [->|(ride & Hride & Hpos & Hnew & ->)];
      [by split; [eexists|]|].
    unfold capacity, bookings_of. cbn [bookings bike_rides].
    destruct (decide (rid = r)) as [->|Hne].
    + rewrite lookup_insert_eq, Hride. split; [by eexists|]. cbn.
      rewrite filter_app, filter_cons_True by done. rewrite length_app. cbn.
      f_equal. lia.
    + rewrite lookup_insert_ne by done. split; [by eexists|]. rewrite Hrow. cbn.
      rewrite filter_app, filter_cons_False by done. by rewrite app_nil_r.
  - destruct (cancel_booking_store s rid now ok db) as [->|(ride & Hride & Hold & ->)];
      [by split; [eexists|]|].
    unfold capacity, bookings_of. cbn [bookings bike_rides].
    destruct (decide (rid = r)) as [->|Hne].
    + rewrite lookup_insert_eq, Hride. split; [by eexists|]. cbn.
      rewrite <- (delete_row_filter_same r (mkBooking r (sess_user_id s)) (bookings db))
        by done.
      f_equal. lia.
    + rewrite lookup_insert_ne by done. split; [by eexists|]. rewrite Hrow. cbn.
      by rewrite delete_row_filter_other.
  - simpl in Hspare.
    destruct (delete_ride_store s rid fv now ok db) as [->| ->];
      [by split; [eexists|]|].
    unfold capacity, bookings_of. cbn [bookings bike_rides].
    rewrite lookup_delete_ne by done. split; [by eexists|]. rewrite Hrow. cbn.
    by rewrite cascade_filter_other.
  - destruct (post_bike_ride_store s form new_id now ok db)
      as [->|(f & -> & Hfree & ->)]; [by split; [eexists|]|].
    unfold capacity, bookings_of. cbn [bookings bike_rides].
    assert (new_id ≠ r) by congruence.
    rewrite lookup_insert_ne by done. split; [by eexists|]. done.
Qed.

(** X7.  Over every sequence of reservations, cancellations, postings and
    deletions of other rides, each served alone, a ride keeps its capacity:
    its free seats and its booking rows always add up to the same number.
    No seat is lost and none is created. *)
Theorem capacity_calls (cs : list Call) (db : DB) (r : Z) :
  Forall (spares r) cs → is_Some (bike_rides db !! r) →
  capacity (calls cs db) r = capacity db r.
Proof.
  revert db. induction cs as [|c cs IH]; intros db Hspare Hr; [done|].
  apply Forall_cons in Hspare as [Hc Hcs].
  destruct (capacity_call c db r Hc Hr) as [Hr' Hcap].
  unfold calls. cbn [foldl]. fold (calls cs (call c db)).
  by rewrite IH.
Qed.

Lemma consistent_db0 : consistent Sample.db0.
Proof.
  split; [constructor|]. split; [by intros b ?%elem_of_nil|].
  intros r ride. cbn [Sample.db0 bike_rides].
  intros [<- <-]%lookup_singleton_Some. simpl. lia.
Qed.

Lemma consistent_calls_witness : consistent (calls Sample2.evening Sample.db0).
Proof.
  apply consistent_calls; [|apply consistent_db0].
  repeat constructor. simpl. lia.
Defined.

Lemma capacity_calls_witness : capacity (calls Sample2.evening Sample.db0) 5 = Some 1.
Proof.
  rewrite (capacity_calls Sample2.evening Sample.db0 5).
  - reflexivity.
  - repeat constructor. simpl. discriminate.
  - by eexists.
Defined.

(** The sample evening, run: Ravi holds the seat at version 4 and the
    second ride is gone again. *)
Example evening_outcome :
  calls Sample2.evening Sample.db0
  = mkDB (users Sample.db0) {[ 5 := set_seats_version Sample.night_ride 0 4 ]}
         [mkBooking 5 8].
Proof. vm_compute. reflexivity. Qed.

(** ** Concurrent reservations: bookings and capacity *)

Lemma bookings_count_step (db0 : DB) (r : Z) (sys sys' : System) :
  Z.of_nat (length (bookings_of r (store sys)))
    = Z.of_nat (length (bookings_of r db0)) + booked_count r (threads sys) →
  sys_step sys sys' →
  Z.of_nat (length (bookings_of r (store sys')))
    = Z.of_nat (length (bookings_of r db0)) + booked_count r (threads sys').
Proof.
  intros Hcount Hstep.
  destruct Hstep as [db ts s rid|db ts1 t ts2 now ok]; cbn [store threads] in *.
  - rewrite booked_count_app, booked_count_cons.
    replace (has_booked r (request s rid)) with false
      by (unfold has_booked; by rewrite andb_false_r).
    unfold booked_count at 2. simpl. lia.
  - rewrite booked_count_app, booked_count_cons in Hcount.
    rewrite booked_count_app, booked_count_cons.
    destruct (book_ride_step_cases now ok db t)
      as [(Hdb & Ht & Hpc & _)
         |(p & a & ride & row & Hpc & _ & _ & _ & _ & Hdb & Ht & Hret)].
    + rewrite Hdb. by rewrite (has_booked_pc r t _ Ht Hpc).
    + rewrite Hdb. unfold bookings_of in *. cbn [bookings].
      assert (Hbt : has_booked r t = false).
      { unfold has_booked. rewrite Hpc. by rewrite andb_false_r. }
      rewrite Hbt in Hcount. rewrite filter_app, length_app.
      destruct (decide (target t = r)) as [Heq|Hne].
      * assert (Hbt' : has_booked r (book_ride_step now ok db t).2 = true).
        { unfold has_booked. rewrite Ht, Hret, Heq. by rewrite !bool_decide_eq_true_2. }
        rewrite Hbt'. rewrite filter_cons_True by done. simpl length. lia.
      * assert (Hbt' : has_booked r (book_ride_step now ok db t).2 = false).
        { unfold has_booked. rewrite Ht. by rewrite bool_decide_eq_false_2. }
        rewrite Hbt'. rewrite filter_cons_False by done. simpl length. lia.
Qed.

Lemma bookings_NoDup_step (sys sys' : System) :
  NoDup (bookings (store sys)) → sys_step sys sys' → NoDup (bookings (store sys')).
Proof.
  intros Hnd Hstep.
  destruct Hstep as [db ts s rid|db ts1 t ts2 now ok]; cbn [store threads] in *; [done|].
  destruct (book_ride_step_cases now ok db t)
    as [(-> & _)|(p & a & ride & row & _ & _ & _ & _ & Hb & -> & _)]; [done|].
  cbn [bookings]. apply bool_decide_eq_false in Hb.
  apply NoDup_app. split; [done|]. split; [|apply NoDup_singleton].
  intros b Hin ->%list_elem_of_singleton. done.
Qed.

(** X8.  Let any number of [book_ride] requests arrive and take their
    steps in any order.  In every state the system reaches, a ride that
    started with a seat count that is not negative has the capacity it
    started with (its free seats and its booking rows add up to the same
    number), it has exactly one more booking row for each "Ride booked
    successfully!" answer, and booking rows that were unique at the
    start are still unique: no passenger is ever booked twice on a ride. *)
Theorem concurrent_capacity (db0 : DB) (r : Z) (ride0 : BikeRide) (sys : System) :
  bike_rides db0 !! r = Some ride0 →
  0 <= seats_available ride0 →
  reachable db0 sys →
  capacity (store sys) r = capacity db0 r
  ∧ Z.of_nat (length (bookings_of r (store sys)))
      = Z.of_nat (length (bookings_of r db0)) + booked_count r (threads sys)
  ∧ (NoDup (bookings db0) → NoDup (bookings (store sys))).
Proof.
  intros Hride Hseats Hreach.
  assert (Hcount : Z.of_nat (length (bookings_of r (store sys)))
            = Z.of_nat (length (bookings_of r db0)) + booked_count r (threads sys)).
  { apply (rtc_ind_r (R := sys_step)
             (λ sys, Z.of_nat (length (bookings_of r (store sys)))
                = Z.of_nat (length (bookings_of r db0)) + booked_count r (threads sys))
             (mkSystem db0 [])); [| |exact Hreach].
    - cbn [store threads]. unfold booked_count. simpl. lia.
    - intros sys1 sys2 _ Hstep IH. by eapply bookings_count_step. }
  destruct (seats_inv_reachable db0 r ride0 sys Hride Hseats Hreach)
    as (cur & Hcur & _ & Hsum & _).
  split; [|split; [done|]].
  - unfold capacity. rewrite Hcur, Hride. cbn. f_equal. lia.
  - intros Hnd.
    apply (rtc_ind_r (R := sys_step) (λ sys, NoDup (bookings (store sys)))
             (mkSystem db0 [])); [done| |exact Hreach].
    intros sys1 sys2 _ Hstep IH. by eapply bookings_NoDup_step.
Qed.

Lemma concurrent_capacity_witness :
  capacity (store (exec Sample.race (mkSystem Sample.db0 []))) 5 = Some 1.
Proof.
  refine (eq_trans (proj1 (concurrent_capacity Sample.db0 5 Sample.night_ride
                             (exec Sample.race (mkSystem Sample.db0 [])) _ _ _)) _).
  - reflexivity.
  - vm_compute. discriminate.
  - apply exec_reachable.
  - reflexivity.
Defined.

(** ** Deleting a ride *)

Lemma cancellation_notices_elem (db : DB) (r : Z) (ride : BikeRide) (e : Effect) :
  e ∈ cancellation_notices db r ride
  ↔ ∃ u, e = Notify u (ride_cancelled_message ride)
         ∧ mkBooking r u ∈ bookings db ∧ is_Some (users db !! u).
Proof.
  unfold cancellation_notices. rewrite list_elem_of_omap. split.
  - intros ([r' u] & Hin & Hsome). cbn in Hsome.
    case_decide as Hr; [|done]. subst r'.
    destruct (users db !! u) eqn:Hu; [|done]. cbn in Hsome. injection Hsome as <-.
    exists u. split; [done|]. split; [done|by eexists].
  - intros (u & -> & Hin & [p Hu]). exists (mkBooking r u). split; [done|].
    cbn. rewrite decide_True by done. by rewrite Hu.
Qed.

(** X9.  [delete_ride] changes the store only when it answers "Ride
    deleted successfully.", and it gives that answer only to a rider who
    submitted a valid form for a ride that exists, is their own and is not
    completed.  After it, the ride is gone together with every booking row
    on it, every other ride and every booking row on another ride is as it
    was, and a passenger's cancellation on the deleted ride finds no ride
    (404) and changes nothing. *)
Theorem delete_ride_owner_only (s : Session) (rid : Z) (form_valid : bool)
    (now : Py.datetime) (store_ok : bool) (db db' : DB) (reply : Reply)
    (es : list Effect) :
  delete_ride s rid form_valid now store_ok db = (db', reply, es) →
  (reply ≠ Deleted → db' = db)
  ∧ (reply = Deleted →
       sess_is_rider s = true ∧ form_valid = true
       ∧ (∃ ride ride_dt_start ride_dt_end,
            bike_rides db !! rid = Some ride
            ∧ rider_id ride = sess_user_id s
            ∧ get_ride_datetime (ride_date ride) (ride_time ride) (ride_end_time ride)
                = Some (ride_dt_start, ride_dt_end)
            ∧ now <= ride_dt_end)
       ∧ users db' = users db
       ∧ bike_rides db' !! rid = None
       ∧ (∀ r, r ≠ rid → bike_rides db' !! r = bike_rides db !! r)
       ∧ (∀ b, b ∈ bookings db' ↔ b ∈ bookings db ∧ ride_id b ≠ rid)
       ∧ (∀ s' now' store_ok',
            sess_is_rider s' = false →
            cancel_booking s' rid now' store_ok' db' = (db', mkReply None (abort 404), []))).
Proof.
  unfold delete_ride.
  destruct (sess_is_rider s) eqn:Hr; cbn [negb];
    [|intros [= <- <- <-]; split; [done|intros [=]]].
  destruct form_valid; [|intros [= <- <- <-]; split; [done|intros [=]]].
  destruct (bike_rides db !! rid) as [ride|] eqn:Hride;
    [|intros [= <- <- <-]; split; [done|intros [=]]].
  destruct (rider_id ride =? sess_user_id s) eqn:Hown; cbn [negb];
    [|intros [= <- <- <-]; split; [done|intros [=]]].
  destruct (get_ride_datetime _ _ _) as [[st e]|] eqn:Hwin;
    [|intros [= <- <- <-]; split; [done|intros [=]]].
  destruct (completed_at e now) eqn:Hdone;
    [intros [= <- <- <-]; split; [done|intros [=]]|].
  destruct store_ok; [|intros [= <- <- <-]; split; [done|intros [=]]].
  intros [= <- <- <-]. split; [done|]. intros _.
  apply Z.eqb_eq in Hown. apply Z.ltb_ge in Hdone.
  split; [done|]. split; [done|]. split; [by exists ride, st, e|].
  cbn [users bike_rides bookings].
  split; [done|]. split; [apply lookup_delete_eq|].
  split; [intros r Hne; by apply lookup_delete_ne|].
  split.
  - intros b. unfold cascade. rewrite list_elem_of_filter. tauto.
  - intros s' now' ok' Hs'. rewrite !cancel_booking_alone. rewrite Hs'.
    cbn [bike_rides]. by rewrite lookup_delete_eq.
Qed.

(** X10.  When [delete_ride] answers "Ride deleted successfully.", it has
    sent the cancellation notice to exactly the users who exist and hold a
    booking on the deleted ride, and nothing else: no passenger of another
    ride is told, and there are at most as many notices as booking rows on
    the ride. *)
Theorem delete_ride_notices (s : Session) (rid : Z) (form_valid : bool)
    (now : Py.datetime) (store_ok : bool) (db db' : DB) (es : list Effect) :
  delete_ride s rid form_valid now store_ok db = (db', Deleted, es) →
  ∃ ride,
    bike_rides db !! rid = Some ride
    ∧ (∀ e, e ∈ es ↔ ∃ u, e = Notify u (ride_cancelled_message ride)
                          ∧ mkBooking rid u ∈ bookings db
                          ∧ is_Some (users db !! u))
    ∧ (length es <= length (bookings_of rid db))%nat.
Proof.
  unfold delete_ride.
  repeat case_match; try (intros [=]; fail).
  intros [= <- <-]. eexists. split; [done|]. split.
  - intros e. apply cancellation_notices_elem.
  - unfold cancellation_notices, bookings_of.
    generalize (bookings db). intros rows.
    induction rows as [|[r u] rows IH]; [done|].
    cbn [omap list_omap]. rewrite filter_cons. cbn [ride_id passenger_id].
    case_decide; [|done].
    destruct (users db !! u); cbn; lia.
Qed.

Lemma delete_ride_owner_only_witness :
  bike_rides (delete_ride Sample2.meera_session 5 true Sample.during true Sample.db1).1.1
    !! 5 = None.
Proof.
  destruct (delete_ride_owner_only Sample2.meera_session 5 true Sample.during true
              Sample.db1
              (delete_ride Sample2.meera_session 5 true Sample.during true Sample.db1).1.1
              Deleted
              (delete_ride Sample2.meera_session 5 true Sample.during true Sample.db1).2)
    as [_ H].
  - vm_compute. reflexivity.
  - destruct (H eq_refl) as (_ & _ & _ & _ & Hgone & _). exact Hgone.
Defined.

Lemma delete_ride_notices_witness :
  ∃ ride,
    bike_rides Sample.db1 !! 5 = Some ride
    ∧ Notify 7 (ride_cancelled_message ride)
        ∈ (delete_ride Sample2.meera_session 5 true Sample.during true Sample.db1).2.
Proof.
  destruct (delete_ride_notices Sample2.meera_session 5 true Sample.during true
              Sample.db1
              (delete_ride Sample2.meera_session 5 true Sample.during true Sample.db1).1.1
              (delete_ride Sample2.meera_session 5 true Sample.during true Sample.db1).2)
    as (ride & Hride & Hes & _).
  - vm_compute. reflexivity.
  - exists ride. split; [exact Hride|]. apply Hes. exists 7.
    split; [reflexivity|]. split.
    + apply elem_of_cons. by left.
    + vm_compute. by eexists.
Defined.

(** ** Posting a ride *)

Lemma window_start_le_end (d : Py.date) (s : Py.time) (oe : option Py.time)
    (ride_dt_start ride_dt_end : Py.datetime) :
  Py.valid_time s → (∀ e, oe = Some e → Py.valid_time e) →
  get_ride_datetime d s oe = Some (ride_dt_start, ride_dt_end) →
  ride_dt_start <= ride_dt_end.
Proof.
  intros Hs He. unfold get_ride_datetime. cbv zeta.
  destruct oe as [e|].
  - specialize (He e eq_refl).
    rewrite bool_decide_eq_true_2 by eauto. cbn [andb]. unfold Py.le.
    unfold Py.valid_time, Py.us_per_day in *.
    destruct (Py.combine d e <=? Py.combine d s) eqn:Hle.
    + unfold Py.add_days. cbv zeta. case_match; [|intros [=]]. cbn. intros [= <- <-].
      unfold Py.combine, Py.us_per_day in *. lia.
    + apply Z.leb_gt in Hle. intros [= <- <-]. lia.
  - rewrite bool_decide_eq_false_2 by (by intros [? ?]). cbn [andb].
    intros [= <- <-]. lia.
Qed.

(** X11.  [post_bike_ride] changes the store only when it answers "Ride
    posted successfully!", which it does only for a rider whose validated
    form gives a start instant that is not in the past.  The new ride is
    stored under a key that was free, belongs to the caller, has the seats
    of the form and version 1; every ride that existed is as it was, and no
    booking row is touched.  A start instant in the past is answered with
    status 400 and nothing is stored. *)
Theorem post_bike_ride_posted (s : Session) (form : option PostRideForm) (new_id : Z)
    (now : Py.datetime) (store_ok : bool) (db db' : DB) (reply : Reply)
    (es : list Effect) :
  post_bike_ride s form new_id now store_ok db = (db', reply, es) →
  es = []
  ∧ (reply ≠ Posted → db' = db)
  ∧ (reply = Posted →
       sess_is_rider s = true
       ∧ ∃ f ride_dt_start ride_dt_end ride,
           form = Some f
           ∧ get_ride_datetime (form_ride_date f) (form_ride_time f) (form_ride_end_time f)
               = Some (ride_dt_start, ride_dt_end)
           ∧ now <= ride_dt_start
           ∧ bike_rides db !! new_id = None
           ∧ bike_rides db' !! new_id = Some ride
           ∧ rider_id ride = sess_user_id s
           ∧ seats_available ride = form_seats f
           ∧ version ride = 1
           ∧ (∀ r, r ≠ new_id → bike_rides db' !! r = bike_rides db !! r)
           ∧ bookings db' = bookings db
           ∧ users db' = users db)
  ∧ (∀ f ride_dt_start ride_dt_end,
       sess_is_rider s = true → form = Some f →
       get_ride_datetime (form_ride_date f) (form_ride_time f) (form_ride_end_time f)
         = Some (ride_dt_start, ride_dt_end) →
       ride_dt_start < now →
       db' = db ∧ response reply = render_template "optimized/post_bike_ride.html" 400).
Proof.
  unfold post_bike_ride. cbv zeta.
  destruct (sess_is_rider s) eqn:Hr; cbn [negb].
  2:{ intros [= <- <- <-]. split; [done|]. split; [done|]. split; [intros [=]|].
      intros; simplify_eq. }
  destruct form as [f|].
  2:{ intros [= <- <- <-]. split; [done|]. split; [done|]. split; [intros [=]|].
      intros; simplify_eq. }
  destruct (get_ride_datetime _ _ _) as [[st e]|] eqn:Hwin.
  2:{ intros [= <- <- <-]. split; [done|]. split; [done|]. split; [intros [=]|].
      intros; simplify_eq. }
  unfold Py.lt. destruct (st <? now) eqn:Hpast.
  { intros [= <- <- <-]. split; [done|]. split; [done|]. split; [intros [=]|].
    intros f' st' e' _ Hf Hw _. by simplify_eq. }
  apply Z.ltb_ge in Hpast.
  destruct (store_ok && bool_decide (bike_rides db !! new_id = None)) eqn:Hok.
  2:{ intros [= <- <- <-]. split; [done|]. split; [done|]. split; [intros [=]|].
      intros f' st' e' _ Hf Hw ?. simplify_eq. lia. }
  apply andb_true_iff in Hok as [_ Hfree]. apply bool_decide_eq_true in Hfree.
  intros [= <- <- <-]. split; [done|]. split; [done|]. split.
  - intros _. split; [done|]. eexists f, st, e, _. cbn [bike_rides bookings users].
    rewrite lookup_insert_eq.
    repeat split; try done. intros r Hne. by rewrite lookup_insert_ne.
  - intros f' st' e' _ Hf Hw ?. simplify_eq. lia.
Qed.

Lemma post_bike_ride_posted_witness :
  ∃ ride,
    bike_rides (post_bike_ride Sample2.meera_session (Some Sample2.form) 6 Sample.during
                  true Sample.db0).1.1 !! 6 = Some ride
    ∧ version ride = 1 ∧ seats_available ride = 2.
Proof.
  destruct (post_bike_ride_posted Sample2.meera_session (Some Sample2.form) 6 Sample.during
              true Sample.db0
              (post_bike_ride Sample2.meera_session (Some Sample2.form) 6 Sample.during
                 true Sample.db0).1.1
              Posted []) as (_ & _ & H & _).
  - vm_compute. reflexivity.
  - destruct (H eq_refl) as (_ & f & st & e & ride & Hf & _ & _ & _ & Hride & _ & Hseats
                             & Hv & _).
    exists ride. injection Hf as <-. split; [exact Hride|]. split; [exact Hv|exact Hseats].
Defined.

(** X12.  A ride that has just been posted can be booked at once: at the
    instant of the posting, and at any instant up to the end of its window,
    a passenger whose user row exists and whose gender the preference
    admits is answered "Ride booked successfully!" when the form offered
    at least one seat and no stale booking row of theirs refers to the new
    key. *)
Theorem post_then_book (s s' : Session) (f : PostRideForm) (new_id : Z)
    (now now' : Py.datetime) (store_ok : bool) (db db' : DB) (es : list Effect)
    (passenger : User) (ride_dt_start ride_dt_end : Py.datetime) :
  post_bike_ride s (Some f) new_id now store_ok db = (db', Posted, es) →
  Py.valid_time (form_ride_time f) →
  (∀ e, form_ride_end_time f = Some e → Py.valid_time e) →
  get_ride_datetime (form_ride_date f) (form_ride_time f) (form_ride_end_time f)
    = Some (ride_dt_start, ride_dt_end) →
  1 <= form_seats f →
  sess_is_rider s' = false →
  users db !! sess_user_id s' = Some passenger →
  form_rider_gender_preference f = "Any"
    ∨ gender passenger = form_rider_gender_preference f →
  mkBooking new_id (sess_user_id s') ∉ bookings db →
  now' <= ride_dt_end →
  now <= ride_dt_end
  ∧ pc (book_ride s' new_id now db').2 = Return Booked
  ∧ pc (book_ride s' new_id now' db').2 = Return Booked.
Proof.
  intros Hpost Hvs Hve Hwin Hseats Hs' Hu Hg Hnb Hnow'.
  pose proof (window_start_le_end _ _ _ _ _ Hvs Hve Hwin) as Hle.
  revert Hpost. unfold post_bike_ride. cbv zeta. rewrite Hwin.
  repeat case_match; try (intros [=]; fail). intros [= <- <-].
  match goal with H : Py.lt _ _ = false |- _ => apply Z.ltb_ge in H end.
  assert (Hbook : ∀ t, t <= ride_dt_end →
    pc (book_ride s' new_id t
          (mkDB (users db)
             (<[new_id := mkBikeRide (sess_user_id s) (form_source f) (form_destination f)
                            (form_seats f) (form_ride_date f) (form_ride_time f)
                            (form_ride_end_time f) (form_rider_gender_preference f) 1]>
                (bike_rides db))
             (bookings db))).2 = Return Booked).
  { intros t Ht. rewrite book_ride_alone. cbv zeta. rewrite Hs'. cbn [users]. rewrite Hu.
    cbn [bike_rides]. rewrite lookup_insert_eq.
    cbn [rider_gender_preference ride_date ride_time ride_end_time seats_available].
    replace (negb (String.eqb (form_rider_gender_preference f) "Any")
             && negb (String.eqb (gender passenger) (form_rider_gender_preference f)))
      with false
      by (symmetry; rewrite andb_false_iff, !negb_false_iff, !String.eqb_eq; done).
    rewrite Hwin. unfold completed_at, Py.lt.
    replace (ride_dt_end <? t) with false by (symmetry; by apply Z.ltb_ge).
    unfold has_booking. cbn [bookings]. rewrite bool_decide_eq_false_2 by done.
    replace (form_seats f <=? 0) with false by (symmetry; apply Z.leb_gt; lia).
    done. }
  split; [lia|]. split; apply Hbook; [lia|done].
Qed.

Lemma post_then_book_witness :
  pc (book_ride Sample.asha_session 6 Sample.during
        (post_bike_ride Sample2.meera_session (Some Sample2.form) 6 Sample.during true
           Sample.db0).1.1).2 = Return Booked.
Proof.
  refine (proj1 (proj2 (post_then_book Sample2.meera_session Sample.asha_session
                          Sample2.form 6 Sample.during Sample.during true Sample.db0
                          (post_bike_ride Sample2.meera_session (Some Sample2.form) 6
                             Sample.during true Sample.db0).1.1 []
                          Sample.asha (Py.combine 739010 (Py.hm 6 30))
                          (Py.combine 739010 (Py.hm 6 30)) _ _ _ _ _ _ _ _ _ _))).
  - vm_compute. reflexivity.
  - vm_compute. split; [discriminate|reflexivity].
  - intros e [=].
  - vm_compute. reflexivity.
  - vm_compute. discriminate.
  - reflexivity.
  - reflexivity.
  - by right.
  - apply not_elem_of_nil.
  - vm_compute. discriminate.
Defined.

(** X13.  Posting a ride and deleting it again gives back the store as it
    was: when no booking row of the store is without its ride, a ride that
    its owner deletes before anyone booked it leaves no trace, and nobody
    is notified. *)
Theorem post_then_delete (s : Session) (f : PostRideForm) (new_id : Z)
    (now now' : Py.datetime) (db db' : DB) (es : list Effect)
    (ride_dt_start ride_dt_end : Py.datetime) :
  (∀ b, b ∈ bookings db → is_Some (bike_rides db !! ride_id b)) →
  post_bike_ride s (Some f) new_id now true db = (db', Posted, es) →
  get_ride_datetime (form_ride_date f) (form_ride_time f) (form_ride_end_time f)
    = Some (ride_dt_start, ride_dt_end) →
  now' <= ride_dt_end →
  delete_ride s new_id true now' true db' = (db, Deleted, []).
Proof.
  intros Horph Hpost Hwin Hnow'.
  revert Hpost. unfold post_bike_ride. cbv zeta. rewrite Hwin.
  destruct (sess_is_rider s) eqn:Hr; cbn [negb]; [|intros [=]].
  destruct (Py.lt ride_dt_start now); [intros [=]|].
  destruct (true && bool_decide (bike_rides db !! new_id = None)) eqn:Hok; [|intros [=]].
  apply andb_true_iff in Hok as [_ Hfree]. apply bool_decide_eq_true in Hfree.
  intros [= <- <-].
  assert (Hnone : ∀ b, b ∈ bookings db → ride_id b ≠ new_id).
  { intros b Hb Heq. destruct (Horph b Hb) as [x Hx]. congruence. }
  unfold delete_ride. rewrite Hr. cbn [negb bike_rides bookings users].
  rewrite lookup_insert_eq. cbn [rider_id ride_date ride_time ride_end_time].
  rewrite Z.eqb_refl. cbn [negb]. rewrite Hwin.
  unfold completed_at, Py.lt.
  replace (ride_dt_end <? now') with false by (symmetry; by apply Z.ltb_ge).
  rewrite delete_insert_eq, delete_id by done.
  assert (Hcascade : cascade new_id (bookings db) = bookings db).
  { unfold cascade. clear -Hnone. induction (bookings db) as [|b rows IH]; [done|].
    rewrite filter_cons_True by (apply Hnone; apply elem_of_cons; by left).
    rewrite IH; [done|]. intros b' Hb'. apply Hnone. apply elem_of_cons. by right. }
  assert (Hnotices : ∀ ride, cancellation_notices db new_id ride = []).
  { intros ride. unfold cancellation_notices. clear -Hnone.
    induction (bookings db) as [|b rows IH]; [done|].
    cbn [omap list_omap].
    rewrite decide_False by (apply Hnone; apply elem_of_cons; by left).
    apply IH. intros b' Hb'. apply Hnone. apply elem_of_cons. by right. }
  rewrite Hcascade.
  match goal with |- (_, _, ?n) = _ => assert (Hn : n = []) end.
  { unfold cancellation_notices. cbn [bookings users].
    apply (Hnotices (mkBikeRide (sess_user_id s) (form_source f) (form_destination f)
                       (form_seats f) (form_ride_date f) (form_ride_time f)
                       (form_ride_end_time f) (form_rider_gender_preference f) 1)). }
  rewrite Hn. by destruct db.
Qed.

Lemma post_then_delete_witness :
  delete_ride Sample2.meera_session 6 true Sample.during true
    (post_bike_ride Sample2.meera_session (Some Sample2.form) 6 Sample.during true
       Sample.db1).1.1
  = (Sample.db1, Deleted, []).
Proof.
  apply (post_then_delete Sample2.meera_session Sample2.form 6 Sample.during Sample.during
           Sample.db1 _ [] (Py.combine 739010 (Py.hm 6 30))
           (Py.combine 739010 (Py.hm 6 30))).
  - intros b [->|[]%elem_of_nil]%elem_of_cons. vm_compute. by eexists.
  - vm_compute. reflexivity.
  - vm_compute. reflexivity.
  - vm_compute. discriminate.
Defined.

(** ** More on cancellation *)

(** X14.  A cancellation touches nothing but the caller's own booking and
    the ride it names: every booking row of another passenger or another
    ride stays, none is added, every other ride and the user table are as
    they were. *)
Theorem cancel_booking_own_only (s : Session) (rid : Z) (now : Py.datetime)
    (store_ok : bool) (db : DB) :
  let db' := (cancel_booking s rid now store_ok db).1.1 in
  users db' = users db
  ∧ (∀ r, r ≠ rid → bike_rides db' !! r = bike_rides db !! r)
  ∧ (∀ b, b ∈ bookings db' → b ∈ bookings db)
  ∧ (∀ b, b ≠ mkBooking rid (sess_user_id s) → b ∈ bookings db → b ∈ bookings db').
Proof.
  cbv zeta.
  destruct (cancel_booking_store s rid now store_ok db) as [->|(ride & _ & _ & ->)];
    [done|].
  cbn [users bike_rides bookings]. split; [done|]. split; [|split].
  - intros r Hr. by rewrite lookup_insert_ne.
  - intros b. apply delete_row_elem.
  - intros b. apply delete_row_keeps.
Qed.

(** X15.  After a cancellation answered "Booking cancelled." on a store
    with unique booking rows, the same passenger's next cancellation of
    that ride changes nothing, at any time: it is answered "Booking not
    found." while the ride is not completed. *)
Theorem cancel_booking_twice (s : Session) (rid : Z) (now now' : Py.datetime)
    (store_ok store_ok' : bool) (db db1 : DB) (es : list Effect) :
  NoDup (bookings db) →
  cancel_booking s rid now store_ok db = (db1, Cancelled, es) →
  (cancel_booking s rid now' store_ok' db1).1.1 = db1
  ∧ (∀ ride ride_dt_start ride_dt_end,
       bike_rides db !! rid = Some ride →
       get_ride_datetime (ride_date ride) (ride_time ride) (ride_end_time ride)
         = Some (ride_dt_start, ride_dt_end) →
       now' <= ride_dt_end →
       cancel_booking s rid now' store_ok' db1 = (db1, BookingNotFound, [])).
Proof.
  intros Hnd Hc.
  destruct (cancel_booking_Cancelled_inv _ _ _ _ _ _ _ Hc)
    as (ride & st & e & Hride & Hwin & Hdone & Hb & Hu & Hbook & Hrides).
  assert (Hgone : has_booking db1 rid (sess_user_id s) = false).
  { unfold has_booking. rewrite Hbook. apply bool_decide_eq_false.
    by apply delete_row_NoDup. }
  assert (Hs : sess_is_rider s = false).
  { revert Hc. rewrite cancel_booking_alone. destruct (sess_is_rider s); [intros [=]|done]. }
  split.
  - rewrite !cancel_booking_alone. rewrite Hs, Hgone. by repeat case_match.
  - intros ride' st' e' Hride' Hwin' Hnow'. simplify_eq.
    rewrite !cancel_booking_alone. rewrite Hs, Hgone, Hrides, lookup_insert_eq.
    cbn [ride_date ride_time ride_end_time set_seats_version]. rewrite Hwin.
    unfold completed_at, Py.lt.
    by replace (e <? now') with false by (symmetry; by apply Z.ltb_ge).
Qed.

Lemma cancel_booking_twice_witness :
  (cancel_booking Sample.asha_session 5 Sample.during true
     (cancel_booking Sample.asha_session 5 Sample.during true Sample.db1).1.1).1.1
  = (cancel_booking Sample.asha_session 5 Sample.during true Sample.db1).1.1.
Proof.
  refine (proj1 (cancel_booking_twice Sample.asha_session 5 Sample.during Sample.during
                   true true Sample.db1 _
                   [Notify 1 (cancelled_message Sample.asha_session)] _ _)).
  - apply NoDup_singleton.
  - vm_compute. reflexivity.
Defined.

(** X16.  A cancellation frees the seat: after a cancellation answered
    "Booking cancelled." on a ride whose seat count was not negative, any
    passenger admitted by the gender preference who holds no booking on
    the ride, and the passenger who cancelled when the rows were unique, is
    answered "Ride booked successfully!" while the ride is not
    completed. *)
Theorem cancel_then_book (s s' : Session) (rid : Z) (now now' : Py.datetime)
    (store_ok : bool) (db db1 : DB) (es : list Effect) (ride : BikeRide)
    (passenger : User) (ride_dt_start ride_dt_end : Py.datetime) :
  cancel_booking s rid now store_ok db = (db1, Cancelled, es) →
  bike_rides db !! rid = Some ride →
  0 <= seats_available ride →
  get_ride_datetime (ride_date ride) (ride_time ride) (ride_end_time ride)
    = Some (ride_dt_start, ride_dt_end) →
  now' <= ride_dt_end →
  sess_is_rider s' = false →
  users db !! sess_user_id s' = Some passenger →
  rider_gender_preference ride = "Any"
    ∨ gender passenger = rider_gender_preference ride →
  (if decide (sess_user_id s' = sess_user_id s)
   then NoDup (bookings db)
   else mkBooking rid (sess_user_id s') ∉ bookings db) →
  pc (book_ride s' rid now' db1).2 = Return Booked.
Proof.
  intros Hc Hride Hseats Hwin Hnow' Hs' Hu Hg Hfree.
  destruct (cancel_booking_Cancelled_inv _ _ _ _ _ _ _ Hc)
    as (ride0 & st & e & Hride0 & _ & _ & Hb & Husers & Hbook & Hrides).
  simplify_eq.
  rewrite book_ride_alone. cbv zeta. rewrite Hs', Husers, Hu, Hrides, lookup_insert_eq.
  cbn [rider_gender_preference ride_date ride_time ride_end_time seats_available
       set_seats_version].
  replace (negb (String.eqb (rider_gender_preference ride) "Any")
           && negb (String.eqb (gender passenger) (rider_gender_preference ride)))
    with false
    by (symmetry; rewrite andb_false_iff, !negb_false_iff, !String.eqb_eq; done).
  rewrite Hwin. unfold completed_at, Py.lt.
  replace (ride_dt_end <? now') with false by (symmetry; by apply Z.ltb_ge).
  assert (Hnb : has_booking db1 rid (sess_user_id s') = false).
  { unfold has_booking. rewrite Hbook. apply bool_decide_eq_false.
    case_decide as Hsame.
    - rewrite Hsame. by apply delete_row_NoDup.
    - intros Hin. by apply Hfree, (delete_row_elem (mkBooking rid (sess_user_id s))). }
  rewrite Hnb.
  replace (seats_available ride + 1 <=? 0) with false by (symmetry; apply Z.leb_gt; lia).
  done.
Qed.

Lemma cancel_then_book_witness :
  pc (book_ride Sample.ravi_session 5 Sample.during
        (cancel_booking Sample.asha_session 5 Sample.during true Sample.db1).1.1).2
  = Return Booked.
Proof.
  apply (cancel_then_book Sample.asha_session Sample.ravi_session 5 Sample.during
           Sample.during true Sample.db1 _
           [Notify 1 (cancelled_message Sample.asha_session)]
           (set_seats_version Sample.night_ride 0 2) Sample.ravi
           (Py.combine 739000 (Py.hm 23 0)) (Py.combine 739001 (Py.hm 1 0))).
  - vm_compute. reflexivity.
  - reflexivity.
  - vm_compute. discriminate.
  - vm_compute. reflexivity.
  - vm_compute. discriminate.
  - reflexivity.
  - reflexivity.
  - by left.
  - rewrite decide_False by (vm_compute; discriminate).
    intros [[=]|[]%elem_of_nil]%elem_of_cons.
Defined.

(** ** Rating a ride *)

Lemma has_rating_elem (ratings : list Rating) (r u : Z) :
  has_rating ratings r u = true
  ↔ (r, u) ∈ (λ x, (rating_ride_id x, rating_passenger_id x)) <$> ratings.
Proof.
  unfold has_rating. induction ratings as [|x ratings IH]; cbn.
  - split; [done|by intros ?%elem_of_nil].
  - rewrite orb_true_iff, andb_true_iff, !Z.eqb_eq, elem_of_cons, IH.
    split.
    + intros [[<- <-]|H]; [by left|by right].
    + intros [[= -> ->]|H]; [by left|by right].
Qed.

Lemma rate_ride_Rated_inv (s : Session) (rid : Z) (method : Method) (rating : RatingField)
    (form_comments : string) (now : Py.datetime) (store_ok : bool) (db : DB)
    (ratings ratings' : list Rating) (es : list Effect) :
  rate_ride s rid method rating form_comments now store_ok db ratings
    = (ratings', Rated, es) →
  sess_is_rider s = false ∧ method = POST
  ∧ ∃ v ride ride_dt_start ride_dt_end,
      rating = Parsed v ∧ 1 <= v <= 5
      ∧ bike_rides db !! rid = Some ride
      ∧ has_booking db rid (sess_user_id s) = true
      ∧ get_ride_datetime (ride_date ride) (ride_time ride) (ride_end_time ride)
          = Some (ride_dt_start, ride_dt_end)
      ∧ ride_dt_end < now
      ∧ has_rating ratings rid (sess_user_id s) = false
      ∧ ratings' = ratings ++ [mkRating rid (sess_user_id s) v form_comments]
      ∧ es = [Notify (rider_id ride) (star_message v)].
Proof.
  unfold rate_ride. cbv zeta.
  destruct (sess_is_rider s) eqn:Hr; [intros [=]|].
  destruct (bike_rides db !! rid) as [ride|] eqn:Hride; [|intros [=]].
  destruct (get_ride_datetime _ _ _) as [[st e]|] eqn:Hwin; [|intros [=]].
  destruct (has_booking db rid (sess_user_id s)) eqn:Hb; cbn [negb orb]; [|intros [=]].
  unfold Py.le. destruct (now <=? e) eqn:Hnow; [intros [=]|].
  destruct (has_rating ratings rid (sess_user_id s)) eqn:Hrated; [intros [=]|].
  destruct method; [intros [=]|].
  destruct rating as [| |v]; try (intros [=]; fail).
  destruct ((1 <=? v) && (v <=? 5)) eqn:Hv; [|intros [=]].
  destruct store_ok; [|intros [=]].
  intros [= <- <-]. apply Z.leb_gt in Hnow.
  apply andb_true_iff in Hv as [H1%Z.leb_le H5%Z.leb_le].
  split; [done|]. split; [done|]. exists v, ride, st, e. by repeat split.
Qed.

Lemma rate_ride_unchanged (s : Session) (rid : Z) (method : Method) (rating : RatingField)
    (form_comments : string) (now : Py.datetime) (store_ok : bool) (db : DB)
    (ratings ratings' : list Rating) (reply : Reply) (es : list Effect) :
  rate_ride s rid method rating form_comments now store_ok db ratings
    = (ratings', reply, es) →
  reply ≠ Rated → ratings' = ratings ∧ es = [].
Proof.
  unfold rate_ride. cbv zeta.
  repeat case_match; intros [= <- <- <-]; done.
Qed.

(** X17.  [rate_ride] stores a rating only when it answers "Thank you for
    your rating!", and it does so only for a passenger who posts an integer
    from 1 to 5 for an existing ride whose window has ended, on which they
    still hold a booking and which they have not rated.  Then exactly that
    one rating is added and the ride's owner is notified once; with any
    other answer no rating is stored and nobody is notified. *)
Theorem rate_ride_stored (s : Session) (rid : Z) (method : Method) (rating : RatingField)
    (form_comments : string) (now : Py.datetime) (store_ok : bool) (db : DB)
    (ratings ratings' : list Rating) (reply : Reply) (es : list Effect) :
  rate_ride s rid method rating form_comments now store_ok db ratings
    = (ratings', reply, es) →
  (reply ≠ Rated → ratings' = ratings ∧ es = [])
  ∧ (reply = Rated →
       sess_is_rider s = false ∧ method = POST
       ∧ ∃ v ride ride_dt_start ride_dt_end,
           rating = Parsed v ∧ 1 <= v <= 5
           ∧ bike_rides db !! rid = Some ride
           ∧ mkBooking rid (sess_user_id s) ∈ bookings db
           ∧ get_ride_datetime (ride_date ride) (ride_time ride) (ride_end_time ride)
               = Some (ride_dt_start, ride_dt_end)
           ∧ ride_dt_end < now
           ∧ ((rid, sess_user_id s)
                ∉ (λ x, (rating_ride_id x, rating_passenger_id x)) <$> ratings)
           ∧ ratings' = ratings ++ [mkRating rid (sess_user_id s) v form_comments]
           ∧ es = [Notify (rider_id ride) (star_message v)]).
Proof.
  intros Hrate. split; [by eapply rate_ride_unchanged|].
  intros ->. destruct (rate_ride_Rated_inv _ _ _ _ _ _ _ _ _ _ _ Hrate)
    as (Hr & Hm & v & ride & st & e & Hp & Hv & Hride & Hb & Hwin & Hend & Hnr & Hr' & Hes).
  split; [done|]. split; [done|]. exists v, ride, st, e.
  apply bool_decide_eq_true in Hb.
  assert ((rid, sess_user_id s)
            ∉ (λ x, (rating_ride_id x, rating_passenger_id x)) <$> ratings).
  { intros Hin%has_rating_elem. congruence. }
  repeat split; (done || lia).
Qed.

Lemma rate_ride_stored_witness :
  rate_ride Sample.asha_session 5 POST (Parsed 4) "On time." Sample.after true Sample.db1 []
  = ([mkRating 5 7 4 "On time."], Rated, [Notify 1 (star_message 4)]).
Proof.
  destruct (rate_ride_stored Sample.asha_session 5 POST (Parsed 4) "On time." Sample.after
              true Sample.db1 []
              (rate_ride Sample.asha_session 5 POST (Parsed 4) "On time." Sample.after
                 true Sample.db1 []).1.1
              Rated
              (rate_ride Sample.asha_session 5 POST (Parsed 4) "On time." Sample.after
                 true Sample.db1 []).2) as [_ H].
  - vm_compute. reflexivity.
  - destruct (H eq_refl) as (_ & _ & v & ride & st & e & Hp & _ & Hride & _ & _ & _ & _
                             & Hr & Hes).
    injection Hp as <-. vm_compute in Hride. injection Hride as <-.
    vm_compute. reflexivity.
Defined.

(** X18.  [rate_ride] keeps the ratings unique for a ride and a passenger
    and every stored value between 1 and 5.  Once a passenger has rated a
    ride, whatever they submit for it later is answered "You have already
    rated this ride." and stores nothing. *)
Theorem rate_ride_once (s : Session) (rid : Z) (method : Method) (rating : RatingField)
    (form_comments : string) (now : Py.datetime) (store_ok : bool) (db : DB)
    (ratings ratings' : list Rating) (reply : Reply) (es : list Effect) :
  rate_ride s rid method rating form_comments now store_ok db ratings
    = (ratings', reply, es) →
  (unique_ratings ratings → unique_ratings ratings')
  ∧ (Forall (λ x, 1 <= rating_value x <= 5) ratings →
     Forall (λ x, 1 <= rating_value x <= 5) ratings')
  ∧ (reply = Rated →
     ∀ method' rating' form_comments' now' store_ok',
       now <= now' →
       rate_ride s rid method' rating' form_comments' now' store_ok' db ratings'
         = (ratings', AlreadyRated, [])).
Proof.
  intros Hrate. destruct (decide (reply = Rated)) as [->|Hne].
  2:{ destruct (rate_ride_unchanged _ _ _ _ _ _ _ _ _ _ _ _ Hrate Hne) as [-> _].
      by repeat split. }
  destruct (rate_ride_Rated_inv _ _ _ _ _ _ _ _ _ _ _ Hrate)
    as (Hr & Hm & v & ride & st & e & Hp & Hv & Hride & Hb & Hwin & Hend & Hnr & -> & Hes).
  split; [|split].
  - unfold unique_ratings. rewrite fmap_app. intros Hnd.
    apply NoDup_app. split; [done|]. split; [|apply NoDup_singleton].
    intros x Hx ->%list_elem_of_singleton. cbn in Hx.
    apply has_rating_elem in Hx. congruence.
  - intros Hall. apply Forall_app. split; [done|]. by apply Forall_singleton.
  - intros _ method' rating' c' now' ok' Hnow'.
    unfold rate_ride. cbv zeta. rewrite Hr, Hride, Hwin, Hb. cbn [negb orb].
    unfold Py.le. replace (now' <=? e) with false by (symmetry; apply Z.leb_gt; lia).
    replace (has_rating (ratings ++ [mkRating rid (sess_user_id s) v form_comments])
               rid (sess_user_id s)) with true; [done|].
    symmetry. apply has_rating_elem. rewrite fmap_app. apply elem_of_app. right.
    apply list_elem_of_singleton. done.
Qed.

Lemma rate_ride_once_witness :
  rate_ride Sample.asha_session 5 POST (Parsed 1) "" Sample.after true Sample.db1
    [mkRating 5 7 4 "On time."]
  = ([mkRating 5 7 4 "On time."], AlreadyRated, []).
Proof.
  refine (proj2 (proj2 (rate_ride_once Sample.asha_session 5 POST (Parsed 4) "On time."
                          Sample.after true Sample.db1 [] [mkRating 5 7 4 "On time."]
                          Rated [Notify 1 (star_message 4)] _))
            eq_refl POST (Parsed 1) "" Sample.after true _).
  - vm_compute. reflexivity.
  - vm_compute. discriminate.
Defined.

(** X19.  A ride that can be rated is closed: from the instant at which
    [rate_ride] stored a rating for it, every passenger's cancellation on
    it is answered "Cannot cancel a completed ride.", no [delete_ride]
    changes the store, and no [book_ride] is answered "Ride booked
    successfully!". *)
Theorem rated_ride_is_closed (s : Session) (rid : Z) (method : Method)
    (rating : RatingField) (form_comments : string) (now now' : Py.datetime)
    (store_ok : bool) (db : DB) (ratings ratings' : list Rating) (es : list Effect) :
  rate_ride s rid method rating form_comments now store_ok db ratings
    = (ratings', Rated, es) →
  now <= now' →
  (∀ s' store_ok', sess_is_rider s' = false →
     cancel_booking s' rid now' store_ok' db = (db, CancelCompleted, []))
  ∧ (∀ s' form_valid store_ok',
       (delete_ride s' rid form_valid now' store_ok' db).1.1 = db)
  ∧ (∀ s', pc (book_ride s' rid now' db).2 ≠ Return Booked
           ∧ (book_ride s' rid now' db).1 = db).
Proof.
  intros Hrate Hnow'.
  destruct (rate_ride_Rated_inv _ _ _ _ _ _ _ _ _ _ _ Hrate)
    as (_ & _ & v & ride & st & e & _ & _ & Hride & _ & Hwin & Hend & _).
  assert (Hdone : completed_at e now' = true) by (apply Z.ltb_lt; lia).
  split; [|split].
  - intros s' ok' Hs'. rewrite !cancel_booking_alone. by rewrite Hs', Hride, Hwin, Hdone.
  - intros s' fv ok'. unfold delete_ride. rewrite Hride, Hwin, Hdone.
    by repeat case_match.
  - intros s'. rewrite book_ride_alone. cbv zeta. rewrite Hride, Hwin, Hdone.
    repeat case_match; cbn [fst snd pc goto]; split; done.
Qed.

Lemma rated_ride_is_closed_witness :
  cancel_booking Sample.asha_session 5 Sample.after true Sample.db1
  = (Sample.db1, CancelCompleted, []).
Proof.
  refine (proj1 (rated_ride_is_closed Sample.asha_session 5 POST (Parsed 4) "On time."
                   Sample.after Sample.after true Sample.db1 []
                   [mkRating 5 7 4 "On time."] [Notify 1 (star_message 4)] _ _)
            Sample.asha_session true eq_refl).
  - vm_compute. reflexivity.
  - vm_compute. discriminate.
Defined.

(** X20.  While a ride can still be booked it cannot be rated, and a
    passenger who cancelled cannot rate: up to the instant at which a
    [book_ride] was answered "Ride booked successfully!", [rate_ride] on
    the store it left stores nothing, for anyone; and after a cancellation
    answered "Booking cancelled." on unique booking rows, [rate_ride] by
    that passenger stores nothing at any time. *)
Theorem rating_needs_completed_booking (s : Session) (rid : Z) (now : Py.datetime)
    (db : DB) :
  (pc (book_ride s rid now db).2 = Return Booked →
   ∀ s' method rating form_comments now' store_ok ratings,
     now' <= now →
     (rate_ride s' rid method rating form_comments now' store_ok
        (book_ride s rid now db).1 ratings).1.1 = ratings)
  ∧ (∀ store_ok db1 es,
       NoDup (bookings db) →
       cancel_booking s rid now store_ok db = (db1, Cancelled, es) →
       ∀ method rating form_comments now' store_ok' ratings,
         (rate_ride s rid method rating form_comments now' store_ok' db1 ratings).1.1
         = ratings).
Proof.
  split.
  - intros Hb s' method rating c now' ok ratings Hnow'.
    destruct (book_ride_Booked_inv _ _ _ _ Hb)
      as (p & ride & st & e & _ & _ & Hride & _ & Hwin & Hdone & _ & _ & ->).
    apply Z.ltb_ge in Hdone.
    unfold rate_ride. cbv zeta. cbn [bike_rides]. rewrite lookup_insert_eq.
    cbn [ride_date ride_time ride_end_time set_seats_version]. rewrite Hwin.
    unfold Py.le. replace (now' <=? e) with true by (symmetry; apply Z.leb_le; lia).
    rewrite orb_true_r. by repeat case_match.
  - intros ok db1 es Hnd Hc method rating c now' ok' ratings.
    destruct (cancel_booking_Cancelled_inv _ _ _ _ _ _ _ Hc)
      as (ride & st & e & _ & _ & _ & _ & _ & Hbook & _).
    assert (Hgone : has_booking db1 rid (sess_user_id s) = false).
    { unfold has_booking. rewrite Hbook. apply bool_decide_eq_false.
      by apply delete_row_NoDup. }
    unfold rate_ride. cbv zeta. rewrite Hgone. cbn [negb orb].
    by repeat case_match.
Qed.

Lemma rating_needs_completed_booking_witness :
  (rate_ride Sample.asha_session 5 POST (Parsed 5) "" Sample.during true
     (book_ride Sample.asha_session 5 Sample.during Sample.db0).1 []).1.1 = [].
Proof.
  refine (proj1 (rating_needs_completed_booking Sample.asha_session 5 Sample.during
                   Sample.db0) _ Sample.asha_session POST (Parsed 5) "" Sample.during
            true [] _).
  - vm_compute. reflexivity.
  - vm_compute. discriminate.
Defined.

(** ** The chat page *)

(** X21.  [ride_chat] on an existing ride answers "Access denied."
    exactly to a caller who neither owns the ride nor holds a booking on
    it.  So the passenger of a reservation answered "Ride booked
    successfully!" is let in on the store it left, and a passenger who is
    not the owner is denied after their cancellation answered "Booking
    cancelled." on unique booking rows. *)
Theorem ride_chat_access (s : Session) (rid : Z) (db : DB) (messages : list Message) :
  (∀ ride, bike_rides db !! rid = Some ride →
     (ride_chat s rid db messages = AccessDenied
      ↔ rider_id ride ≠ sess_user_id s ∧ mkBooking rid (sess_user_id s) ∉ bookings db))
  ∧ (∀ now, pc (book_ride s rid now db).2 = Return Booked →
       ride_chat s rid (book_ride s rid now db).1 messages ≠ AccessDenied)
  ∧ (∀ now store_ok db1 es ride,
       NoDup (bookings db) →
       bike_rides db !! rid = Some ride → rider_id ride ≠ sess_user_id s →
       cancel_booking s rid now store_ok db = (db1, Cancelled, es) →
       ride_chat s rid db1 messages = AccessDenied).
Proof.
  assert (Hacc : ∀ db' ride, bike_rides db' !! rid = Some ride →
    (ride_chat s rid db' messages = AccessDenied
     ↔ rider_id ride ≠ sess_user_id s ∧ mkBooking rid (sess_user_id s) ∉ bookings db')).
  { intros db' ride Hride. unfold ride_chat. cbv zeta. rewrite Hride.
    unfold has_booking.
    destruct (rider_id ride =? sess_user_id s) eqn:Hown; cbn [negb andb].
    - apply Z.eqb_eq in Hown. split; [|by intros [? _]].
      case_match; intros [=].
    - apply Z.eqb_neq in Hown. case_bool_decide as Hb; cbn [negb].
      + split; [|by intros [_ ?]]. case_match; intros [=].
      + done. }
  split; [exact (Hacc db)|]. split.
  - intros now Hb.
    destruct (book_ride_Booked_inv _ _ _ _ Hb)
      as (p & ride & st & e & _ & _ & Hride & _ & _ & _ & _ & _ & ->).
    intros Hden. eapply Hacc in Hden as [_ Hnb];
      [|cbn [bike_rides]; apply lookup_insert_eq].
    apply Hnb. cbn [bookings]. apply elem_of_app. right. by apply list_elem_of_singleton.
  - intros now ok db1 es ride Hnd Hride Hown Hc.
    destruct (cancel_booking_Cancelled_inv _ _ _ _ _ _ _ Hc)
      as (ride0 & st & e & Hride0 & _ & _ & _ & _ & Hbook & Hrides).
    simplify_eq. eapply Hacc; [rewrite Hrides; apply lookup_insert_eq|].
    split; [done|]. rewrite Hbook. by apply delete_row_NoDup.
Qed.

Lemma ride_chat_access_witness :
  ride_chat Sample.asha_session 5
    (cancel_booking Sample.asha_session 5 Sample.during true Sample.db1).1.1 []
  = AccessDenied.
Proof.
  refine (proj2 (proj2 (ride_chat_access Sample.asha_session 5 Sample.db1 []))
            Sample.during true _ [Notify 1 (cancelled_message Sample.asha_session)]
            (set_seats_version Sample.night_ride 0 2) _ _ _ _).
  - apply NoDup_singleton.
  - reflexivity.
  - vm_compute. discriminate.
  - vm_compute. reflexivity.
Defined.

(** ** The passenger's dashboard *)

Lemma booked_ride_ids_elem (db : DB) (u id : Z) :
  id ∈ booked_ride_ids db u ↔ mkBooking id u ∈ bookings db.
Proof.
  unfold booked_ride_ids. rewrite list_elem_of_fmap. split.
  - intros ([r u'] & -> & [Hu Hin]%list_elem_of_filter). cbn in *. by subst.
  - intros Hin. exists (mkBooking id u). split; [done|].
    apply list_elem_of_filter. done.
Qed.

Lemma passenger_lists_inr (s : Session) (now : Py.datetime) (db : DB)
    (ratings : list Rating) (all_rides : list (Z * BikeRide))
    (a b a' b' : list RideData) :
  passenger_lists s now db ratings all_rides a b = inr (a', b') →
  (∀ id ride, (id, ride) ∈ all_rides → is_Some (ride_data_of s now db ratings id ride))
  ∧ (∀ d, d ∈ a' ↔
       d ∈ a ∨ ∃ id ride,
                 (id, ride) ∈ all_rides
                 ∧ ride_data_of s now db ratings id ride = Some d
                 ∧ (mkBooking id (sess_user_id s) ∉ bookings db)
                 ∧ is_future_ride d = true ∧ 0 < seats_available ride)
  ∧ (∀ d, d ∈ b' ↔
       d ∈ b ∨ ∃ id ride,
                 (id, ride) ∈ all_rides
                 ∧ ride_data_of s now db ratings id ride = Some d
                 ∧ (mkBooking id (sess_user_id s) ∈ bookings db)).
Proof.
  revert a b. induction all_rides as [|[id ride] rest IH]; intros a b; cbn [passenger_lists].
  - intros [= <- <-]. split; [by intros ? ? ?%elem_of_nil|].
    split; intros d; (split; [by left|]);
      intros [?|(? & ? & ?%elem_of_nil & _)]; done.
  - destruct (get_ride_datetime _ _ _) as [[st e]|] eqn:Hwin; [|intros [=]].
    destruct (users db !! rider_id ride) as [rider|] eqn:Hrider; [|intros [=]].
    assert (Hdata : ride_data_of s now db ratings id ride
              = Some (mkRideData id ride (username rider) (Py.le now e) (Py.lt e now)
                        (has_rating ratings id (sess_user_id s)))).
    { unfold ride_data_of. rewrite Hwin. cbn. by rewrite Hrider. }
    set (data := mkRideData id ride (username rider) (Py.le now e) (Py.lt e now)
                   (has_rating ratings id (sess_user_id s))) in *.
    case_bool_decide as Hbooked; [|destruct (Py.le now e && (0 <? seats_available ride))
                                     eqn:Hfree];
      intros (Hall & Ha & Hb)%IH; rewrite ?booked_ride_ids_elem in Hbooked.
    + split; [|split].
      * intros id' ride' [[= -> ->]|Hin]%elem_of_cons; [by rewrite Hdata|by apply Hall].
      * intros d. rewrite Ha. split.
        -- intros [?|(id' & ride' & Hin & Hrest)]; [by left|right].
           exists id', ride'. split; [apply elem_of_cons; by right|done].
        -- intros [?|(id' & ride' & [[= -> ->]|Hin]%elem_of_cons & Hd & Hnb & Hrest)];
             [by left|done|right]. by exists id', ride'.
      * intros d. rewrite Hb, elem_of_app, list_elem_of_singleton. split.
        -- intros [[?| ->]|(id' & ride' & Hin & Hrest)]; [by left|right..].
           ++ exists id, ride. split; [apply elem_of_cons; by left|done].
           ++ exists id', ride'. split; [apply elem_of_cons; by right|done].
        -- intros [?|(id' & ride' & [[= -> ->]|Hin]%elem_of_cons & Hd & Hrest)].
           ++ by left; left.
           ++ left; right. congruence.
           ++ right. by exists id', ride'.
    + apply andb_true_iff in Hfree as [Hfut Hseat%Z.ltb_lt].
      split; [|split].
      * intros id' ride' [[= -> ->]|Hin]%elem_of_cons; [by rewrite Hdata|by apply Hall].
      * intros d. rewrite Ha, elem_of_app, list_elem_of_singleton. split.
        -- intros [[?| ->]|(id' & ride' & Hin & Hrest)]; [by left|right..].
           ++ exists id, ride. split; [apply elem_of_cons; by left|done].
           ++ exists id', ride'. split; [apply elem_of_cons; by right|done].
        -- intros [?|(id' & ride' & [[= -> ->]|Hin]%elem_of_cons & Hd & Hrest)].
           ++ by left; left.
           ++ left; right. congruence.
           ++ right. by exists id', ride'.
      * intros d. rewrite Hb. split.
        -- intros [?|(id' & ride' & Hin & Hrest)]; [by left|right].
           exists id', ride'. split; [apply elem_of_cons; by right|done].
        -- intros [?|(id' & ride' & [[= -> ->]|Hin]%elem_of_cons & Hd & Hbk)];
             [by left|done|right]. by exists id', ride'.
    + split; [|split].
      * intros id' ride' [[= -> ->]|Hin]%elem_of_cons; [by rewrite Hdata|by apply Hall].
      * intros d. rewrite Ha. split.
        -- intros [?|(id' & ride' & Hin & Hrest)]; [by left|right].
           exists id', ride'. split; [apply elem_of_cons; by right|done].
        -- intros [?|(id' & ride' & [[= -> ->]|Hin]%elem_of_cons & Hd & Hnb & Hfut & Hseat)];
             [by left| |right; by exists id', ride'].
           rewrite Hdata in Hd. injection Hd as <-. cbn in Hfut.
           apply Z.ltb_lt in Hseat. rewrite Hfut, Hseat in Hfree. done.
      * intros d. rewrite Hb. split.
        -- intros [?|(id' & ride' & Hin & Hrest)]; [by left|right].
           exists id', ride'. split; [apply elem_of_cons; by right|done].
        -- intros [?|(id' & ride' & [[= -> ->]|Hin]%elem_of_cons & Hd & Hbk)];
             [by left|done|right]. by exists id', ride'.
Qed.

Lemma insert_by_start_perm (x : RideData) (l : list RideData) :
  insert_by_start x l ≡ₚ x :: l.
Proof.
  induction l as [|y l IH]; cbn; [done|].
  case_match; [done|]. rewrite IH. apply Permutation_swap.
Qed.

Lemma sort_by_start_perm (l : list RideData) : sort_by_start l ≡ₚ l.
Proof.
  induction l as [|x l IH]; cbn; [done|]. by rewrite insert_by_start_perm, IH.
Qed.

Lemma insert_by_start_sorted (x : RideData) (l : list RideData) :
  Sorted (λ a b, start_of a <= start_of b) l →
  Sorted (λ a b, start_of a <= start_of b) (insert_by_start x l).
Proof.
  induction 1 as [|y l Hl IH Hhd]; cbn; [by repeat constructor|].
  destruct (start_of x <=? start_of y) eqn:Hle.
  - apply Z.leb_le in Hle. by repeat constructor.
  - apply Z.leb_gt in Hle. constructor; [done|].
    destruct l as [|z l]; cbn in *.
    + constructor. lia.
    + case_match; constructor; [lia|by inversion Hhd].
Qed.

Lemma sort_by_start_sorted (l : list RideData) :
  Sorted (λ a b, start_of a <= start_of b) (sort_by_start l).
Proof.
  induction l as [|x l IH]; cbn; [constructor|]. by apply insert_by_start_sorted.
Qed.

Lemma insert_by_start_stable (k : Py.datetime) (x : RideData) (l : list RideData) :
  Sorted (λ a b, start_of a <= start_of b) l →
  filter (λ d, start_of d = k) (insert_by_start x l)
  = filter (λ d, start_of d = k) (x :: l).
Proof.
  intros Hl. apply Sorted_StronglySorted in Hl; [|intros ???; lia].
  induction Hl as [|y l Hl IH Hall]; cbn [insert_by_start]; [done|].
  destruct (start_of x <=? start_of y) eqn:Hle; [done|]. apply Z.leb_gt in Hle.
  rewrite (filter_cons _ y (insert_by_start x l)), IH, !filter_cons.
  repeat case_decide; (done || lia).
Qed.

Lemma sort_by_start_stable (k : Py.datetime) (l : list RideData) :
  filter (λ d, start_of d = k) (sort_by_start l) = filter (λ d, start_of d = k) l.
Proof.
  induction l as [|x l IH]; cbn [sort_by_start]; [done|].
  rewrite insert_by_start_stable by apply sort_by_start_sorted.
  by rewrite !filter_cons, IH.
Qed.

Lemma ride_data_of_Some (s : Session) (now : Py.datetime) (db : DB)
    (ratings : list Rating) (id : Z) (ride : BikeRide) (d : RideData) :
  ride_data_of s now db ratings id ride = Some d →
  rd_id d = id ∧ rd_ride d = ride
  ∧ is_completed d = negb (is_future_ride d)
  ∧ is_rated d = has_rating ratings id (sess_user_id s)
  ∧ ∃ ride_dt_start ride_dt_end,
      get_ride_datetime (ride_date ride) (ride_time ride) (ride_end_time ride)
        = Some (ride_dt_start, ride_dt_end)
      ∧ is_future_ride d = Py.le now ride_dt_end.
Proof.
  unfold ride_data_of.
  destruct (get_ride_datetime _ _ _) as [[st e]|]; [|done]. cbn.
  destruct (users db !! rider_id ride); [|done]. cbn. intros [= <-]. cbn.
  split; [done|]. split; [done|]. split; [|split; [done|by eexists _, _]].
  unfold Py.lt, Py.le. rewrite Z.leb_antisym. by rewrite negb_involutive.
Qed.

Lemma dashboard_passenger_inr (s : Session) (now : Py.datetime) (db : DB)
    (ratings : list Rating) (all_rides : list (Z * BikeRide))
    (available booked : list RideData) :
  dashboard_passenger s now db ratings all_rides = inr (available, booked) →
  ∃ booked0,
    passenger_lists s now db ratings all_rides [] [] = inr (available, booked0)
    ∧ booked = sort_by_start booked0.
Proof.
  unfold dashboard_passenger.
  destruct (passenger_lists _ _ _ _ _ _ _) as [?|[a b]]; [done|].
  intros [= <- <-]. by eexists.
Qed.

(** X22.  When the passenger view of the dashboard is rendered, the rides
    it lists as available are rides of the query on which the passenger
    holds no booking, whose window has not ended and which have a seat; the
    rides it lists as booked are the rides of the query on which they hold a
    booking, whether completed or not.  No ride is in both lists, every
    ride of the query on which they hold a booking is listed as booked, and
    every other ride of the query that is not completed and has a seat is
    listed as available. *)
Theorem dashboard_passenger_lists (s : Session) (now : Py.datetime) (db : DB)
    (ratings : list Rating) (all_rides : list (Z * BikeRide))
    (available booked : list RideData) :
  dashboard_passenger s now db ratings all_rides = inr (available, booked) →
  (∀ d, d ∈ available →
     (rd_id d, rd_ride d) ∈ all_rides
     ∧ (mkBooking (rd_id d) (sess_user_id s) ∉ bookings db)
     ∧ is_future_ride d = true ∧ is_completed d = false
     ∧ 0 < seats_available (rd_ride d))
  ∧ (∀ d, d ∈ booked →
       (rd_id d, rd_ride d) ∈ all_rides
       ∧ mkBooking (rd_id d) (sess_user_id s) ∈ bookings db)
  ∧ (∀ d, d ∈ available → d ∉ booked)
  ∧ (∀ id ride, (id, ride) ∈ all_rides →
       ∃ d ride_dt_start ride_dt_end,
         ride_data_of s now db ratings id ride = Some d
         ∧ get_ride_datetime (ride_date ride) (ride_time ride) (ride_end_time ride)
             = Some (ride_dt_start, ride_dt_end)
         ∧ (mkBooking id (sess_user_id s) ∈ bookings db → d ∈ booked)
         ∧ (mkBooking id (sess_user_id s) ∉ bookings db →
            now <= ride_dt_end → 0 < seats_available ride → d ∈ available)).
Proof.
  intros (booked0 & Hlists & ->)%dashboard_passenger_inr.
  destruct (passenger_lists_inr _ _ _ _ _ _ _ _ _ Hlists) as (Hall & Ha & Hb).
  assert (Hb' : ∀ d, d ∈ sort_by_start booked0 ↔ d ∈ booked0).
  { intros d. by rewrite sort_by_start_perm. }
  split; [|split; [|split]].
  - intros d [[]%elem_of_nil|(id & ride & Hin & Hd & Hnb & Hfut & Hseat)]%Ha.
    destruct (ride_data_of_Some _ _ _ _ _ _ _ Hd) as (<- & <- & Hc & _).
    rewrite Hc, Hfut. done.
  - intros d [[]%elem_of_nil|(id & ride & Hin & Hd & Hbk)]%Hb'%Hb.
    by destruct (ride_data_of_Some _ _ _ _ _ _ _ Hd) as (<- & <- & _).
  - intros d [[]%elem_of_nil|(id & ride & _ & Hd & Hnb & _)]%Ha
              [[]%elem_of_nil|(id' & ride' & _ & Hd' & Hbk)]%Hb'%Hb.
    destruct (ride_data_of_Some _ _ _ _ _ _ _ Hd) as (<- & _).
    destruct (ride_data_of_Some _ _ _ _ _ _ _ Hd') as (<- & _). done.
  - intros id ride Hin. destruct (Hall id ride Hin) as [d Hd].
    destruct (ride_data_of_Some _ _ _ _ _ _ _ Hd) as (_ & _ & _ & _ & st & e & Hwin & Hfut).
    exists d, st, e. split; [done|]. split; [done|]. split.
    + intros Hbk. apply Hb', Hb. right. by exists id, ride.
    + intros Hnb Hnow Hseat. apply Ha. right. exists id, ride.
      repeat split; try done. rewrite Hfut. by apply Z.leb_le.
Qed.

Lemma dashboard_passenger_lists_witness :
  (6, Sample2.early_ride) ∈ Sample2.all_rides
  ∧ (mkBooking 6 7 ∉ bookings Sample2.db3)
  ∧ 0 < seats_available Sample2.early_ride.
Proof.
  destruct (proj1 (dashboard_passenger_lists Sample.asha_session Sample.during Sample2.db3
                     [] Sample2.all_rides [Sample2.male_data; Sample2.early_data]
                     [Sample2.night_data] eq_refl) Sample2.early_data)
    as (Hin & Hnb & _ & _ & Hseat).
  - apply elem_of_cons. right. apply elem_of_cons. by left.
  - split; [exact Hin|]. split; [exact Hnb|exact Hseat].
Defined.

(** The sample dashboard, run: the booked night ride, and the two morning
    rides as available, the one for men included. *)
Example dashboard_outcome :
  match dashboard_passenger Sample.asha_session Sample.during Sample2.db3 []
          Sample2.all_rides with
  | inr (available, booked) => (rd_id <$> available, rd_id <$> booked)
  | inl _ => ([], [])
  end = ([9; 6], [5]).
Proof. vm_compute. reflexivity. Qed.

(** A list sorted by start in which entries of equal start are in a given
    order is determined: whatever stable sort produces it. *)
Lemma stable_sorted_unique (l1 l2 : list RideData) :
  Sorted (λ a b, start_of a <= start_of b) l1 →
  Sorted (λ a b, start_of a <= start_of b) l2 →
  (∀ k, filter (λ d, start_of d = k) l1 = filter (λ d, start_of d = k) l2) →
  l1 = l2.
Proof.
  intros H1%Sorted_StronglySorted H2%Sorted_StronglySorted; [|intros ???; lia..].
  revert l2 H2. induction H1 as [|a l1 H1 IH Ha]; intros l2 H2 Hf.
  - destruct l2 as [|b l2]; [done|].
    specialize (Hf (start_of b)). by rewrite filter_cons_True in Hf.
  - destruct H2 as [|b l2 H2 Hb].
    { specialize (Hf (start_of a)). by rewrite filter_cons_True in Hf. }
    assert (Hab : start_of a = start_of b).
    { rewrite Forall_forall in Ha, Hb.
      assert (Hb_in : b ∈ a :: l1).
      { eapply (list_elem_of_filter (λ d, start_of d = start_of b)).
        rewrite Hf, filter_cons_True by done. apply elem_of_cons. by left. }
      assert (Ha_in : a ∈ b :: l2).
      { eapply (list_elem_of_filter (λ d, start_of d = start_of a)).
        rewrite <- Hf, filter_cons_True by done. apply elem_of_cons. by left. }
      apply elem_of_cons in Hb_in as [->|Hb_in]; [done|].
      apply elem_of_cons in Ha_in as [->|Ha_in]; [done|].
      specialize (Ha _ Hb_in). specialize (Hb _ Ha_in). lia. }
    pose proof (Hf (start_of a)) as Hhd.
    rewrite !filter_cons_True in Hhd by done. injection Hhd as <- Htl.
    f_equal. apply IH; [done|]. intros k.
    destruct (decide (k = start_of a)) as [->|Hk]; [done|].
    specialize (Hf k). by rewrite !filter_cons_False in Hf by congruence.
Qed.

Lemma by_date_time_start (a b : Z * BikeRide) :
  Py.valid_time (ride_time a.2) → Py.valid_time (ride_time b.2) →
  by_date_time a b →
  Py.combine (ride_date a.2) (ride_time a.2) <= Py.combine (ride_date b.2) (ride_time b.2).
Proof.
  unfold Py.valid_time, by_date_time, Py.combine, Py.us_per_day. lia.
Qed.

(** The loop keeps the order of the query. *)
Lemma passenger_lists_sorted (s : Session) (now : Py.datetime) (db : DB)
    (ratings : list Rating) (all_rides : list (Z * BikeRide))
    (a b a' b' : list RideData) :
  StronglySorted by_date_time all_rides →
  (∀ id ride, (id, ride) ∈ all_rides → Py.valid_time (ride_time ride)) →
  StronglySorted (λ x y, start_of x <= start_of y) b →
  (∀ d id ride, d ∈ b → (id, ride) ∈ all_rides →
     start_of d <= Py.combine (ride_date ride) (ride_time ride)) →
  passenger_lists s now db ratings all_rides a b = inr (a', b') →
  StronglySorted (λ x y, start_of x <= start_of y) b'.
Proof.
  revert a b. induction all_rides as [|[id ride] rest IH];
    intros a b Hall Hvalid Hb Hle; cbn [passenger_lists].
  - by intros [= <- <-].
  - apply StronglySorted_cons in Hall as [Hhd Hrest]. rewrite Forall_forall in Hhd.
    assert (Hvalid' : ∀ id' ride', (id', ride') ∈ rest → Py.valid_time (ride_time ride')).
    { intros id' ride' Hin. apply (Hvalid id' ride'), elem_of_cons. by right. }
    assert (Hle' : ∀ d id' ride', d ∈ b → (id', ride') ∈ rest →
                     start_of d <= Py.combine (ride_date ride') (ride_time ride')).
    { intros d id' ride' Hd Hin. apply (Hle d id' ride' Hd), elem_of_cons. by right. }
    destruct (get_ride_datetime _ _ _) as [[st e]|]; [|intros [=]].
    destruct (users db !! rider_id ride) as [rider|]; [|intros [=]].
    case_bool_decide; [|case_match]; try (by apply IH).
    apply IH; [done|done| |].
    + apply StronglySorted_app_2; [|done|by repeat constructor].
      intros d d' Hd ->%list_elem_of_singleton. unfold start_of at 2. cbn.
      apply (Hle d id ride Hd), elem_of_cons. by left.
    + intros d id' ride' [Hd| ->%list_elem_of_singleton]%elem_of_app Hin; [by eapply Hle'|].
      unfold start_of. cbn.
      apply (by_date_time_start (id, ride) (id', ride')); cbn.
      * apply (Hvalid id ride), elem_of_cons. by left.
      * by eapply Hvalid'.
      * by apply Hhd.
Qed.

(** X23.  The booked rides of the passenger view are sorted by start
    instant, the earliest first, and rides with the same start keep the
    order of the query: the list is a rearrangement of the booked rides
    in which entries of equal start are not swapped.  It is the only such
    list, so it is what any stable sort returns, [list.sort] included.
    When the rows of the query come in the order of its [order_by], by
    date and then by time of day, the sort changes nothing: the booked
    rides are listed in the order of the query. *)
Theorem dashboard_passenger_sorted (s : Session) (now : Py.datetime) (db : DB)
    (ratings : list Rating) (all_rides : list (Z * BikeRide))
    (available booked : list RideData) :
  dashboard_passenger s now db ratings all_rides = inr (available, booked) →
  Sorted (λ a b, start_of a <= start_of b) booked
  ∧ ∃ booked0,
      passenger_lists s now db ratings all_rides [] [] = inr (available, booked0)
      ∧ booked ≡ₚ booked0
      ∧ (∀ k, filter (λ d, start_of d = k) booked = filter (λ d, start_of d = k) booked0)
      ∧ (∀ l, Sorted (λ a b, start_of a <= start_of b) l →
              (∀ k, filter (λ d, start_of d = k) l = filter (λ d, start_of d = k) booked0) →
              l = booked)
      ∧ (Sorted by_date_time all_rides →
         (∀ id ride, (id, ride) ∈ all_rides → Py.valid_time (ride_time ride)) →
         booked = booked0).
Proof.
  intros (booked0 & Hlists & ->)%dashboard_passenger_inr.
  split; [apply sort_by_start_sorted|]. exists booked0.
  split; [done|]. split; [apply sort_by_start_perm|].
  split; [intros k; apply sort_by_start_stable|]. split.
  - intros l Hl Hf. apply stable_sorted_unique; [done|apply sort_by_start_sorted|].
    intros k. by rewrite Hf, sort_by_start_stable.
  - intros Hall Hvalid. apply stable_sorted_unique; [apply sort_by_start_sorted| |].
    + apply StronglySorted_Sorted.
      apply (passenger_lists_sorted s now db ratings all_rides [] [] available booked0);
        [|done|constructor|by intros ??? ?%elem_of_nil|done].
      apply Sorted_StronglySorted; [|done].
      intros x y z. unfold by_date_time. lia.
    + intros k. apply sort_by_start_stable.
Qed.

Lemma dashboard_passenger_sorted_witness :
  Sorted (λ a b, start_of a <= start_of b)
    [Sample2.night_data; Sample2.early_trip; Sample2.lake_trip]
  ∧ [Sample2.night_data; Sample2.early_trip; Sample2.lake_trip]
    ≡ₚ [Sample2.early_trip; Sample2.lake_trip; Sample2.night_data]
  ∧ filter (λ d, start_of d = Py.combine 739010 (Py.hm 6 30))
      [Sample2.night_data; Sample2.early_trip; Sample2.lake_trip]
    = [Sample2.early_trip; Sample2.lake_trip].
Proof.
  destruct (dashboard_passenger_sorted Sample.asha_session Sample.during Sample2.db4
              [] Sample2.trips []
              [Sample2.night_data; Sample2.early_trip; Sample2.lake_trip] eq_refl)
    as (Hsorted & booked0 & Hlists & Hperm & Hstable & _).
  assert (booked0 = [Sample2.early_trip; Sample2.lake_trip; Sample2.night_data]) as ->.
  { vm_compute in Hlists. by injection Hlists as <-. }
  split; [exact Hsorted|]. split; [exact Hperm|].
  rewrite Hstable. reflexivity.
Defined.

(** The same three rides in the order of the query's [order_by]: they are
    listed as the query has them. *)
Example dashboard_in_query_order :
  dashboard_passenger Sample.asha_session Sample.during Sample2.db4 []
    [(5, set_seats_version Sample.night_ride 0 2); (10, Sample2.lake_ride);
     (6, set_seats_version Sample2.early_ride 1 2)]
  = inr ([], [Sample2.night_data; Sample2.lake_trip; Sample2.early_trip]).
Proof. vm_compute. reflexivity. Qed.

(** X24.  The dashboard and the booking handler agree, except on the
    gender preference, which the dashboard does not look at.  When the
    rides of the query are rows of the store, a ride listed as available to
    a passenger whose user row exists is booked by [book_ride] at that
    instant if its preference is "Any" or the passenger's gender, and is
    refused with the preference message otherwise; and every ride of the
    query that [book_ride] would book at that instant is listed as
    available. *)
Theorem available_means_bookable (s : Session) (now : Py.datetime) (db : DB)
    (ratings : list Rating) (all_rides : list (Z * BikeRide))
    (available booked : list RideData) (passenger : User) :
  dashboard_passenger s now db ratings all_rides = inr (available, booked) →
  (∀ id ride, (id, ride) ∈ all_rides → bike_rides db !! id = Some ride) →
  sess_is_rider s = false →
  users db !! sess_user_id s = Some passenger →
  (∀ d, d ∈ available →
     pc (book_ride s (rd_id d) now db).2
     = Return (if negb (String.eqb (rider_gender_preference (rd_ride d)) "Any")
                  && negb (String.eqb (gender passenger)
                             (rider_gender_preference (rd_ride d)))
               then PolicyRejected (rd_ride d) else Booked))
  ∧ (∀ id ride, (id, ride) ∈ all_rides →
       pc (book_ride s id now db).2 = Return Booked →
       ∃ d, d ∈ available ∧ rd_id d = id ∧ rd_ride d = ride).
Proof.
  intros (booked0 & Hlists & ->)%dashboard_passenger_inr Hrows Hs Hu.
  destruct (passenger_lists_inr _ _ _ _ _ _ _ _ _ Hlists) as (Hall & Ha & _).
  split.
  - intros d [[]%elem_of_nil|(id & ride & Hin & Hd & Hnb & Hfut & Hseat)]%Ha.
    destruct (ride_data_of_Some _ _ _ _ _ _ _ Hd)
      as (<- & <- & _ & _ & st & e & Hwin & Hfut').
    rewrite Hfut in Hfut'. symmetry in Hfut'. apply Z.leb_le in Hfut'.
    rewrite book_ride_alone. cbv zeta. rewrite Hs, Hu, (Hrows _ _ Hin).
    case_match; [done|]. rewrite Hwin. unfold completed_at, Py.lt.
    replace (e <? now) with false by (symmetry; by apply Z.ltb_ge).
    unfold has_booking. rewrite bool_decide_eq_false_2 by done.
    replace (seats_available (rd_ride d) <=? 0) with false
      by (symmetry; apply Z.leb_gt; lia).
    done.
  - intros id ride Hin Hb.
    destruct (book_ride_Booked_inv _ _ _ _ Hb)
      as (p & ride0 & st & e & _ & _ & Hride & _ & Hwin & Hdone & Hnb & Hseats & _).
    rewrite (Hrows _ _ Hin) in Hride. injection Hride as <-.
    destruct (Hall id ride Hin) as [d Hd].
    destruct (ride_data_of_Some _ _ _ _ _ _ _ Hd)
      as (Hid & Hr & _ & _ & st' & e' & Hwin' & Hfut).
    simplify_eq. exists d. split; [|done]. apply Ha. right.
    exists (rd_id d), (rd_ride d). apply bool_decide_eq_false in Hnb.
    repeat split; try done. rewrite Hfut. apply Z.leb_le. by apply Z.ltb_ge in Hdone.
Qed.

Lemma available_means_bookable_witness :
  pc (book_ride Sample.asha_session 6 Sample.during Sample2.db3).2 = Return Booked
  ∧ pc (book_ride Sample.asha_session 9 Sample.during Sample2.db3).2
    = Return (PolicyRejected Sample2.male_ride).
Proof.
  destruct (available_means_bookable Sample.asha_session Sample.during Sample2.db3 []
              Sample2.all_rides [Sample2.male_data; Sample2.early_data]
              [Sample2.night_data] Sample.asha eq_refl) as [H _].
  - intros id ride Hin. repeat (apply elem_of_cons in Hin as [[= -> ->]|Hin]);
      [reflexivity..|by apply elem_of_nil in Hin].
  - reflexivity.
  - reflexivity.
  - split.
    + apply (H Sample2.early_data). apply elem_of_cons. right. apply elem_of_cons. by left.
    + apply (H Sample2.male_data). apply elem_of_cons. by left.
Defined.

(** ** Notifications *)

Lemma unread_count_insert (table : gmap Z Notification) (i : Z) (n : Notification) (u : Z) :
  table !! i = None →
  unread_count (<[i := n]> table) u =
  if decide (n_user_id n = u ∧ is_read n = false)
  then S (unread_count table u) else unread_count table u.
Proof.
  intros Hi. unfold unread_count. case_decide.
  - rewrite map_filter_insert_True by done.
    rewrite map_size_insert_None; [done|].
    by rewrite map_lookup_filter_None; left.
  - rewrite map_filter_insert_False by done.
    by rewrite delete_id.
Qed.

Lemma unread_count_delete (table : gmap Z Notification) (i : Z) (n : Notification) (u : Z) :
  table !! i = Some n →
  unread_count table u =
  if decide (n_user_id n = u ∧ is_read n = false)
  then S (unread_count (delete i table) u) else unread_count (delete i table) u.
Proof.
  intros Hi. rewrite <- (insert_delete_id table i n) at 1 by done.
  apply unread_count_insert, lookup_delete_eq.
Qed.

Lemma mark_read_other (u : Z) (n : Notification) :
  n_user_id n ≠ u → mark_read u n = n.
Proof. intros Hu. unfold mark_read. case_decide as H; [|done]. by destruct H. Qed.

Lemma mark_read_fields (u : Z) (n : Notification) :
  n_user_id (mark_read u n) = n_user_id n ∧ n_message (mark_read u n) = n_message n ∧
  n_timestamp (mark_read u n) = n_timestamp n ∧
  is_read (mark_read u n) = (is_read n || bool_decide (n_user_id n = u)).
Proof.
  unfold mark_read. case_decide as H; cbn.
  - destruct H as [-> ->]. by rewrite bool_decide_eq_true_2.
  - repeat split; try done. destruct (is_read n) eqn:?; [done|].
    rewrite bool_decide_eq_false_2; [done|naive_solver].
Qed.

Lemma mark_read_idemp (u : Z) (n : Notification) :
  mark_read u (mark_read u n) = mark_read u n.
Proof.
  unfold mark_read at 2 3. case_decide as H; [|by unfold mark_read; case_decide].
  unfold mark_read. case_decide as H'; [|done]. cbn in H'. naive_solver.
Qed.

Lemma unread_count_mark_read_same (table : gmap Z Notification) (u : Z) :
  unread_count (mark_read u <$> table) u = 0%nat.
Proof.
  unfold unread_count. apply map_size_empty_iff, map_empty_filter.
  intros i n Hn [Hu Hr]. cbn in *.
  apply lookup_fmap_Some in Hn as (n' & <- & _).
  destruct (mark_read_fields u n') as (Hu' & _ & _ & Hr').
  rewrite Hr', Hu' in *. rewrite bool_decide_eq_true_2 in Hr by done.
  by destruct (is_read n').
Qed.

Lemma unread_count_mark_read_other (table : gmap Z Notification) (u v : Z) :
  u ≠ v → unread_count (mark_read u <$> table) v = unread_count table v.
Proof.
  intros Huv. unfold unread_count.
  rewrite map_filter_fmap, map_size_fmap. f_equal.
  apply map_filter_ext. intros i n _. cbn.
  destruct (decide (n_user_id n = u)) as [Hn|Hn].
  - split; intros [? _]; [|congruence].
    destruct (mark_read_fields u n) as (Hu' & _). congruence.
  - by rewrite mark_read_other.
Qed.

(** X25. [create_notification] returns [True] exactly when the row is
    stored.  Then the row is new, unread and addressed to [user_id], one
    event is emitted, to the room of that user and carrying the key of the
    stored row, the unread count of the addressee rises by one and that of
    every other user is unchanged.  Otherwise nothing is stored and nothing
    is emitted.  In both cases every row present before is untouched. *)
Theorem create_notification_unread (user_id : Z) (message : string) (utcnow : Py.datetime)
    (new_id : Z) (store_ok : bool) (table : gmap Z Notification) :
  let '(table', returned, emitted) :=
    create_notification user_id message utcnow new_id store_ok table in
  (returned = true ↔ store_ok = true ∧ table !! new_id = None) ∧
  (∀ i n, table !! i = Some n → table' !! i = Some n) ∧
  (if returned
   then (∃ n, table' !! new_id = Some n ∧ n_user_id n = user_id ∧
              n_message n = message ∧ n_timestamp n = utcnow ∧ is_read n = false) ∧
        (∃ e, emitted = [e] ∧ room e = user_room user_id ∧
              emitted_message e = message ∧ notification_id e = new_id) ∧
        unread_count table' user_id = S (unread_count table user_id) ∧
        (∀ u, u ≠ user_id → unread_count table' u = unread_count table u)
   else table' = table ∧ emitted = []).
Proof.
  unfold create_notification.
  destruct store_ok; cbn [andb]; [case_bool_decide as Hi|].
  - split; [done|]. split.
    { intros i n Hn. rewrite lookup_insert_ne; [done|congruence]. }
    split; [|split; [|split]].
    + eexists. by rewrite lookup_insert_eq.
    + by eexists.
    + rewrite unread_count_insert by done. by rewrite decide_True.
    + intros u Hu. rewrite unread_count_insert by done.
      rewrite decide_False; [done|]. cbn. by intros [? _].
  - split; [|done]. split; [done|by intros [_ ?]].
  - split; [|done]. split; [done|by intros [? _]].
Qed.

(** X26. The three notification handlers act on the caller's rows only:
    whatever the request, a row that belongs to another user is still there,
    unchanged, after [delete_notification], [mark_all_notifications_read]
    and the [notifications] view, and the unread count of every other user
    is what it was. *)
Theorem notifications_isolated (s : Session) (id : Z) (store_ok : bool)
    (table : gmap Z Notification) (other : Z) :
  other ≠ sess_user_id s →
  (∀ i n, table !! i = Some n → n_user_id n = other →
     (delete_notification s id store_ok table).1 !! i = Some n ∧
     (mark_all_notifications_read s store_ok table).1 !! i = Some n ∧
     (notifications s store_ok table).1 !! i = Some n) ∧
  unread_count (delete_notification s id store_ok table).1 other = unread_count table other ∧
  unread_count (mark_all_notifications_read s store_ok table).1 other = unread_count table other ∧
  unread_count (notifications s store_ok table).1 other = unread_count table other.
Proof.
  intros Ho. split; [|split; [|split]].
  - intros i n Hn Hu. split; [|split].
    + unfold delete_notification. destruct (table !! id) as [m|] eqn:Hm; [|done].
      case_decide; [|done]. destruct store_ok; [|done]. cbn.
      rewrite lookup_delete_ne; [done|]. intros ->. congruence.
    + unfold mark_all_notifications_read. destruct store_ok; [|done]. cbn.
      rewrite lookup_fmap, Hn. cbn. rewrite mark_read_other; [done|congruence].
    + unfold notifications. destruct store_ok; [|done]. cbn.
      rewrite lookup_fmap, Hn. cbn. rewrite mark_read_other; [done|congruence].
  - unfold delete_notification. destruct (table !! id) as [m|] eqn:Hm; [|done].
    case_decide; [|done]. destruct store_ok; [|done]. cbn.
    rewrite (unread_count_delete table id m other) by done.
    rewrite decide_False; [done|]. intros [? _]. congruence.
  - unfold mark_all_notifications_read. destruct store_ok; [|done]. cbn.
    by apply unread_count_mark_read_other.
  - unfold notifications. destruct store_ok; [|done]. cbn.
    by apply unread_count_mark_read_other.
Qed.

Lemma notifications_isolated_witness :
  let s := mkSession 2 false "meera" in
  let table : gmap Z Notification :=
    <[1 := mkNotification 1 "New booking" 0 false]>
      (<[2 := mkNotification 2 "Ride cancelled" 0 false]> ∅) in
  3 ≠ sess_user_id s ∧ 1 ≠ sess_user_id s ∧
  (delete_notification s 1 true table).1 !! 1 = Some (mkNotification 1 "New booking" 0 false) ∧
  unread_count (notifications s true table).1 1 = unread_count table 1.
Proof.
  intros s table. split; [done|]. split; [done|].
  pose proof (notifications_isolated s 1 true table 1 ltac:(done)) as (H & _ & _ & H').
  split; [|exact H'].
  by apply (H 1 (mkNotification 1 "New booking" 0 false)).
Defined.

(** X27. Reading clears the caller's unread count.  When the store accepts
    the commit, the [notifications] view reports the number of unread rows
    of the caller as it was before the view, and after it, as after
    [mark_all_notifications_read], that number is zero; the table keeps its
    keys and every row keeps its user, message and timestamp; no row goes
    from read to unread; a second call changes nothing more.  When the
    store refuses the commit, the table is unchanged. *)
Theorem notifications_mark_read (s : Session) (store_ok : bool) (table : gmap Z Notification) :
  let after := (mark_all_notifications_read s store_ok table).1 in
  (notifications s store_ok table).1 = after ∧
  (if store_ok
   then (notifications s store_ok table).2 = Some (unread_count table (sess_user_id s)) ∧
        success (mark_all_notifications_read s store_ok table).2 = true ∧
        unread_count after (sess_user_id s) = 0%nat ∧
        (∀ i, match table !! i, after !! i with
              | Some n, Some n' =>
                  n_user_id n' = n_user_id n ∧ n_message n' = n_message n ∧
                  n_timestamp n' = n_timestamp n ∧ (is_read n = true → is_read n' = true)
              | None, None => True
              | _, _ => False
              end) ∧
        (mark_all_notifications_read s store_ok after).1 = after
   else after = table ∧ (notifications s store_ok table).2 = None ∧
        status (mark_all_notifications_read s store_ok table).2 = 500).
Proof.
  unfold notifications, mark_all_notifications_read.
  destruct store_ok; cbn; [|done].
  split; [done|]. split; [done|]. split; [done|]. split; [|split].
  - apply unread_count_mark_read_same.
  - intros i. rewrite lookup_fmap. destruct (table !! i) as [n|]; cbn; [|done].
    destruct (mark_read_fields (sess_user_id s) n) as (-> & -> & -> & ->).
    repeat split. by intros ->.
  - rewrite <- map_fmap_compose. apply map_fmap_ext.
    intros i n _. apply mark_read_idemp.
Qed.

(** X28. [delete_notification] succeeds exactly when the key names a row of
    the caller and the store accepts the commit.  It then removes that row
    and nothing else, and the caller's unread count drops by one if the row
    was unread and stays as it was otherwise.  In every other case the table
    is unchanged; the answer is 404 exactly when the caller has no row
    under that key, a row of another user included.  After a successful
    call the same request is answered 404. *)
Theorem delete_notification_own (s : Session) (id : Z) (store_ok : bool)
    (table : gmap Z Notification) :
  let '(table', json) := delete_notification s id store_ok table in
  (success json = true ↔
     store_ok = true ∧ ∃ n, table !! id = Some n ∧ n_user_id n = sess_user_id s) ∧
  (status json = 404 ↔ ¬ ∃ n, table !! id = Some n ∧ n_user_id n = sess_user_id s) ∧
  (if success json
   then table' = delete id table ∧ status json = 200 ∧
        (∀ n, table !! id = Some n →
           unread_count table (sess_user_id s) =
           if is_read n then unread_count table' (sess_user_id s)
           else S (unread_count table' (sess_user_id s))) ∧
        ∀ store_ok', status (delete_notification s id store_ok' table').2 = 404
   else table' = table).
Proof.
  unfold delete_notification.
  destruct (table !! id) as [n|] eqn:Hn; [case_decide as Hu; [destruct store_ok|]|]; cbn.
  - split; [split; [eauto|done]|]. split; [split; [done|]; intros []; eauto|].
    split; [done|]. split; [done|]. split.
    + intros n' [= <-]. rewrite (unread_count_delete table id n) by done.
      destruct (is_read n) eqn:Hr.
      * rewrite decide_False; [done|]. by intros [_ ?].
      * by rewrite decide_True.
    + intros ?. by rewrite lookup_delete_eq.
  - split; [split; [done|by intros [? _]]|].
    split; [split; [done|]; intros []; eauto|]. done.
  - split; [split; [done|]; intros (_ & n' & ? & ?); congruence|].
    split; [|done]. split; [|done]. intros _ (n' & ? & ?). congruence.
  - split; [split; [done|]; intros (_ & n' & ? & ?); congruence|].
    split; [|done]. split; [|done]. intros _ (n' & ? & ?). congruence.
Qed.

(** ** A cancellation among reservations *)

Lemma set_seats_version_twice (row : BikeRide) (seats seats' v v' : Z) :
  set_seats_version (set_seats_version row seats v) seats' v'
  = set_seats_version row seats' v'.
Proof. done. Qed.

(** C2.  The claim is that the version of a ride goes up by exactly 1
    with each applied seat mutation, a cancellation's release included.
    [cancel_booking] does so when it is served alone, but its commit
    writes the seats and the version it computed from the ride object it
    loaded, with no condition on the version, so a reservation served
    between its reads and its commit is overwritten.  Passenger [sa] holds
    a booking on a ride that is not completed and has a free seat; the
    cancellation of [sa] loads the ride and finds the booking; then [sb], a
    passenger the ride admits, books the free seat, which takes a seat and
    raises the version by 1; then the cancellation commits.  It is
    answered "Booking cancelled.", and the row it writes has the version
    the reservation left, not one more, and two seats more than the
    reservation left: the seats and the booking rows of the ride now add up
    to one more than before. *)
Theorem cancel_booking_lost_update (sa sb : Session) (r : Z) (now : Py.datetime) (db : DB)
    (passenger : User) (ride : BikeRide) (ride_dt_start ride_dt_end : Py.datetime) :
  sess_is_rider sa = false →
  sess_is_rider sb = false →
  users db !! sess_user_id sb = Some passenger →
  bike_rides db !! r = Some ride →
  rider_gender_preference ride = "Any" ∨ gender passenger = rider_gender_preference ride →
  get_ride_datetime (ride_date ride) (ride_time ride) (ride_end_time ride)
    = Some (ride_dt_start, ride_dt_end) →
  now <= ride_dt_end →
  mkBooking r (sess_user_id sa) ∈ bookings db →
  mkBooking r (sess_user_id sb) ∉ bookings db →
  0 < seats_available ride →
  let booked := book_ride sb r now db in
  let released := cancel_commit sa r ride true booked.1 in
  cancel_fetch sa r db = inr ride
  ∧ cancel_check sa r ride now db = None
  ∧ pc booked.2 = Return Booked
  ∧ released.1.2 = Cancelled
  ∧ (∃ row row',
       bike_rides booked.1 !! r = Some row
       ∧ bike_rides released.1.1 !! r = Some row'
       ∧ version row = version ride + 1
       ∧ seats_available row = seats_available ride - 1
       ∧ version row' = version row
       ∧ seats_available row' = seats_available row + 2)
  ∧ (∃ c, capacity db r = Some c ∧ capacity released.1.1 r = Some (c + 1)).
Proof.
  intros Hsa Hsb Hu Hride Hpref Hwin Hnow Ha Hb Hseats. cbv zeta.
  assert (Hbooked : book_ride sb r now db
    = (mkDB (users db)
            (<[r := set_seats_version ride (seats_available ride - 1) (version ride + 1)]>
               (bike_rides db))
            (bookings db ++ [mkBooking r (sess_user_id sb)]),
       perform (request sb r)
         [Notify (rider_id ride) (booked_message (request sb r) ride);
          Email (email passenger) "Booking Confirmed - BikePool"]
         (Return Booked))).
  { rewrite book_ride_alone. cbv zeta. rewrite Hsb, Hu, Hride.
    replace (negb (String.eqb (rider_gender_preference ride) "Any")
             && negb (String.eqb (gender passenger) (rider_gender_preference ride)))
      with false.
    2:{ symmetry. rewrite andb_false_iff, !negb_false_iff, !String.eqb_eq. done. }
    rewrite Hwin. unfold completed_at, Py.lt.
    replace (ride_dt_end <? now) with false by (symmetry; by apply Z.ltb_ge).
    unfold has_booking. rewrite bool_decide_eq_false_2 by done.
    replace (seats_available ride <=? 0) with false by (symmetry; apply Z.leb_gt; lia).
    done. }
  rewrite Hbooked. cbn [fst snd pc perform].
  split; [unfold cancel_fetch; by rewrite Hsa, Hride|].
  split.
  { unfold cancel_check. cbv zeta. rewrite Hwin. unfold completed_at, Py.lt.
    replace (ride_dt_end <? now) with false by (symmetry; by apply Z.ltb_ge).
    unfold has_booking. by rewrite bool_decide_eq_true_2. }
  split; [done|].
  unfold cancel_commit. cbv zeta. cbn [bike_rides users bookings].
  rewrite lookup_insert_eq. cbn [fst snd bike_rides].
  split; [done|]. split.
  - eexists _, _. rewrite !lookup_insert_eq. split; [done|]. split; [done|].
    cbn. repeat split; lia.
  - unfold capacity, bookings_of. rewrite Hride. cbn [bike_rides bookings].
    rewrite lookup_insert_eq. cbn. eexists. split; [done|]. f_equal.
    assert (Hin : mkBooking r (sess_user_id sa)
                    ∈ bookings db ++ [mkBooking r (sess_user_id sb)])
      by (apply elem_of_app; by left).
    pose proof (delete_row_filter_same r (mkBooking r (sess_user_id sa)) _ eq_refl Hin)
      as Hlen.
    rewrite filter_app, filter_cons_True, length_app in Hlen by done.
    cbn in Hlen. lia.
Qed.

Lemma cancel_booking_lost_update_witness :
  bike_rides (cancel_commit Sample.asha_session 5 (set_seats_version Sample.night_ride 1 2)
                true (book_ride Sample.ravi_session 5 Sample.during Sample2.shared).1).1.1
    !! 5 = Some (set_seats_version Sample.night_ride 2 3)
  ∧ bike_rides (book_ride Sample.ravi_session 5 Sample.during Sample2.shared).1 !! 5
    = Some (set_seats_version Sample.night_ride 0 3)
  ∧ capacity Sample2.shared 5 = Some 2
  ∧ capacity (cancel_commit Sample.asha_session 5 (set_seats_version Sample.night_ride 1 2)
                true (book_ride Sample.ravi_session 5 Sample.during Sample2.shared).1).1.1 5
    = Some 3.
Proof.
  destruct (cancel_booking_lost_update Sample.asha_session Sample.ravi_session 5
              Sample.during Sample2.shared Sample.ravi
              (set_seats_version Sample.night_ride 1 2)
              (Py.combine 739000 (Py.hm 23 0)) (Py.combine 739001 (Py.hm 1 0)))
    as (_ & _ & _ & _ & _ & c & Hc & Hc').
  - reflexivity.
  - reflexivity.
  - reflexivity.
  - reflexivity.
  - by left.
  - vm_compute. reflexivity.
  - vm_compute. discriminate.
  - apply elem_of_cons. by left.
  - intros [[=]|[]%elem_of_nil]%elem_of_cons.
  - vm_compute. reflexivity.
  - split; [vm_compute; reflexivity|]. split; [vm_compute; reflexivity|].
    assert (c = 2) as ->.
    { assert (Hc2 : capacity Sample2.shared 5 = Some 2) by (vm_compute; reflexivity).
      congruence. }
    split; [exact Hc|exact Hc'].
Defined.
